(** * Bulk upload of the Liberia water point mapping to a Sunbird RC registry

    A shallow embedding of [data/output/bulk_upload_liberia_wpm.py] and the
    properties of its upload engine: credential refresh, per-record
    submission and outcome classification, bounded retry, the append-only
    progress log and the resume filter built on it.

    Conventions of the model.
    - Python [str] is modelled by [string]: a sequence of code points below
      256 (Latin-1).  [str.lower], [str.strip] and [repr] are written out for
      that range.
    - Python [float] is modelled by an exact rational ([Qc]); rounding is not
      modelled, nor is the overflow of an int too large for a float.  The
      text of a float ([repr]) is supplied by the runtime.
    - The cells of the data frame are scalars; [requests] always manages to
      encode the payload.
    - Console output ([print]) and the prompt for the client secret are not
      modelled; reading and appending the log file never fails. *)

From Stdlib Require Import Ascii String ZArith QArith Qcanon Lia.
From Stdlib Require Import DecimalString.
From stdpp Require Import base decidable option list gmap strings.
From Equations Require Import Equations.

Local Open Scope string_scope.
Local Open Scope Z_scope.

(** ** Python text primitives *)

Module PyText.

Definition code (c : ascii) : N := N_of_ascii c.

(** [str.isspace] on one code point below 256. *)
Definition is_space (c : ascii) : bool :=
  let n := code c in
  ((9 <=? n) && (n <=? 13) || (28 <=? n) && (n <=? 32)
   || (n =? 133) || (n =? 160))%N.

Fixpoint lstrip (s : string) : string :=
  match s with
  | String c s' => if is_space c then lstrip s' else s
  | EmptyString => EmptyString
  end.

Fixpoint rstrip (s : string) : string :=
  match s with
  | String c s' =>
      match rstrip s' with
      | EmptyString => if is_space c then EmptyString else String c EmptyString
      | r => String c r
      end
  | EmptyString => EmptyString
  end.

(** [s.strip()] *)
Definition strip (s : string) : string := rstrip (lstrip s).

(** [s.split(sep)] for a one-character separator: never the empty list. *)
Fixpoint split (sep : ascii) (s : string) : list string :=
  match s with
  | EmptyString => [EmptyString]
  | String c s' =>
      if Ascii.eqb c sep then EmptyString :: split sep s'
      else match split sep s' with
           | f :: fs => String c f :: fs
           | [] => [String c EmptyString]
           end
  end.

(** [c.lower()] on one code point below 256: A-Z, and the Latin-1 capitals
    0xC0-0xDE without the multiplication sign 0xD7. *)
Definition lower_char (c : ascii) : ascii :=
  let n := code c in
  if ((65 <=? n) && (n <=? 90)
      || (192 <=? n) && (n <=? 222) && negb (n =? 215))%N
  then ascii_of_N (n + 32) else c.

Fixpoint lower (s : string) : string :=
  match s with
  | String c s' => String (lower_char c) (lower s')
  | EmptyString => EmptyString
  end.

Fixpoint starts_with (p s : string) : bool :=
  match p, s with
  | EmptyString, _ => true
  | String a p', String b s' => Ascii.eqb a b && starts_with p' s'
  | String _ _, EmptyString => false
  end.

(** [needle in s] *)
Fixpoint contains (needle s : string) : bool :=
  starts_with needle s ||
  match s with
  | String _ s' => contains needle s'
  | EmptyString => false
  end.

(** [s[:n]] *)
Fixpoint take (n : nat) (s : string) : string :=
  match n, s with
  | S n', String c s' => String c (take n' s')
  | _, _ => EmptyString
  end.

(** Iterating a text file opened with the default [newline=None]: lines are
    cut after each line end, and the line ends CR, LF and CR LF all read
    as LF.  A last line without line end is yielded as it is. *)
Fixpoint readlines (s : string) : list string :=
  match s with
  | EmptyString => []
  | String c s' =>
      if Ascii.eqb c "010" then String "010" EmptyString :: readlines s'
      else if Ascii.eqb c "013" then
        match s' with
        | String d s'' =>
            if Ascii.eqb d "010" then String "010" EmptyString :: readlines s''
            else String "010" EmptyString :: readlines s'
        | EmptyString => [String "010" EmptyString]
        end
      else match readlines s' with
           | l :: ls => String c l :: ls
           | [] => [String c EmptyString]
           end
  end.

Definition LF : string := String "010" EmptyString.

(** Decimal text of an integer, as [str(n)] gives it. *)
Definition str_int (z : Z) : string := NilZero.string_of_int (Z.to_int z).

Definition hex_digit (n : N) : ascii :=
  if (n <? 10)%N then ascii_of_N (48 + n) else ascii_of_N (87 + n).

(** One character of [repr(s)], for the chosen quote. *)
Definition repr_char (quote : ascii) (c : ascii) : string :=
  let n := code c in
  if Ascii.eqb c quote || Ascii.eqb c "\" then String "\" (String c EmptyString)
  else if (n =? 9)%N then "\t"
  else if (n =? 10)%N then "\n"
  else if (n =? 13)%N then "\r"
  else if ((n <? 32) || (n =? 127) || (128 <=? n) && (n <=? 160) || (n =? 173))%N
  then String "\" (String "x" (String (hex_digit (n / 16)) (String (hex_digit (n mod 16)) EmptyString)))
  else String c EmptyString.

Fixpoint repr_chars (quote : ascii) (s : string) : string :=
  match s with
  | String c s' => repr_char quote c ++ repr_chars quote s'
  | EmptyString => EmptyString
  end.

Definition apostrophe : ascii := "039".
Definition double_quote : ascii := "034".

(** [repr(s)] for a string: single quotes, unless the text has a single
    quote and no double quote. *)
Definition repr_str (s : string) : string :=
  let quote :=
    if contains (String apostrophe EmptyString) s
       && negb (contains (String double_quote EmptyString) s)
    then double_quote else apostrophe in
  String quote (repr_chars quote s ++ String quote EmptyString).

End PyText.

(** ** Python values *)

(** The values the script handles: cells of the data frame, parsed JSON
    bodies, and the payload it builds.  [VNaN] is the float that is not a
    number (an empty cell of a data frame); a [VDict] lists its items in
    insertion order, with distinct keys. *)
#[warnings="-register-all"]
Inductive pyval : Type :=
| VNone
| VBool (b : bool)
| VInt (z : Z)
| VFloat (q : Qc)
| VNaN
| VStr (s : string)
| VList (items : list pyval)
| VDict (items : list (string * pyval)).

(** Exceptions.  [Timeout] is [requests.exceptions.Timeout]; every other
    constructor is a subclass of [Exception] outside that class. *)
Inductive Exn : Type :=
| Timeout (msg : string)
| KeyError (key : string)
| TypeError (msg : string)
| AttributeError (msg : string)
| ValueError (msg : string)
| ZeroDivisionError (msg : string)
| OtherException (msg : string).

(** What a call of the [requests] library hands back. *)
Record Response : Type := {
  status_code : Z;
  text : string;
  (** the outcome of [response.json()]: a parsed body or a raised fault *)
  json : Exn + pyval
}.

Inductive Request : Type :=
| ReqToken
| ReqCreate (authorization : string) (facility : pyval)
| ReqFetch (authorization : string) (osid : string).

(** What the engine does, in order: the calls of [requests], the
    back-off sleeps, and the forced expiries of the cached token. *)
Inductive Event : Type :=
| EvRequest (r : Request)
| EvSleep (seconds : Z)
| EvInvalidate.

(** Everything outside the script.  The remote side answers a request
    knowing all earlier events (newest first); the wall clock is read by
    [time.time()] and [datetime.now()] alike, [clock k] being the reading
    number [k]; the last three fields are the runtime's float and date
    formatting. *)
Record World : Type := {
  respond : list Event -> Request -> Exn + Response;
  clock : nat -> Qc;
  strftime : Qc -> string;
  float_repr : Qc -> string;
  float_of_text : string -> option pyval
}.

Definition join (sep : string) (l : list string) : string :=
  match l with
  | [] => EmptyString
  | x :: xs => fold_left (fun acc y => acc ++ sep ++ y) xs x
  end.

Section Values.

Context (W : World).

(** [repr(v)] *)
Fixpoint py_repr (v : pyval) : string :=
  match v with
  | VNone => "None"
  | VBool true => "True"
  | VBool false => "False"
  | VInt z => PyText.str_int z
  | VFloat q => float_repr W q
  | VNaN => "nan"
  | VStr s => PyText.repr_str s
  | VList items => "[" ++ join ", " (map py_repr items) ++ "]"
  | VDict items =>
      "{" ++ join ", " (map (fun kv => PyText.repr_str (fst kv) ++ ": " ++ py_repr (snd kv)) items) ++ "}"
  end.

(** [str(v)], also what an f-string puts for [{v}] *)
Definition py_str (v : pyval) : string :=
  match v with
  | VStr s => s
  | _ => py_repr v
  end.

(** Truth value of [v], as [if v], [v and ...], [v or ...] take it. *)
Definition truthy (v : pyval) : bool :=
  match v with
  | VNone => false
  | VBool b => b
  | VInt z => negb (z =? 0)
  | VFloat q => negb (Qeq_bool q 0)
  | VNaN => true
  | VStr s => negb (String.eqb s EmptyString)
  | VList items => match items with [] => false | _ => true end
  | VDict items => match items with [] => false | _ => true end
  end.

(** [str(e)] *)
Definition str_exn (e : Exn) : string :=
  match e with
  | Timeout m | TypeError m | AttributeError m | ValueError m
  | ZeroDivisionError m | OtherException m => m
  | KeyError k => PyText.repr_str k
  end.

End Values.

Fixpoint dict_get (items : list (string * pyval)) (key : string) : option pyval :=
  match items with
  | [] => None
  | (k, v) :: rest => if String.eqb k key then Some v else dict_get rest key
  end.

Definition type_name (v : pyval) : string :=
  match v with
  | VNone => "NoneType" | VBool _ => "bool" | VInt _ => "int"
  | VFloat _ | VNaN => "float" | VStr _ => "str"
  | VList _ => "list" | VDict _ => "dict"
  end.

(** [v[key]] for a string key. *)
Definition subscript (v : pyval) (key : string) : Exn + pyval :=
  match v with
  | VDict items =>
      match dict_get items key with
      | Some x => inr x
      | None => inl (KeyError key)
      end
  | VStr _ => inl (TypeError "string indices must be integers, not 'str'")
  | VList _ => inl (TypeError "list indices must be integers or slices, not str")
  | _ => inl (TypeError ("'" ++ type_name v ++ "' object is not subscriptable"))
  end.

(** [v.get(key)]: only a dict has the method. *)
Definition dot_get (v : pyval) (key : string) : Exn + pyval :=
  match v with
  | VDict items => inr (default VNone (dict_get items key))
  | _ => inl (AttributeError ("'" ++ type_name v ++ "' object has no attribute 'get'"))
  end.

(** ** State and effects *)

(** The two entries of [TOKEN_DATA]; the texts appended to [LOG_FILE],
    oldest first (the file holds them one after the other, and a missing
    file is a file nothing was appended to); the events so far, newest
    first; and the number of clock readings taken. *)
Record State : Type := {
  access_token : pyval;
  (** [None] is the float that is not a number *)
  expires_at : option Qc;
  log_file : list string;
  events : list Event;
  clock_reads : nat
}.

Inductive outcome (A : Type) : Type :=
| Val (a : A)
| Exc (e : Exn).
Arguments Val {A} a.
Arguments Exc {A} e.

(** A computation of the script: it ends in a value or a raised exception,
    and the state it leaves stays either way. *)
Definition M (A : Type) : Type := State -> outcome A * State.

Definition ret {A} (a : A) : M A := fun s => (Val a, s).
Definition raise {A} (e : Exn) : M A := fun s => (Exc e, s).
Definition bind {A B} (c : M A) (k : A -> M B) : M B :=
  fun s => match c s with
           | (Val a, s') => k a s'
           | (Exc e, s') => (Exc e, s')
           end.
(** [try: c  except ... as e: h e] *)
Definition try_except {A} (c : M A) (h : Exn -> M A) : M A :=
  fun s => match c s with
           | (Val a, s') => (Val a, s')
           | (Exc e, s') => h e s'
           end.
Definition lift {A} (x : Exn + A) : M A :=
  match x with inl e => raise e | inr a => ret a end.

(** Sequencing of pure code that may raise. *)
Definition and_then {A B} (x : Exn + A) (k : A -> Exn + B) : Exn + B :=
  match x with inl e => inl e | inr a => k a end.

Notation "'let*' x ':=' c 'in' k" := (bind c (fun x => k))
  (at level 10, x name, c at level 100, k at level 200).
Notation "'let+' x ':=' c 'in' k" := (and_then c (fun x => k))
  (at level 10, x name, c at level 100, k at level 200).
Notation "'do' c 'then' k" := (bind c (fun _ => k))
  (at level 10, c at level 100, k at level 200).

Definition set_access_token (v : pyval) : M unit :=
  fun s => (Val tt, {| access_token := v; expires_at := expires_at s;
                       log_file := log_file s; events := events s;
                       clock_reads := clock_reads s |}).
Definition set_expires_at (q : option Qc) : M unit :=
  fun s => (Val tt, {| access_token := access_token s; expires_at := q;
                       log_file := log_file s; events := events s;
                       clock_reads := clock_reads s |}).
Definition append_log (line : string) : M unit :=
  fun s => (Val tt, {| access_token := access_token s; expires_at := expires_at s;
                       log_file := (log_file s ++ [line])%list; events := events s;
                       clock_reads := clock_reads s |}).
Definition emit (ev : Event) (s : State) : State :=
  {| access_token := access_token s; expires_at := expires_at s;
     log_file := log_file s; events := ev :: events s;
     clock_reads := clock_reads s |}.

Definition max_retries : nat := 3.

(** The dict [upload_facility] returns; an id that is [None] or whose key
    is absent is [VNone], which is what [result.get] makes of both. *)
Record UploadResult : Type := {
  status : string;
  message : string;
  osid : pyval;
  wfId : pyval
}.

Definition failure (msg : string) : UploadResult :=
  {| status := "FAILED"; message := msg; osid := VNone; wfId := VNone |}.

Section Engine.

Context (W : World).

(** One reading of the wall clock. *)
Definition now : M Qc :=
  fun s => (Val (clock W (clock_reads s)),
            {| access_token := access_token s; expires_at := expires_at s;
               log_file := log_file s; events := events s;
               clock_reads := S (clock_reads s) |}).

(** One call of [requests.post] or [requests.get]. *)
Definition send (r : Request) : M Response :=
  fun s => match respond W (events s) r with
           | inr resp => (Val resp, emit (EvRequest r) s)
           | inl e => (Exc e, emit (EvRequest r) s)
           end.

Definition sleep (seconds : Z) : M unit :=
  fun s => (Val tt, emit (EvSleep seconds) s).

(** [TOKEN_DATA["expires_at"] = 0], which forces the next call of
    [get_auth_headers] to fetch a token. *)
Definition invalidate : M unit :=
  do set_expires_at (Some (Q2Qc 0)) then
  fun s => (Val tt, emit EvInvalidate s).

(** [t + v] for a float [t]: a number or a bool adds, anything else is a
    [TypeError]. *)
Definition add_to_float (t : Qc) (v : pyval) : Exn + option Qc :=
  match v with
  | VInt z => inr (Some (t + Q2Qc (inject_Z z))%Qc)
  | VFloat q => inr (Some (t + q)%Qc)
  | VBool b => inr (Some (t + Q2Qc (inject_Z (if b then 1 else 0)))%Qc)
  | VNaN => inr None
  | _ => inl (TypeError ("unsupported operand type(s) for +: 'float' and '"
                         ++ type_name v ++ "'"))
  end.

Definition get_token : M bool :=
  let* response := send ReqToken in
  if status_code response =? 200 then
    let* data := lift (json response) in
    let* token := lift (subscript data "access_token") in
    do set_access_token token then
    let* t := now in
    let* expires_in := lift (subscript data "expires_in") in
    let* sum := lift (add_to_float t expires_in) in
    do set_expires_at (option_map (fun x => (x - Q2Qc (inject_Z 30))%Qc) sum) then
    ret true
  else ret false.

(** [time.time() >= TOKEN_DATA["expires_at"]] *)
Definition expired (t : Qc) (limit : option Qc) : bool :=
  match limit with
  | Some l => Qle_bool l t
  | None => false
  end.

(** The headers differ only in the [Authorization] line, which is what
    the model keeps of them. *)
Definition get_auth_headers : M string :=
  let* stale :=
    (fun s => match access_token s with
              | VNone => ret true s
              | _ => (let* t := now in
                      fun s' => ret (expired t (expires_at s')) s') s
              end) in
  do (if stale : bool then
        let* ok := get_token in
        if ok : bool then ret tt
        else raise (OtherException "Failed to obtain access token")
      else ret tt) then
  fun s => ret ("Bearer " ++ py_str W (access_token s)) s.

(** The 500 branch: a body that parses and whose text mentions
    "duplicate" or "unique" is a duplicate; a body that does not parse is
    skipped by the bare [except]. *)
Definition is_duplicate_error (response : Response) : bool :=
  match json response with
  | inr error_data =>
      let error_msg := py_str W error_data in
      PyText.contains "duplicate" (PyText.lower error_msg)
      || PyText.contains "unique" (PyText.lower error_msg)
  | inl _ => false
  end.

#[local] Obligation Tactic := intros; unfold max_retries in *; lia.

Equations upload_facility (facility : pyval) (retry_count : nat) : M UploadResult
  by wf (max_retries - retry_count)%nat lt :=
upload_facility facility retry_count :=
  try_except
    (let* headers := get_auth_headers in
     let* response := send (ReqCreate headers facility) in
     if status_code response =? 200 then
       let* result := lift (json response) in
       let* r1 := lift (subscript result "result") in
       let* r2 := lift (subscript r1 "WaterFacility") in
       let* osid := lift (subscript r2 "osid") in
       let* fetch_response := send (ReqFetch headers (py_str W osid)) in
       let* wf_id :=
         (if status_code fetch_response =? 200 then
            let* body := lift (json fetch_response) in
            lift (dot_get body "wfId")
          else ret VNone) in
       ret {| status := "SUCCESS"; message := "Created"; osid := osid; wfId := wf_id |}
     else if status_code response =? 401 then
       match lt_dec retry_count max_retries with
       | left _ =>
           do invalidate then
           upload_facility facility (S retry_count)
       | right _ =>
           ret (failure ("Auth failed after " ++ PyText.str_int (Z.of_nat max_retries) ++ " retries"))
       end
     else if status_code response =? 500 then
       if is_duplicate_error response then
         ret {| status := "DUPLICATE"; message := "Duplicate wfId"; osid := VNone; wfId := VNone |}
       else
         ret (failure ("Server error: " ++ PyText.take 200 (text response)))
     else
       ret (failure ("HTTP " ++ PyText.str_int (status_code response) ++ ": "
                    ++ PyText.take 200 (text response))))
    (fun e =>
       match e with
       | Timeout _ =>
           match lt_dec retry_count max_retries with
           | left _ =>
               do sleep 2 then
               upload_facility facility (S retry_count)
           | right _ => ret (failure "Timeout after retries")
           end
       | _ => ret (failure (PyText.take 200 (str_exn e)))
       end).

End Engine.

(** ** The upload log *)

(** [line.strip().split('|')] *)
Definition parts_of (line : string) : list string :=
  PyText.split "|" (PyText.strip line).

Definition is_success_line (line : string) : bool :=
  let parts := parts_of line in
  (3 <=? length parts)%nat && bool_decide (parts !! 1%nat = Some "SUCCESS").

(** The loop of [load_uploaded_records] over the content of the log. *)
Definition uploaded_of (content : string) : gset string :=
  fold_left
    (fun uploaded line =>
       if is_success_line line
       then uploaded ∪ {[ default EmptyString (parts_of line !! 0%nat) ]}
       else uploaded)
    (PyText.readlines content) ∅.

(** The text of the file, from what was appended to it. *)
Definition file_text (appended : list string) : string :=
  fold_right String.append EmptyString appended.

Definition load_uploaded_records : M (gset string) :=
  fun s => (Val (uploaded_of (file_text (log_file s))), s).

Record Stats : Type := {
  success : nat;
  failed : nat;
  duplicate : nat
}.

Definition count_line (st : Stats) (line : string) : Stats :=
  let parts := parts_of line in
  if (2 <=? length parts)%nat then
    if bool_decide (parts !! 1%nat = Some "SUCCESS") then
      {| success := S (success st); failed := failed st; duplicate := duplicate st |}
    else if bool_decide (parts !! 1%nat = Some "DUPLICATE") then
      {| success := success st; failed := failed st; duplicate := S (duplicate st) |}
    else if bool_decide (parts !! 1%nat = Some "FAILED") then
      {| success := success st; failed := S (failed st); duplicate := duplicate st |}
    else st
  else st.

(** The loop of [get_upload_stats] over the content of the log. *)
Definition stats_of (content : string) : Stats :=
  fold_left count_line (PyText.readlines content)
            {| success := 0; failed := 0; duplicate := 0 |}.

Definition get_upload_stats : M Stats :=
  fun s => (Val (stats_of (file_text (log_file s))), s).

Section Log.

Context (W : World).

(** [x or ''] *)
Definition or_empty (x : pyval) : pyval :=
  if truthy x then x else VStr EmptyString.

(** The line [log_result] formats, for a given time stamp. *)
Definition log_entry (geo_code : pyval) (status message : string)
    (osid wf_id : pyval) (timestamp : string) : string :=
  py_str W geo_code ++ "|" ++ status ++ "|" ++ message ++ "|"
  ++ py_str W (or_empty osid) ++ "|" ++ py_str W (or_empty wf_id) ++ "|"
  ++ timestamp ++ PyText.LF.

Definition log_result (geo_code : pyval) (status message : string)
    (osid wf_id : pyval) : M unit :=
  let* t := now W in
  append_log (log_entry geo_code status message osid wf_id (strftime W t)).

End Log.

(** ** The transform of one row *)

(** A row of the data frame, as [iterrows] yields it: the cells by column
    name. *)
Definition Row : Type := list (string * pyval).

(** [row[column]] *)
Definition row_item (row : Row) (column : string) : Exn + pyval :=
  match dict_get row column with
  | Some v => inr v
  | None => inl (KeyError column)
  end.

(** [row.get(column)] *)
Definition row_get (row : Row) (column : string) : pyval :=
  default VNone (dict_get row column).

(** [pd.notna(v)] on one cell *)
Definition notna (v : pyval) : bool :=
  match v with
  | VNone | VNaN => false
  | _ => true
  end.

Section Transform.

Context (W : World).

(** [float(v)] *)
Definition py_float (v : pyval) : Exn + pyval :=
  match v with
  | VInt z => inr (VFloat (Q2Qc (inject_Z z)))
  | VBool b => inr (VFloat (Q2Qc (inject_Z (if b then 1 else 0))))
  | VFloat q => inr (VFloat q)
  | VNaN => inr VNaN
  | VStr s =>
      match float_of_text W s with
      | Some f => inr f
      | None => inl (ValueError ("could not convert string to float: " ++ PyText.repr_str s))
      end
  | _ => inl (TypeError ("float() argument must be a string or a real number, not '"
                         ++ type_name v ++ "'"))
  end.

(** [float(row[c]) if pd.notna(row[c]) else None] *)
Definition coordinate (row : Row) (column : string) : Exn + pyval :=
  let+ v := row_item row column in
  if notna v then py_float v else inr VNone.

(** [if pd.notna(row.get(c)): facility[key] = row[c]] *)
Definition copy_if_present (row : Row) (column key : string)
    (facility : list (string * pyval)) : Exn + list (string * pyval) :=
  if notna (row_get row column) then
    let+ v := row_item row column in inr (facility ++ [(key, v)])%list
  else inr facility.

(** [if pd.notna(row.get(c)) and row[c]: facility[key] = row[c]] *)
Definition copy_if_set (row : Row) (column key : string)
    (facility : list (string * pyval)) : Exn + list (string * pyval) :=
  if notna (row_get row column) then
    let+ v := row_item row column in
    if truthy v then inr (facility ++ [(key, v)])%list else inr facility
  else inr facility.

(** [if pd.notna(row.get(c)): facility[key] = float(row[c])] *)
Definition float_if_present (row : Row) (column key : string)
    (facility : list (string * pyval)) : Exn + list (string * pyval) :=
  if notna (row_get row column) then
    let+ v := row_item row column in
    let+ f := py_float v in inr (facility ++ [(key, f)])%list
  else inr facility.

(** [if pd.notna(row.get(c)): facility[key] = str(row[c]).lower() == 'yes'] *)
Definition yes_if_present (row : Row) (column key : string)
    (facility : list (string * pyval)) : Exn + list (string * pyval) :=
  if notna (row_get row column) then
    let+ v := row_item row column in
    inr (facility ++ [(key, VBool (String.eqb (PyText.lower (py_str W v)) "yes"))])%list
  else inr facility.

Definition row_to_facility (row : Row) : Exn + pyval :=
  let+ geo_code := row_item row "geo_code" in
  let+ water_point_type := row_item row "water_point_type" in
  let+ county := row_item row "county" in
  let+ district := row_item row "district" in
  let+ community := row_item row "community" in
  let+ lat := coordinate row "lat" in
  let+ lon := coordinate row "lon" in
  let+ elevation := coordinate row "elevation" in
  let coordinates :=
    List.filter (fun kv => match snd kv with VNone => false | _ => true end)
                [("lat", lat); ("lon", lon); ("elevation", elevation)] in
  let location :=
    ([("county", county); ("district", district); ("community", community)]
     ++ match coordinates with
        | [] => []
        | _ => [("coordinates", VDict coordinates)]
        end)%list in
  let facility :=
    [("geoCode", VStr (py_str W geo_code));
     ("waterPointType", water_point_type);
     ("location", VDict location)] in
  let+ facility := copy_if_present row "water_point_type_other" "waterPointTypeOther" facility in
  let+ facility := copy_if_set row "extraction_type" "extractionType" facility in
  let+ facility := copy_if_present row "extraction_type_other" "extractionTypeOther" facility in
  let+ facility := copy_if_set row "pump_type" "pumpType" facility in
  let+ facility := copy_if_present row "pump_type_other" "pumpTypeOther" facility in
  let+ facility := float_if_present row "num_taps" "numTaps" facility in
  let+ facility := yes_if_present row "has_depth_info" "hasDepthInfo" facility in
  let+ facility := float_if_present row "depth_metres" "depthMetres" facility in
  let+ facility := copy_if_set row "installer" "installer" facility in
  let+ facility := copy_if_present row "installer_other" "installerOther" facility in
  let+ facility := copy_if_set row "owner" "owner" facility in
  let+ facility := copy_if_set row "funder" "funder" facility in
  let+ facility := copy_if_set row "photo_url" "photoUrl" facility in
  inr (VDict facility).

End Transform.

(** ** The driver *)

(** [a / b] where one side at least is a float, as every division of
    the driver is: a zero divisor raises the fault of the float
    division. *)
Definition py_div (a b : Qc) : Exn + Qc :=
  if Qc_eq_dec b (Q2Qc 0) then inl (ZeroDivisionError "float division by zero")
  else inr (a / b)%Qc.

Definition Qc_of_nat (n : nat) : Qc := Q2Qc (inject_Z (Z.of_nat n)).

(** The rate and the time left that a progress line shows. *)
Record Progress : Type := {
  rate : Qc;
  eta_minutes : Qc
}.

(** The arithmetic of the progress update, from the elapsed seconds:
    [rate], [eta_seconds] and [eta_minutes]. *)
Definition progress_update (idx total : nat) (elapsed : Qc) : Exn + Progress :=
  let+ rate :=
    (if Qclt_le_dec (Q2Qc 0) elapsed then py_div (Qc_of_nat idx) elapsed
     else inr (Q2Qc 0)) in
  let+ eta_seconds :=
    (if Qclt_le_dec (Q2Qc 0) rate
     then py_div (Qc_of_nat total - Qc_of_nat idx)%Qc rate
     else inr (Q2Qc 0)) in
  let+ eta_minutes := py_div eta_seconds (Qc_of_nat 60) in
  inr {| rate := rate; eta_minutes := eta_minutes |}.

Record Summary : Type := {
  total : nat;
  n_success : nat;
  n_duplicates : nat;
  n_failed : nat;
  duration_seconds : Qc
}.

(** The three counters of [bulk_upload]: success, duplicate, failed. *)
Record Counters : Type := {
  success_count : nat;
  duplicate_count : nat;
  failed_count : nat
}.

Definition count_result (c : Counters) (r : UploadResult) : Counters :=
  if String.eqb (status r) "SUCCESS" then
    {| success_count := S (success_count c); duplicate_count := duplicate_count c;
       failed_count := failed_count c |}
  else if String.eqb (status r) "DUPLICATE" then
    {| success_count := success_count c; duplicate_count := S (duplicate_count c);
       failed_count := failed_count c |}
  else
    {| success_count := success_count c; duplicate_count := duplicate_count c;
       failed_count := S (failed_count c) |}.

Definition count_failed (c : Counters) : Counters :=
  {| success_count := success_count c; duplicate_count := duplicate_count c;
     failed_count := S (failed_count c) |}.

Section Driver.

Context (W : World).

(** [idx % batch_size == 0 or idx == total] *)
Definition progress_due (idx batch_size total : nat) : Exn + bool :=
  match batch_size with
  | O => inl (ZeroDivisionError "integer modulo by zero")
  | _ => inr ((idx mod batch_size =? 0)%nat || (idx =? total)%nat)
  end.

(** The body of the loop of [bulk_upload] for the row number [idx]. *)
Definition upload_row (total batch_size : nat) (start_time : Qc)
    (idx : nat) (row : Row) (c : Counters) : M Counters :=
  let* geo_code := lift (row_item row "geo_code") in
  match row_to_facility W row with
  | inl e =>
      do log_result W geo_code "FAILED" ("Transform error: " ++ str_exn e) VNone VNone then
      ret (count_failed c)
  | inr facility =>
      let* result := upload_facility W facility 0 in
      do log_result W geo_code (status result) (message result)
                    (osid result) (wfId result) then
      let c' := count_result c result in
      let* due := lift (progress_due idx batch_size total) in
      do (if due : bool then
            let* t := now W in
            let* _p := lift (progress_update idx total (t - start_time)%Qc) in
            let* _percent := lift (py_div (Qc_of_nat (idx * 100)) (Qc_of_nat total)) in
            ret tt
          else ret tt) then
      ret c'
  end.

Fixpoint upload_rows (total batch_size : nat) (start_time : Qc)
    (idx : nat) (rows : list Row) (c : Counters) : M Counters :=
  match rows with
  | [] => ret c
  | row :: rest =>
      let* c' := upload_row total batch_size start_time idx row c in
      upload_rows total batch_size start_time (S idx) rest c'
  end.

Definition bulk_upload (df : list Row) (batch_size : nat) : M Summary :=
  let total := length df in
  let* start_time := now W in
  let* c := upload_rows total batch_size start_time 1 df
              {| success_count := 0; duplicate_count := 0; failed_count := 0 |} in
  let* end_time := now W in
  let duration := (end_time - start_time)%Qc in
  let* _minutes := lift (py_div duration (Qc_of_nat 60)) in
  let* _average := lift (py_div (Qc_of_nat total) duration) in
  ret {| total := total; n_success := success_count c;
         n_duplicates := duplicate_count c; n_failed := failed_count c;
         duration_seconds := duration |}.

(** [df['geo_code']]: the cell of every row. *)
Fixpoint geo_codes (df : list Row) : Exn + list pyval :=
  match df with
  | [] => inr []
  | row :: rest =>
      let+ k := row_item row "geo_code" in
      let+ ks := geo_codes rest in
      inr (k :: ks)
  end.

(** One cell of [df['geo_code'].isin(uploaded_records)]: the set holds
    strings, and only a string cell equals one of them. *)
Definition isin (cell : pyval) (uploaded : gset string) : bool :=
  match cell with
  | VStr s => bool_decide (s ∈ uploaded)
  | _ => false
  end.

(** [df[~df['geo_code'].isin(uploaded_records)]] *)
Definition not_uploaded (df : list Row) (uploaded : gset string) : list Row :=
  List.filter (fun row => negb (isin (row_get row "geo_code") uploaded)) df.

Inductive MainResult : Type :=
| Exited (code : Z)
| NothingToUpload
| Aborted
| Uploaded (results : Summary).

(** [main], from the initial token fetch on.  [df] is what [pd.read_csv]
    read and [answer] what the operator types at the prompt. *)
Definition main (df : list Row) (answer : string) : M MainResult :=
  let* ok := get_token W in
  if negb ok then ret (Exited 1) else
  let* _shown := (fun s => match expires_at s with
                           | Some _ => ret tt s
                           | None => raise (ValueError "cannot convert float NaN to integer") s
                           end) in
  let* _stats := get_upload_stats in
  let* uploaded_records := load_uploaded_records in
  let* _column := lift (geo_codes df) in
  let df_to_upload := not_uploaded df uploaded_records in
  if (length df_to_upload =? 0)%nat then ret NothingToUpload else
  if negb (String.eqb (PyText.lower answer) "y") then ret Aborted else
  let* results := bulk_upload df_to_upload 50 in
  ret (Uploaded results).

End Driver.

(** ** Reasoning about computations *)

(** [wp c s P Q]: run from [s], the computation [c] ends in a value and a
    state that satisfy [P], or in an exception and a state that satisfy
    [Q]. *)
Definition wp {A} (c : M A) (s : State) (P : A -> State -> Prop)
    (Q : Exn -> State -> Prop) : Prop :=
  match c s with
  | (Val a, s') => P a s'
  | (Exc e, s') => Q e s'
  end.

(** The events added between two states, newest first. *)
Definition added (s s' : State) (new : list Event) : Prop :=
  events s' = (new ++ events s)%list.

Definition is_create (ev : Event) : bool :=
  match ev with EvRequest (ReqCreate _ _) => true | _ => false end.
Definition is_token (ev : Event) : bool :=
  match ev with EvRequest ReqToken => true | _ => false end.
Definition is_fetch (ev : Event) : bool :=
  match ev with EvRequest (ReqFetch _ _) => true | _ => false end.
Definition is_sleep (ev : Event) : bool :=
  match ev with EvSleep _ => true | _ => false end.

Definition is_invalidate (ev : Event) : bool :=
  match ev with EvInvalidate => true | _ => false end.
(** A retry shows as the sleep or the forced expiry that precedes it. *)
Definition is_retry (ev : Event) : bool := is_sleep ev || is_invalidate ev.

Definition count (p : Event -> bool) (evs : list Event) : nat :=
  length (List.filter p evs).

(** The three outcomes of a submission. *)
Definition is_outcome (st : string) : Prop :=
  st = "SUCCESS" \/ st = "DUPLICATE" \/ st = "FAILED".

(** What the engine may do to the state: it leaves the log alone and adds
    the events [new]. *)
Definition engine_step (s s' : State) (new : list Event) : Prop :=
  log_file s' = log_file s /\ added s s' new.

(** The return statements of [upload_facility]. *)
Inductive returned : UploadResult -> Prop :=
| ret_created osid wf_id :
    returned {| status := "SUCCESS"; message := "Created"; osid := osid; wfId := wf_id |}
| ret_auth_failed :
    returned (failure "Auth failed after 3 retries")
| ret_duplicate :
    returned {| status := "DUPLICATE"; message := "Duplicate wfId"; osid := VNone; wfId := VNone |}
| ret_server_error body :
    returned (failure ("Server error: " ++ PyText.take 200 body))
| ret_http code body :
    returned (failure ("HTTP " ++ PyText.str_int code ++ ": " ++ PyText.take 200 body))
| ret_timeout :
    returned (failure "Timeout after retries")
| ret_fault e :
    returned (failure (PyText.take 200 (str_exn e))).

(** A creation request, if [ev] is one, carries the payload [facility]. *)
Definition creates_only (facility : pyval) (ev : Event) : Prop :=
  match ev with
  | EvRequest (ReqCreate _ f) => f = facility
  | _ => True
  end.

(** What one attempt has done so far: no retry yet, one creation request
    at most, for the payload [facility]. *)
Definition attempt (facility : pyval) (s s1 : State) : Prop :=
  exists new,
    engine_step s s1 new /\
    Forall (creates_only facility) new /\
    (count is_create new <= 1)%nat /\
    count is_retry new = 0%nat.

(** What a call [upload_facility facility retry_count] leaves behind. *)
Definition upload_post (facility : pyval) (retry_count : nat) (s : State)
    (r : UploadResult) (s' : State) : Prop :=
  returned r /\
  exists new,
    engine_step s s' new /\
    Forall (creates_only facility) new /\
    (count is_create new <= S (max_retries - retry_count))%nat /\
    (count is_retry new <= max_retries - retry_count)%nat.

(** The id of the created resource in the body of a 200 answer:
    [result['result']['WaterFacility']['osid']]. *)
Definition created_osid (result : pyval) : Exn + pyval :=
  let+ r1 := subscript result "result" in
  let+ r2 := subscript r1 "WaterFacility" in
  subscript r2 "osid".

(** Whether [get_auth_headers] fetches a token when called in [s]. *)
Definition stale (W : World) (s : State) : bool :=
  match access_token s with
  | VNone => true
  | _ => expired (clock W (clock_reads s)) (expires_at s)
  end.

(** The events of one call of [get_auth_headers] in [s] when the token
    endpoint works. *)
Definition refreshed (W : World) (s : State) : list Event :=
  if stale W s then [EvRequest ReqToken] else [].

(** ** Scripted remote sides, for scenarios *)

Definition reply (code : Z) (body : string) (parsed : Exn + pyval) : Exn + Response :=
  inr {| status_code := code; text := body; json := parsed |}.

(** A successful client-credentials exchange. *)
Definition token_reply (token : pyval) (expires_in : Z) : Exn + Response :=
  reply 200 EmptyString
        (inr (VDict [("access_token", token); ("expires_in", VInt expires_in)])).

(** [s] between double quotes, as a JSON text writes a string. *)
Definition quoted (s : string) : string :=
  String PyText.double_quote (s ++ String PyText.double_quote EmptyString).

Definition not_json : Exn + pyval :=
  inl (OtherException "Expecting value: line 1 column 1 (char 0)").

(** The remote side that gives the same answer to every token request and
    to every fetch, and answers the creation requests from a script, in
    order; once the script is used up the connection fails. *)
Definition scripted (base : World) (token : Exn + Response)
    (creates : list (Exn + Response)) (fetch : Exn + Response) : World :=
  {| respond := fun evs r =>
       match r with
       | ReqToken => token
       | ReqCreate _ _ =>
           nth (count is_create evs) creates (inl (OtherException "Connection refused"))
       | ReqFetch _ _ => fetch
       end;
     clock := clock base;
     strftime := strftime base;
     float_repr := float_repr base;
     float_of_text := float_of_text base |}.

(** The state the script starts in: [TOKEN_DATA] as the module sets it, no
    log file, nothing done yet. *)
Definition initial_state : State :=
  {| access_token := VNone; expires_at := Some (Q2Qc 0);
     log_file := []; events := []; clock_reads := 0 |}.

(** A world for the scenarios: nobody answers, and the clock advances by
    one second at each reading. *)
Definition offline : World :=
  {| respond := fun _ _ => inl (OtherException "Connection refused");
     clock := fun k => Q2Qc (inject_Z (1700000000 + Z.of_nat k));
     strftime := fun _ => "2025-01-01 00:00:00";
     float_repr := fun _ => "0.0";
     float_of_text := fun _ => None |}.

Definition unauthorized : Response :=
  {| status_code := 401; text := "Unauthorized"; json := not_json |}.

Definition not_found : Response :=
  {| status_code := 404; text := "Not Found"; json := not_json |}.

Definition created_response (osid : pyval) : Response :=
  {| status_code := 200; text := EmptyString;
     json := inr (VDict [("result", VDict [("WaterFacility", VDict [("osid", osid)])])]) |}.

(** Four 401 answers in a row. *)
Definition always_unauthorized : World :=
  scripted offline (token_reply (VStr "t0") 300)
           [inr unauthorized; inr unauthorized; inr unauthorized; inr unauthorized]
           (inr not_found).

(** A 503 whose JSON body speaks of a duplicate. *)
Definition unavailable_duplicate : World :=
  scripted offline (token_reply (VStr "t0") 300)
           [reply 503 ("{" ++ quoted "message" ++ ": " ++ quoted "duplicate key value" ++ "}")
                  (inr (VDict [("message", VStr "duplicate key value")]))]
           (inr not_found).

(** A 500 whose body is the plain text of a constraint violation. *)
Definition plain_unique_violation : World :=
  scripted offline (token_reply (VStr "t0") 300)
           [reply 500 "unique constraint violation" not_json]
           (inr not_found).

Definition unique_violation : Response :=
  {| status_code := 500;
     text := "{" ++ quoted "error" ++ ": " ++ quoted "unique constraint violation" ++ "}";
     json := inr (VDict [("error", VStr "unique constraint violation")]) |}.

(** A 500 whose JSON body carries the text of a constraint violation. *)
Definition json_unique_violation : World :=
  scripted offline (token_reply (VStr "t0") 300) [inr unique_violation]
           (inr not_found).

(** A creation answered 201. *)
Definition created_201 : World :=
  scripted offline (token_reply (VStr "t0") 300)
           [reply 201 "Created" (json (created_response (VStr "1-abc")))]
           (inr not_found).

(** A creation answered 200, the fetch answered 404. *)
Definition created_fetch_refused : World :=
  scripted offline (token_reply (VStr "t0") 300)
           [inr (created_response (VStr "1-abc"))]
           (inr not_found).

(** Three timeouts, then a 401. *)
Definition timeouts_then_unauthorized : World :=
  scripted offline (token_reply (VStr "t0") 300)
           [inl (Timeout "Read timed out."); inl (Timeout "Read timed out.");
            inl (Timeout "Read timed out."); inr unauthorized]
           (inr not_found).

(** The reading of the specification by which the two failure classes have
    a retry budget each: a submission gives up on 401 only after three
    forced expiries, and on timeouts only after three back-off sleeps. *)
Definition independent_budgets : Prop :=
  forall W facility s r s' new,
    upload_facility W facility 0 s = (Val r, s') ->
    added s s' new ->
    (r = failure "Auth failed after 3 retries" -> count is_invalidate new = 3%nat) /\
    (r = failure "Timeout after retries" -> count is_sleep new = 3%nat).

(** ** What a run leaves in the log *)

(** What the loop of [bulk_upload] does for one row: the line it appends
    and the events it adds.  A row whose transform raises gets a FAILED
    line and no event at all; any other row gets the line of the result of
    its submission, and no creation request but for its own payload. *)
Definition row_step (W : World) (row : Row) (step : string * list Event) : Prop :=
  exists geo_code timestamp,
    row_item row "geo_code" = inr geo_code /\
    match row_to_facility W row with
    | inl e =>
        fst step = log_entry W geo_code "FAILED" ("Transform error: " ++ str_exn e)
                             VNone VNone timestamp /\
        snd step = []
    | inr facility =>
        exists r,
          returned r /\
          fst step = log_entry W geo_code (status r) (message r) (osid r) (wfId r)
                               timestamp /\
          Forall (creates_only facility) (snd step)
    end.

(** What the loop does for the rows [rows]: one step for each, in order. *)
Definition rows_done (W : World) (rows : list Row) (s s' : State) : Prop :=
  exists steps,
    Forall2 (row_step W) rows steps /\
    log_file s' = (log_file s ++ map fst steps)%list /\
    events s' = (concat (rev (map snd steps)) ++ events s)%list.

Definition has_geo_code (row : Row) : Prop :=
  exists geo_code, row_item row "geo_code" = inr geo_code.

(** ** What the log says about a key *)

(** A line of the log that [load_uploaded_records] takes for a success of
    the key [k]. *)
Definition success_line_of (k : string) (line : string) : Prop :=
  (3 <= length (parts_of line))%nat /\
  parts_of line !! 0%nat = Some k /\
  parts_of line !! 1%nat = Some "SUCCESS".

(** The key [k] has a SUCCESS entry in the log. *)
Definition has_success_entry (content : string) (k : string) : Prop :=
  exists line, In line (PyText.readlines content) /\ success_line_of k line.

(** All the entries of the key [k] in the log are DUPLICATE or FAILED. *)
Definition only_duplicate_or_failed (content : string) (k : string) : Prop :=
  forall line,
    In line (PyText.readlines content) ->
    parts_of line !! 0%nat = Some k ->
    parts_of line !! 1%nat = Some "DUPLICATE" \/ parts_of line !! 1%nat = Some "FAILED".

(** The cell [geo_code] of the row is a text. *)
Definition text_keyed (row : Row) : Prop :=
  exists k, row_item row "geo_code" = inr (VStr k).

(** A creation request for the key [k]. *)
Definition submits (k : string) (ev : Event) : Prop :=
  exists authorization facility,
    ev = EvRequest (ReqCreate authorization facility) /\
    subscript facility "geoCode" = inr (VStr k).

(** The dict [items] begins with the item [kv]. *)
Definition headed (kv : string * pyval) (items : list (string * pyval)) : Prop :=
  exists rest, items = kv :: rest.

(** What an invocation of [main] leaves behind: the initial token request,
    and then either nothing more, or the steps of the rows that the log
    does not list as uploaded. *)
Definition main_done (W : World) (df : list Row) (s s' : State) : Prop :=
  exists s1,
    log_file s1 = log_file s /\
    events s1 = EvRequest ReqToken :: events s /\
    ((log_file s' = log_file s1 /\ events s' = events s1) \/
     rows_done W (not_uploaded df (uploaded_of (file_text (log_file s)))) s1 s').

(** ** The scenario of three records *)

Definition record (key : string) (lat : pyval) : Row :=
  [("geo_code", VStr key); ("water_point_type", VStr "Hand pump");
   ("county", VStr "Bong"); ("district", VStr "Jorquelleh");
   ("community", VStr "Gbarnga"); ("lat", lat); ("lon", VNaN);
   ("elevation", VNaN)].

Definition record_A : Row := record "A1" VNaN.
Definition record_B : Row := record "B2" VNaN.
(** A latitude that is no number makes the transform raise. *)
Definition record_C : Row := record "C3" (VStr "n/a").

Definition fetched_X1 : Response :=
  {| status_code := 200; text := "{" ++ quoted "wfId" ++ ": " ++ quoted "X1" ++ "}";
     json := inr (VDict [("wfId", VStr "X1")]) |}.

(** The first creation succeeds, the second runs into a unique
    constraint; every fetch finds the business id X1. *)
Definition registry : World :=
  scripted offline (token_reply (VStr "t0") 300)
           [inr (created_response (VStr "1-abc")); inr unique_violation]
           (inr fetched_X1).

(** The state of a new process that finds the log [appended]. *)
Definition restart (appended : list string) : State :=
  {| access_token := VNone; expires_at := Some (Q2Qc 0);
     log_file := appended; events := []; clock_reads := 0 |}.

(** The log after a first run over the three records. *)
Definition first_log : list string :=
  log_file (snd (main registry [record_A; record_B; record_C] "y" initial_state)).

(** ** Well-formed keys and entries *)

Definition is_pipe (c : ascii) : bool := Ascii.eqb c "|".
Definition is_line_end (c : ascii) : bool := Ascii.eqb c "010" || Ascii.eqb c "013".

Fixpoint all_chars (p : ascii -> bool) (s : string) : bool :=
  match s with
  | String c s' => p c && all_chars p s'
  | EmptyString => true
  end.

Definition no_pipe (s : string) : bool := all_chars (fun c => negb (is_pipe c)) s.
Definition one_line (s : string) : bool := all_chars (fun c => negb (is_line_end c)) s.

Definition starts_with_space (s : string) : bool :=
  match s with
  | String c _ => PyText.is_space c
  | EmptyString => false
  end.

(** A key that survives the writing and the reading of the log: no pipe,
    no line end, no white space in front. *)
Definition clean_key (k : string) : bool :=
  no_pipe k && one_line k && negb (starts_with_space k).

(** A text appended to the log that reads back as exactly one line. *)
Fixpoint is_entry (chunk : string) : bool :=
  match chunk with
  | EmptyString => false
  | String c EmptyString => Ascii.eqb c "010"
  | String c rest => negb (is_line_end c) && is_entry rest
  end.

(** ** Counting the log *)

(** [get_upload_stats] counts the line for the status [st]. *)
Definition counted (st : string) (line : string) : bool :=
  (2 <=? length (parts_of line))%nat
  && bool_decide (parts_of line !! 1%nat = Some st).

(** The number of lines of the log counted for the status [st]. *)
Definition tally (st : string) (content : string) : nat :=
  length (List.filter (counted st) (PyText.readlines content)).

(** The keys of the lines counted as SUCCESS, in the order of the log. *)
Definition success_keys (content : string) : list string :=
  map (fun line => default EmptyString (parts_of line !! 0%nat))
      (List.filter (counted "SUCCESS") (PyText.readlines content)).

(** ** Histories of invocations *)

Definition key_of (row : Row) : string :=
  match row_get row "geo_code" with
  | VStr k => k
  | _ => EmptyString
  end.

(** An input whose keys are clean texts, no key twice. *)
Definition clean_input (df : list Row) : Prop :=
  Forall text_keyed df /\
  NoDup (map key_of df) /\
  Forall (fun row => clean_key (key_of row) = true) df.

(** One invocation of the script: the world it meets, the data frame it
    reads, and the answer of the operator. *)
Record Invocation : Type := {
  world : World;
  frame : list Row;
  answer : string
}.

(** The log after the invocation [i], started as a new process on the
    log [appended]. *)
Definition invoke (appended : list string) (i : Invocation) : list string :=
  log_file (snd (main (world i) (frame i) (answer i) (restart appended))).

(** The log after a history of invocations, from no log at all. *)
Definition replay (history : list Invocation) : list string :=
  fold_left invoke history [].

(** An entry as the log holds it: key, status, and the rest of the line
    with its line end. *)
Definition render (e : string * string * string) : string :=
  let '(k, st, tail) := e in (k ++ "|" ++ st ++ "|" ++ tail)%string.

Definition entry_key (e : string * string * string) : string := fst (fst e).
Definition entry_status (e : string * string * string) : string := snd (fst e).

Definition wf_entry (e : string * string * string) : Prop :=
  clean_key (entry_key e) = true /\
  is_outcome (entry_status e) /\
  is_entry (render e) = true.

Definition succeeded (e : string * string * string) : bool :=
  String.eqb (entry_status e) "SUCCESS".

(** The log is a list of well-formed entries, no key with two SUCCESS
    entries. *)
Definition log_invariant (appended : list string) : Prop :=
  exists entries,
    appended = map render entries /\
    Forall wf_entry entries /\
    NoDup (map entry_key (List.filter succeeded entries)).

(** Every creation succeeds, every fetch finds X1. *)
Definition accepting : World :=
  scripted offline (token_reply (VStr "t0") 300)
           [inr (created_response (VStr "1-abc")); inr (created_response (VStr "1-abd"))]
           (inr fetched_X1).

(** One invocation on a frame that lists the record A twice. *)
Definition twice_A : Invocation :=
  {| world := accepting; frame := [record_A; record_A]; answer := "y" |}.

(** The scenario, run twice. *)
Definition scenario_run : Invocation :=
  {| world := registry; frame := [record_A; record_B; record_C]; answer := "y" |}.

(** A creation answered 200 with a body that does not name the created
    resource. *)
Definition created_without_id : World :=
  scripted offline (token_reply (VStr "t0") 300)
           [reply 200 "{}" (inr (VDict []))] (inr not_found).

(** The token endpoint is down. *)
Definition token_endpoint_down : World :=
  scripted offline (reply 503 "Service Unavailable" not_json)
           [inr (created_response (VStr "1-abc"))] (inr not_found).

(** Every creation succeeds, every fetch times out. *)
Definition fetch_times_out : World :=
  scripted offline (token_reply (VStr "t0") 300)
           [inr (created_response (VStr "1-abc")); inr (created_response (VStr "1-abd"));
            inr (created_response (VStr "1-abe")); inr (created_response (VStr "1-abf"))]
           (inl (Timeout "Read timed out.")).

(** A record keyed by a number, as a numeric column gives it. *)
Definition record_1001 : Row :=
  [("geo_code", VInt 1001); ("water_point_type", VStr "Hand pump");
   ("county", VStr "Bong"); ("district", VStr "Jorquelleh");
   ("community", VStr "Gbarnga"); ("lat", VNaN); ("lon", VNaN);
   ("elevation", VNaN)].

(** ** More scenarios *)

(** The token endpoint answers 200 with a body that has no [expires_in]. *)
Definition token_without_expiry : World :=
  scripted offline
           (reply 200 EmptyString (inr (VDict [("access_token", VStr "t1")])))
           [] (inr not_found).

Definition service_unavailable : Response :=
  {| status_code := 503; text := "Service Unavailable"; json := not_json |}.

(** A state whose cached token is good for a long time. *)
Definition authorised : State :=
  {| access_token := VStr "t0";
     expires_at := Some (Q2Qc (inject_Z 1800000000));
     log_file := []; events := []; clock_reads := 0 |}.

(** What a submission for the payload [facility] may add to the events:
    creation requests for this payload only, and sleeps of 2 seconds
    only. *)
Definition disciplined (facility : pyval) (ev : Event) : Prop :=
  match ev with
  | EvRequest (ReqCreate _ f) => f = facility
  | EvSleep seconds => seconds = 2
  | _ => True
  end.

(** The submission has so far left the log alone and added disciplined
    events only. *)
Definition so_far (facility : pyval) (s s1 : State) : Prop :=
  exists new, engine_step s s1 new /\ Forall (disciplined facility) new.

Definition forbidden : Response :=
  {| status_code := 403; text := "Forbidden"; json := not_json |}.

(** Every creation is answered 403. *)
Definition closed_registry : World :=
  scripted offline (token_reply (VStr "t0") 300) [inr forbidden] (inr not_found).

(** Four creation requests in a row time out. *)
Definition unreachable : World :=
  scripted offline (token_reply (VStr "t0") 300)
           [inl (Timeout "Read timed out."); inl (Timeout "Read timed out.");
            inl (Timeout "Read timed out."); inl (Timeout "Read timed out.")]
           (inr not_found).

(** ** The transform: columns and faults *)

(** The columns [row_to_facility] reads with [row[...]] whatever the row. *)
Definition required_columns : list string :=
  ["geo_code"; "water_point_type"; "county"; "district"; "community";
   "lat"; "lon"; "elevation"].

(** The columns whose cell goes through [float(...)]. *)
Definition float_columns : list string :=
  ["lat"; "lon"; "elevation"; "num_taps"; "depth_metres"].

(** The columns read with [row.get(...)], which may be missing. *)
Definition optional_columns : list string :=
  ["water_point_type_other"; "extraction_type"; "extraction_type_other";
   "pump_type"; "pump_type_other"; "num_taps"; "has_depth_info";
   "depth_metres"; "installer"; "installer_other"; "owner"; "funder";
   "photo_url"].

(** The two ways the transform of a row can raise: a required column is
    missing, or a cell that is there does not convert to a float. *)
Definition transform_fault (W : World) (row : Row) (e : Exn) : Prop :=
  (exists c, In c required_columns /\ dict_get row c = None /\ e = KeyError c) \/
  (exists c v, In c float_columns /\ row_item row c = inr v /\
               notna v = true /\ py_float W v = inl e).

(** ** The counters of a run *)

(** The rows the three counters of [bulk_upload] account for. *)
Definition tallied (c : Counters) : nat :=
  (success_count c + duplicate_count c + failed_count c)%nat.

(** ** Keys the resume filter misses *)

(** The script run on a file of one record keyed by a number, against a
    registry that accepts. *)
Definition numeric_run : Invocation :=
  {| world := accepting; frame := [record_1001]; answer := "y" |}.

(** The script run on a file of one record whose key has a space in
    front. *)
Definition spaced_run : Invocation :=
  {| world := accepting; frame := [record " A1" VNaN]; answer := "y" |}.

(** * Properties *)

Local Open Scope list_scope.

(** ** Rules for [wp] *)

Section WpRules.

Context {A B : Type}.

Lemma wp_ret (a : A) s (P : A -> State -> Prop) Q : P a s -> wp (ret a) s P Q.
Proof. intros H. exact H. Qed.

Lemma wp_raise e s (P : A -> State -> Prop) (Q : Exn -> State -> Prop) :
  Q e s -> wp (raise e) s P Q.
Proof. intros H. exact H. Qed.

Lemma wp_bind (c : M A) (k : A -> M B) s P Q :
  wp c s (fun a s' => wp (k a) s' P Q) Q -> wp (bind c k) s P Q.
Proof.
  unfold wp, bind. destruct (c s) as [[a|e] s']; auto.
Qed.

Lemma wp_try (c : M A) (h : Exn -> M A) s P Q :
  wp c s P (fun e s' => wp (h e) s' P Q) -> wp (try_except c h) s P Q.
Proof.
  unfold wp, try_except. destruct (c s) as [[a|e] s']; auto.
Qed.

Lemma wp_lift (x : Exn + A) s (P : A -> State -> Prop) (Q : Exn -> State -> Prop) :
  match x with inr a => P a s | inl e => Q e s end -> wp (lift x) s P Q.
Proof. destruct x; auto. Qed.

Lemma wp_mono (c : M A) s (P P' : A -> State -> Prop) (Q Q' : Exn -> State -> Prop) :
  wp c s P Q ->
  (forall a s', P a s' -> P' a s') ->
  (forall e s', Q e s' -> Q' e s') ->
  wp c s P' Q'.
Proof.
  unfold wp. destruct (c s) as [[a|e] s']; auto.
Qed.

End WpRules.

(** Rules for the primitive effects. *)

Lemma wp_send {W} r s (P : Response -> State -> Prop) (Q : Exn -> State -> Prop) :
  (forall resp, respond W (events s) r = inr resp -> P resp (emit (EvRequest r) s)) ->
  (forall e, respond W (events s) r = inl e -> Q e (emit (EvRequest r) s)) ->
  wp (send W r) s P Q.
Proof.
  intros HP HQ. unfold wp, send.
  destruct (respond W (events s) r) as [e|resp]; auto.
Qed.

Lemma wp_now {W} s (P : Qc -> State -> Prop) (Q : Exn -> State -> Prop) :
  (forall s', log_file s' = log_file s -> events s' = events s ->
              access_token s' = access_token s -> expires_at s' = expires_at s ->
              clock_reads s' = S (clock_reads s) ->
              P (clock W (clock_reads s)) s') ->
  wp (now W) s P Q.
Proof. intros HP. unfold wp, now. apply HP; reflexivity. Qed.

Lemma wp_sleep secs s (P : unit -> State -> Prop) (Q : Exn -> State -> Prop) :
  P tt (emit (EvSleep secs) s) -> wp (sleep secs) s P Q.
Proof. intros HP. exact HP. Qed.

Lemma wp_set_access_token v s (P : unit -> State -> Prop) (Q : Exn -> State -> Prop) :
  (forall s', log_file s' = log_file s -> events s' = events s ->
              access_token s' = v -> expires_at s' = expires_at s ->
              clock_reads s' = clock_reads s -> P tt s') ->
  wp (set_access_token v) s P Q.
Proof. intros HP. unfold wp, set_access_token. apply HP; reflexivity. Qed.

Lemma wp_set_expires_at q s (P : unit -> State -> Prop) (Q : Exn -> State -> Prop) :
  (forall s', log_file s' = log_file s -> events s' = events s ->
              access_token s' = access_token s -> expires_at s' = q ->
              clock_reads s' = clock_reads s -> P tt s') ->
  wp (set_expires_at q) s P Q.
Proof. intros HP. unfold wp, set_expires_at. apply HP; reflexivity. Qed.

Lemma wp_append_log line s (P : unit -> State -> Prop) (Q : Exn -> State -> Prop) :
  (forall s', log_file s' = log_file s ++ [line] -> events s' = events s ->
              access_token s' = access_token s -> expires_at s' = expires_at s ->
              clock_reads s' = clock_reads s -> P tt s') ->
  wp (append_log line) s P Q.
Proof. intros HP. unfold wp, append_log. apply HP; reflexivity. Qed.

Ltac wp_step :=
  lazymatch goal with
  | |- wp (bind _ _) _ _ _ => apply wp_bind
  | |- wp (try_except _ _) _ _ _ => apply wp_try
  | |- wp (ret _) _ _ _ => apply wp_ret
  | |- wp (raise _) _ _ _ => apply wp_raise
  | |- wp (lift ?x) _ _ _ => apply wp_lift; destruct x eqn:?
  | |- wp (send _ _) _ _ _ =>
      apply wp_send; [intros ?resp ?Hresp | intros ?e ?Hexn]
  | |- wp (now _) _ _ _ => apply wp_now; intros ?s ?Hlog ?Hev ?Htok ?Hexp ?Hclk
  | |- wp (sleep _) _ _ _ => apply wp_sleep
  | |- wp (set_access_token _) _ _ _ =>
      apply wp_set_access_token; intros ?s ?Hlog ?Hev ?Htok ?Hexp ?Hclk
  | |- wp (set_expires_at _) _ _ _ =>
      apply wp_set_expires_at; intros ?s ?Hlog ?Hev ?Htok ?Hexp ?Hclk
  | |- wp (append_log _) _ _ _ =>
      apply wp_append_log; intros ?s ?Hlog ?Hev ?Htok ?Hexp ?Hclk
  | |- wp (if ?b then _ else _) _ _ _ => destruct b eqn:?
  | |- wp (match ?x with _ => _ end) _ _ _ => destruct x eqn:?
  end.

Ltac step_done :=
  unfold engine_step, added, emit in *; simpl in *;
  repeat match goal with H : _ /\ _ |- _ => destruct H end;
  repeat split; congruence.

(** ** The engine leaves the log alone and only adds events *)

Lemma get_token_step W s :
  wp (get_token W) s
     (fun _ s' => engine_step s s' [EvRequest ReqToken])
     (fun _ s' => engine_step s s' [EvRequest ReqToken]).
Proof.
  unfold get_token. repeat wp_step; step_done.
Qed.

Lemma get_auth_headers_step W s :
  wp (get_auth_headers W) s
     (fun _ s' => engine_step s s' [] \/ engine_step s s' [EvRequest ReqToken])
     (fun _ s' => engine_step s s' [] \/ engine_step s s' [EvRequest ReqToken]).
Proof.
  unfold get_auth_headers. wp_step.
  assert (Hstale : wp (fun s0 => match access_token s0 with
                                 | VNone => ret true s0
                                 | _ => (let* t := now W in
                                         fun s' => ret (expired t (expires_at s')) s') s0
                                 end) s
                      (fun _ s' => log_file s' = log_file s /\ events s' = events s)
                      (fun _ _ => False)).
  { unfold wp. destruct (access_token s); simpl; auto. }
  eapply wp_mono; [exact Hstale | | intros ? ? []].
  intros stale s1 [L1 E1]. wp_step.
  - destruct stale.
    + wp_step. eapply wp_mono; [apply get_token_step | |].
      * intros ok s2 Hs2. destruct ok; wp_step; unfold wp, ret; simpl; right;
          unfold engine_step, added in *; destruct Hs2; split; congruence.
      * intros e s2 Hs2. right. unfold engine_step, added in *; destruct Hs2; split; congruence.
    + wp_step. unfold wp, ret. simpl. left. split; [|unfold added]; simpl; congruence.
Qed.

Lemma wp_invalidate s (P : unit -> State -> Prop) (Q : Exn -> State -> Prop) :
  (forall s', log_file s' = log_file s -> events s' = EvInvalidate :: events s ->
              access_token s' = access_token s -> expires_at s' = Some (Q2Qc 0) ->
              clock_reads s' = clock_reads s -> P tt s') ->
  wp invalidate s P Q.
Proof. intros HP. unfold wp, invalidate, bind, set_expires_at. apply HP; reflexivity. Qed.

Lemma count_app p l1 l2 : count p (l1 ++ l2) = (count p l1 + count p l2)%nat.
Proof. unfold count. rewrite List.filter_app, length_app. reflexivity. Qed.

Lemma returned_outcome r : returned r -> is_outcome (status r).
Proof. unfold is_outcome. destruct 1; simpl; auto. Qed.

Lemma attempt_returned facility rc s s1 r :
  attempt facility s s1 -> returned r -> upload_post facility rc s r s1.
Proof.
  intros (new & Hstep & Hall & Hc & Hr) Hret. split; [assumption|].
  exists new. repeat split; try apply Hstep; try assumption; lia.
Qed.

Lemma attempt_headers facility s s1 :
  engine_step s s1 [] \/ engine_step s s1 [EvRequest ReqToken] ->
  attempt facility s s1.
Proof.
  intros [H|H]; eexists; (split; [exact H|]); repeat constructor.
Qed.

Lemma attempt_create facility s s1 h :
  engine_step s s1 [] \/ engine_step s s1 [EvRequest ReqToken] ->
  attempt facility s (emit (EvRequest (ReqCreate h facility)) s1).
Proof.
  intros [[L E]|[L E]]; unfold added in E;
    eexists; (split; [split; [simpl; exact L | unfold added; simpl; rewrite E;
                                              rewrite app_comm_cons; reflexivity]|]);
    repeat constructor.
Qed.

Lemma attempt_fetch facility s s1 h o :
  attempt facility s s1 ->
  attempt facility s (emit (EvRequest (ReqFetch h o)) s1).
Proof.
  intros (new & [L E] & Hall & Hc & Hr). unfold added in E.
  exists (EvRequest (ReqFetch h o) :: new). split; [split|].
  - simpl. exact L.
  - unfold added. simpl. rewrite E. reflexivity.
  - repeat split; [constructor; [exact I|assumption] | exact Hc | exact Hr].
Qed.

(** A retry continues the call: one more retry event, then the call with
    the next retry count. *)
Lemma upload_post_retry facility rc s s1 s2 ev r s' :
  (rc < max_retries)%nat ->
  attempt facility s s1 ->
  log_file s2 = log_file s1 ->
  events s2 = ev :: events s1 ->
  is_retry ev = true ->
  upload_post facility (S rc) s2 r s' ->
  upload_post facility rc s r s'.
Proof.
  intros Hlt (new1 & [L1 E1] & Hall1 & Hc1 & Hr1) L2 E2 Hev
         (Hret & new2 & [L3 E3] & Hall3 & Hc3 & Hr3).
  unfold added in *. split; [assumption|].
  exists (new2 ++ ev :: new1). split; [split|].
  - congruence.
  - unfold added. rewrite E3, E2, E1. rewrite <- app_assoc. reflexivity.
  - assert (Hnc : is_create ev = false)
      by (destruct ev as [[]| |]; try reflexivity; compute in Hev; discriminate).
    repeat split.
    + apply Forall_app. split; [assumption|]. constructor; [|assumption].
      destruct ev as [[]| |]; try exact I; compute in Hev; discriminate.
    + rewrite count_app. unfold count in *. simpl. rewrite Hnc.
      unfold max_retries in *. lia.
    + rewrite count_app. unfold count in *. simpl. rewrite Hev. simpl.
      unfold max_retries in *. lia.
Qed.

Lemma upload_facility_spec W facility :
  forall n retry_count s,
    (max_retries - retry_count <= n)%nat ->
    wp (upload_facility W facility retry_count) s
       (upload_post facility retry_count s) (fun _ _ => False).
Proof.
  induction n as [n IH] using lt_wf_ind; intros rc s Hn.
  assert (Hrec : forall s1 s2 ev,
             (rc < max_retries)%nat ->
             attempt facility s s1 ->
             log_file s2 = log_file s1 ->
             events s2 = ev :: events s1 ->
             is_retry ev = true ->
             wp (fun H => upload_facility W facility (S rc) H) s2
                (upload_post facility rc s) (fun _ _ => False)).
  { intros s1 s2 ev Hlt Hatt L2 E2 Hev.
    eapply wp_mono with (Q := fun _ _ => False);
      [apply (IH (max_retries - S rc)%nat); lia | | intros ? ? []].
    intros r s' Hpost. eapply upload_post_retry; eauto. }
  rewrite upload_facility_equation_1. wp_step.
  eapply wp_mono with (Q := fun _ s1 => attempt facility s s1)
                      (P := upload_post facility rc s).
  - wp_step.
    eapply wp_mono;
      [apply get_auth_headers_step | intros h s1 H1
       | intros e s1 H1; apply attempt_headers; exact H1].
    pose proof (attempt_create facility s s1 h H1) as Hatt.
    wp_step. wp_step; [|exact Hatt].
    repeat wp_step.
    all: try exact Hatt.
    all: try (apply attempt_fetch; exact Hatt).
    all: try (apply attempt_returned; [first [exact Hatt | apply attempt_fetch; exact Hatt] | constructor]).
    apply wp_invalidate. intros s2 L2 E2 _ _ _.
    eapply wp_mono with (Q := fun _ _ => False);
      [eapply Hrec; eauto | auto | intros ? ? []].
  - auto.
  - intros e s1 Hatt. destruct e.
    2-7: wp_step; apply attempt_returned; [exact Hatt | constructor].
    destruct (lt_dec rc max_retries) as [Hlt|Hge].
    + wp_step. wp_step. eapply Hrec; eauto. 
    + wp_step. apply attempt_returned; [exact Hatt | constructor].
Qed.

(** ** The progress arithmetic *)

Lemma Qc_of_nat_60 : Qc_of_nat 60 <> Q2Qc 0.
Proof. intros H. apply (f_equal this) in H. vm_compute in H. discriminate. Qed.

Lemma py_div_ok a b : b <> Q2Qc 0 -> py_div a b = inr (a / b)%Qc.
Proof. intros Hb. unfold py_div. destruct (Qc_eq_dec b (Q2Qc 0)); congruence. Qed.

Lemma Qc_zero_div b : (Q2Qc 0 / b)%Qc = Q2Qc 0.
Proof. unfold Qcdiv. apply Qcmult_0_l. Qed.

Lemma Qc_pos_nonzero q : (Q2Qc 0 < q)%Qc -> q <> Q2Qc 0.
Proof. intros H E. apply Qclt_not_eq in H. congruence. Qed.

Lemma progress_update_defined (idx total : nat) (elapsed : Qc) :
  exists p, progress_update idx total elapsed = inr p.
Proof.
  unfold progress_update.
  destruct (Qclt_le_dec (Q2Qc 0) elapsed) as [Hpos|Hle].
  - rewrite (py_div_ok _ elapsed (Qc_pos_nonzero _ Hpos)). cbn [and_then].
    destruct (Qclt_le_dec (Q2Qc 0) (Qc_of_nat idx / elapsed)) as [Hr|Hr].
    + rewrite (py_div_ok _ _ (Qc_pos_nonzero _ Hr)). cbn [and_then].
      rewrite (py_div_ok _ _ Qc_of_nat_60). cbn [and_then]. eauto.
    + cbn [and_then]. rewrite (py_div_ok _ _ Qc_of_nat_60). cbn [and_then]. eauto.
  - cbn [and_then]. destruct (Qclt_le_dec (Q2Qc 0) (Q2Qc 0)) as [H0|H0].
    + exfalso. exact (Qc_pos_nonzero _ H0 eq_refl).
    + cbn [and_then]. rewrite (py_div_ok _ _ Qc_of_nat_60). cbn [and_then]. eauto.
Qed.

(** C8.  The progress arithmetic of [bulk_upload] never divides by zero:
    for every processed count, total and elapsed time it yields a rate and
    a time left; the rate is 0 when no time has elapsed, and the time left
    is 0 when the rate is 0. *)
Theorem progress_update_degenerate (idx total : nat) (elapsed : Qc) :
  exists p,
    progress_update idx total elapsed = inr p /\
    (elapsed = Q2Qc 0 -> rate p = Q2Qc 0) /\
    (rate p = Q2Qc 0 -> eta_minutes p = Q2Qc 0).
Proof.
  unfold progress_update.
  destruct (Qclt_le_dec (Q2Qc 0) elapsed) as [Hpos|Hle].
  - rewrite (py_div_ok _ elapsed (Qc_pos_nonzero _ Hpos)). cbn [and_then].
    destruct (Qclt_le_dec (Q2Qc 0) (Qc_of_nat idx / elapsed)) as [Hr|Hr].
    + rewrite (py_div_ok _ _ (Qc_pos_nonzero _ Hr)). cbn [and_then].
      rewrite (py_div_ok _ _ Qc_of_nat_60). cbn [and_then].
      eexists. split; [reflexivity|]. cbn [rate eta_minutes]. split.
      * intros E. exfalso. exact (Qc_pos_nonzero _ Hpos E).
      * intros E. exfalso. exact (Qc_pos_nonzero _ Hr E).
    + cbn [and_then]. rewrite (py_div_ok _ _ Qc_of_nat_60). cbn [and_then].
      eexists. split; [reflexivity|]. cbn [rate eta_minutes]. split.
      * intros E. exfalso. exact (Qc_pos_nonzero _ Hpos E).
      * intros _. apply Qc_zero_div.
  - cbn [and_then]. destruct (Qclt_le_dec (Q2Qc 0) (Q2Qc 0)) as [H0|H0].
    + exfalso. exact (Qc_pos_nonzero _ H0 eq_refl).
    + cbn [and_then]. rewrite (py_div_ok _ _ Qc_of_nat_60). cbn [and_then].
      eexists. split; [reflexivity|]. cbn [rate eta_minutes]. split.
      * reflexivity.
      * intros _. apply Qc_zero_div.
Qed.

(** ** One attempt of [upload_facility], by the answer to the creation request *)

Section Attempt.

Context (W : World) (facility : pyval) (retry_count : nat).
Context (s s1 : State) (headers : string) (response : Response).
Hypothesis Hheaders : get_auth_headers W s = (Val headers, s1).
Hypothesis Hresponse :
  respond W (events s1) (ReqCreate headers facility) = inr response.

(** The state once the creation request is out. *)
Let s2 : State := emit (EvRequest (ReqCreate headers facility)) s1.

Ltac attempt_start :=
  rewrite upload_facility_equation_1;
  unfold try_except, bind, send;
  rewrite Hheaders; rewrite Hresponse.

Lemma attempt_500 :
  status_code response = 500 ->
  upload_facility W facility retry_count s =
  (Val (if is_duplicate_error W response
        then {| status := "DUPLICATE"; message := "Duplicate wfId";
                osid := VNone; wfId := VNone |}
        else failure ("Server error: " ++ PyText.take 200 (text response))%string),
   s2).
Proof.
  intros Hst. attempt_start. rewrite Hst. simpl.
  destruct (is_duplicate_error W response); reflexivity.
Qed.

Lemma attempt_other :
  status_code response <> 200 -> status_code response <> 401 ->
  status_code response <> 500 ->
  upload_facility W facility retry_count s =
  (Val (failure ("HTTP " ++ PyText.str_int (status_code response) ++ ": "
                 ++ PyText.take 200 (text response))%string),
   s2).
Proof.
  intros H200 H401 H500. attempt_start.
  apply Z.eqb_neq in H200, H401, H500. rewrite H200, H401, H500. reflexivity.
Qed.

Lemma attempt_401_retry :
  status_code response = 401 -> (retry_count < max_retries)%nat ->
  upload_facility W facility retry_count s =
  upload_facility W facility (S retry_count)
    (emit EvInvalidate
       {| access_token := access_token s2; expires_at := Some (Q2Qc 0);
          log_file := log_file s2; events := events s2;
          clock_reads := clock_reads s2 |}).
Proof.
  intros Hst Hlt. attempt_start. rewrite Hst. simpl.
  destruct (lt_dec retry_count max_retries) as [_|Hge]; [|contradiction].
  unfold invalidate, bind, set_expires_at. simpl.
  pose proof (upload_facility_spec W facility _ (S retry_count)
                (emit EvInvalidate
                   {| access_token := access_token s1; expires_at := Some (Q2Qc 0);
                      log_file := log_file s1;
                      events := EvRequest (ReqCreate headers facility) :: events s1;
                      clock_reads := clock_reads s1 |}) (le_n _)) as Hwp.
  unfold wp in Hwp. unfold emit in *. simpl in *.
  match goal with |- match ?x with _ => _ end = _ => destruct x as [[r|e] s'] end;
    [reflexivity | contradiction].
Qed.

Lemma attempt_401_exhausted :
  status_code response = 401 -> ~ (retry_count < max_retries)%nat ->
  upload_facility W facility retry_count s =
  (Val (failure "Auth failed after 3 retries"), s2).
Proof.
  intros Hst Hge. attempt_start. rewrite Hst. simpl.
  destruct (lt_dec retry_count max_retries) as [Hlt|_]; [contradiction|].
  reflexivity.
Qed.

End Attempt.

Section Attempt200.

Context (W : World) (facility : pyval) (retry_count : nat).
Context (s s1 : State) (headers : string) (response fetched : Response).
Context (result created : pyval).
Hypothesis Hheaders : get_auth_headers W s = (Val headers, s1).
Hypothesis Hresponse :
  respond W (events s1) (ReqCreate headers facility) = inr response.
Hypothesis Hstatus : status_code response = 200.
Hypothesis Hjson : json response = inr result.
Hypothesis Hosid : created_osid result = inr created.
Hypothesis Hfetched :
  respond W (EvRequest (ReqCreate headers facility) :: events s1)
          (ReqFetch headers (py_str W created)) = inr fetched.

Let s3 : State :=
  emit (EvRequest (ReqFetch headers (py_str W created)))
       (emit (EvRequest (ReqCreate headers facility)) s1).

Ltac attempt_fetch_start :=
  rewrite upload_facility_equation_1;
  unfold try_except, bind, send;
  rewrite Hheaders; rewrite Hresponse; rewrite Hstatus; simpl;
  rewrite Hjson; simpl;
  unfold created_osid, and_then in Hosid;
  destruct (subscript result "result") as [|r1]; [discriminate|]; simpl;
  destruct (subscript r1 "WaterFacility") as [|r2]; [discriminate|]; simpl;
  rewrite Hosid; simpl; rewrite Hfetched.

Lemma attempt_200_fetch_refused :
  status_code fetched <> 200 ->
  upload_facility W facility retry_count s =
  (Val {| status := "SUCCESS"; message := "Created"; osid := created; wfId := VNone |}, s3).
Proof.
  intros Hf. attempt_fetch_start.
  apply Z.eqb_neq in Hf. rewrite Hf. reflexivity.
Qed.

Lemma attempt_200_fetch_ok items :
  status_code fetched = 200 -> json fetched = inr (VDict items) ->
  upload_facility W facility retry_count s =
  (Val {| status := "SUCCESS"; message := "Created"; osid := created;
          wfId := default VNone (dict_get items "wfId") |}, s3).
Proof.
  intros Hf Hj. attempt_fetch_start.
  rewrite Hf. simpl. rewrite Hj. reflexivity.
Qed.

End Attempt200.

(** ** The credential provider with a working token endpoint *)

Lemma get_token_ok W s token expires_in :
  respond W (events s) ReqToken = token_reply token expires_in ->
  exists s1,
    get_token W s = (Val true, s1) /\
    log_file s1 = log_file s /\
    events s1 = EvRequest ReqToken :: events s /\
    access_token s1 = token.
Proof.
  intros Hr. unfold get_token, bind, send. rewrite Hr. unfold token_reply, reply.
  simpl. eexists. split; [reflexivity|]. simpl. auto.
Qed.

Lemma get_auth_headers_ok W s token expires_in :
  (forall evs, respond W evs ReqToken = token_reply token expires_in) ->
  exists s1,
    get_auth_headers W s =
      (Val ("Bearer " ++ py_str W (if stale W s then token else access_token s))%string, s1) /\
    log_file s1 = log_file s /\
    events s1 = (if stale W s then [EvRequest ReqToken] else []) ++ events s /\
    access_token s1 = (if stale W s then token else access_token s).
Proof.
  intros Htok. unfold get_auth_headers, stale.
  assert (Hfetch : forall s0 : State,
             log_file s0 = log_file s -> events s0 = events s ->
             exists s1,
               bind (bind (get_token W)
                          (fun ok : bool => if ok then ret tt
                             else raise (OtherException "Failed to obtain access token")))
                    (fun _ s2 => ret ("Bearer " ++ py_str W (access_token s2))%string s2) s0
               = (Val ("Bearer " ++ py_str W token)%string, s1) /\
               log_file s1 = log_file s /\
               events s1 = EvRequest ReqToken :: events s /\
               access_token s1 = token).
  { intros s0 L0 E0.
    destruct (get_token_ok W s0 token expires_in (Htok _)) as (s1 & Hg & L1 & E1 & A1).
    exists s1. unfold bind at 1 2. rewrite Hg. unfold ret. rewrite A1.
    repeat split; congruence. }
  unfold bind at 1.
  destruct (access_token s) eqn:Ha.
  1: { simpl. apply Hfetch; reflexivity. }
  all: unfold bind at 1; unfold now; simpl.
  all: destruct (expired (clock W (clock_reads s)) (expires_at s)) eqn:Hx.
  all: try (apply Hfetch; reflexivity).
  all: unfold bind, ret; simpl; rewrite Ha; eexists; split; [reflexivity|];
    simpl; auto.
Qed.

(** ** Retries against a scripted registry *)

Section Scripted.

Context (base : World) (token : pyval) (expires_in : Z).
Context (creates : list (Exn + Response)) (fetch : Exn + Response).
Hypothesis clock_nonneg : forall k, (Q2Qc 0 <= clock base k)%Qc.

Let W : World := scripted base (token_reply token expires_in) creates fetch.

Lemma forced_stale s : expires_at s = Some (Q2Qc 0) -> stale W s = true.
Proof.
  intros He. unfold stale. rewrite He.
  assert (Hx : expired (clock W (clock_reads s)) (Some (Q2Qc 0)) = true).
  { simpl. apply Qle_bool_iff. apply clock_nonneg. }
  destruct (access_token s); auto.
Qed.

Lemma count_refreshed s :
  count is_create (refreshed W s ++ events s) = count is_create (events s).
Proof. unfold refreshed. destruct (stale W s); reflexivity. Qed.

Lemma scripted_headers s :
  exists s1 h,
    get_auth_headers W s = (Val h, s1) /\
    log_file s1 = log_file s /\
    events s1 = refreshed W s ++ events s.
Proof.
  destruct (get_auth_headers_ok W s token expires_in (fun _ => eq_refl))
    as (s1 & Hh & L & E & _).
  eauto.
Qed.

(** A 401 with retries left: the call goes on with the next retry count,
    after the forced expiry. *)
Lemma scripted_401 facility retry_count s resp :
  nth (count is_create (events s)) creates
      (inl (OtherException "Connection refused")) = inr resp ->
  status_code resp = 401 ->
  (retry_count < max_retries)%nat ->
  exists s' h,
    upload_facility W facility retry_count s =
      upload_facility W facility (S retry_count) s' /\
    log_file s' = log_file s /\
    expires_at s' = Some (Q2Qc 0) /\
    events s' = EvInvalidate :: EvRequest (ReqCreate h facility)
                  :: refreshed W s ++ events s.
Proof.
  intros Hnth Hst Hlt.
  destruct (scripted_headers s) as (s1 & h & Hh & L & E).
  assert (Hresp : respond W (events s1) (ReqCreate h facility) = inr resp).
  { simpl. rewrite E, count_refreshed. exact Hnth. }
  eexists. exists h. split; [apply (attempt_401_retry W facility retry_count s s1 h resp Hh Hresp Hst Hlt)|].
  simpl. rewrite E. auto.
Qed.

(** A 401 with the retries used up. *)
Lemma scripted_401_last facility retry_count s resp :
  nth (count is_create (events s)) creates
      (inl (OtherException "Connection refused")) = inr resp ->
  status_code resp = 401 ->
  ~ (retry_count < max_retries)%nat ->
  exists s' h,
    upload_facility W facility retry_count s =
      (Val (failure "Auth failed after 3 retries"), s') /\
    log_file s' = log_file s /\
    events s' = EvRequest (ReqCreate h facility) :: refreshed W s ++ events s.
Proof.
  intros Hnth Hst Hge.
  destruct (scripted_headers s) as (s1 & h & Hh & L & E).
  assert (Hresp : respond W (events s1) (ReqCreate h facility) = inr resp).
  { simpl. rewrite E, count_refreshed. exact Hnth. }
  eexists. exists h. split; [apply (attempt_401_exhausted W facility retry_count s s1 h resp Hh Hresp Hst Hge)|].
  simpl. rewrite E. auto.
Qed.

(** A 200 whose body names the created resource, the fetch being
    answered. *)
Lemma scripted_200 facility retry_count s resp result created fetched :
  nth (count is_create (events s)) creates
      (inl (OtherException "Connection refused")) = inr resp ->
  status_code resp = 200 ->
  json resp = inr result ->
  created_osid result = inr created ->
  fetch = inr fetched ->
  status_code fetched <> 200 \/ (exists items, json fetched = inr (VDict items)) ->
  exists s' h wf_id,
    upload_facility W facility retry_count s =
      (Val {| status := "SUCCESS"; message := "Created";
              osid := created; wfId := wf_id |}, s') /\
    (status_code fetched <> 200 -> wf_id = VNone) /\
    log_file s' = log_file s /\
    events s' = EvRequest (ReqFetch h (py_str W created))
                  :: EvRequest (ReqCreate h facility) :: refreshed W s ++ events s.
Proof.
  intros Hnth Hst Hj Ho Hf Hfetched.
  destruct (scripted_headers s) as (s1 & h & Hh & L & E).
  assert (Hresp : respond W (events s1) (ReqCreate h facility) = inr resp).
  { simpl. rewrite E, count_refreshed. exact Hnth. }
  assert (Hfr : respond W (EvRequest (ReqCreate h facility) :: events s1)
                        (ReqFetch h (py_str W created)) = inr fetched) by exact Hf.
  destruct (Z.eq_dec (status_code fetched) 200) as [H200|H200].
  - destruct Hfetched as [Hne|[items Hitems]]; [contradiction|].
    eexists. exists h. eexists. split.
    + apply (attempt_200_fetch_ok W facility retry_count s s1 h resp fetched
               result created Hh Hresp Hst Hj Ho Hfr items H200 Hitems).
    + simpl. rewrite E. split; [intros; contradiction | auto].
  - eexists. exists h. eexists. split.
    + apply (attempt_200_fetch_refused W facility retry_count s s1 h resp fetched
               result created Hh Hresp Hst Hj Ho Hfr H200).
    + simpl. rewrite E. auto.
Qed.

End Scripted.

(** ** The bound on 401 retries *)

Lemma count_cons p ev l :
  count p (ev :: l) = ((if p ev then 1 else 0) + count p l)%nat.
Proof. unfold count. simpl. destruct (p ev); reflexivity. Qed.

Lemma count_after_401 W s h facility :
  count is_create (EvInvalidate :: EvRequest (ReqCreate h facility)
                     :: refreshed W s ++ events s)
  = S (count is_create (events s)).
Proof.
  rewrite !count_cons, count_app. unfold refreshed.
  destruct (stale W s); reflexivity.
Qed.

Section ThreeRetries.

Context (base : World) (token : pyval) (expires_in : Z).
Context (a b c d : Response) (fetch : Exn + Response).
Context (facility : pyval) (s : State).
Hypothesis clock_nonneg : forall k, (Q2Qc 0 <= clock base k)%Qc.
Hypothesis fresh : count is_create (events s) = 0%nat.
Hypothesis Ha : status_code a = 401.
Hypothesis Hb : status_code b = 401.
Hypothesis Hc : status_code c = 401.

Let W : World :=
  scripted base (token_reply token expires_in) [inr a; inr b; inr c; inr d] fetch.

(** Three 401 answers bring the call to its last attempt, three forced
    expiries and three token requests later (one more if the token was
    stale to begin with). *)
Lemma three_401 :
  exists s3 new,
    upload_facility W facility 0 s = upload_facility W facility 3 s3 /\
    log_file s3 = log_file s /\
    expires_at s3 = Some (Q2Qc 0) /\
    events s3 = new ++ events s /\
    count is_create (events s3) = 3%nat /\
    count is_create new = 3%nat /\
    count is_invalidate new = 3%nat /\
    count is_token new = (2 + (if stale W s then 1 else 0))%nat /\
    count is_fetch new = 0%nat.
Proof.
  destruct (scripted_401 base token expires_in [inr a; inr b; inr c; inr d] fetch facility 0 s a)
    as (s1 & h1 & U1 & L1 & X1 & E1);
    [rewrite fresh; reflexivity | exact Ha | unfold max_retries; lia |].
  assert (C1 : count is_create (events s1) = 1%nat)
    by (rewrite E1, count_after_401, fresh; reflexivity).
  destruct (scripted_401 base token expires_in [inr a; inr b; inr c; inr d] fetch facility 1 s1 b)
    as (s2 & h2 & U2 & L2 & X2 & E2);
    [rewrite C1; reflexivity | exact Hb | unfold max_retries; lia |].
  assert (C2 : count is_create (events s2) = 2%nat)
    by (rewrite E2, count_after_401, C1; reflexivity).
  destruct (scripted_401 base token expires_in [inr a; inr b; inr c; inr d] fetch facility 2 s2 c)
    as (s3 & h3 & U3 & L3 & X3 & E3);
    [rewrite C2; reflexivity | exact Hc | unfold max_retries; lia |].
  assert (C3 : count is_create (events s3) = 3%nat)
    by (rewrite E3, count_after_401, C2; reflexivity).
  pose proof (forced_stale base token expires_in [inr a; inr b; inr c; inr d] fetch clock_nonneg s1 X1) as S1.
  pose proof (forced_stale base token expires_in [inr a; inr b; inr c; inr d] fetch clock_nonneg s2 X2) as S2.
  fold W in U1, U2, U3, E1, E2, E3, S1, S2.
  exists s3.
  exists ([EvInvalidate; EvRequest (ReqCreate h3 facility); EvRequest ReqToken;
           EvInvalidate; EvRequest (ReqCreate h2 facility); EvRequest ReqToken;
           EvInvalidate; EvRequest (ReqCreate h1 facility)] ++ refreshed W s).
  split; [congruence|]. split; [congruence|]. split; [exact X3|].
  split.
  { rewrite E3, E2, E1. unfold refreshed at 1 2. rewrite S1, S2.
    simpl. reflexivity. }
  split; [exact C3|].
  rewrite !count_app. unfold refreshed. destruct (stale W s); repeat split; reflexivity.
Qed.

End ThreeRetries.

Lemma offline_clock_nonneg k : (Q2Qc 0 <= clock offline k)%Qc.
Proof.
  unfold Qcle. simpl. rewrite !Qred_correct. unfold Qle. simpl. lia.
Qed.

(** C2, as the code has it.  With the creation request answered 401 three
    times and then 200, the submission forces the token to expire exactly
    three times, fetches a token after each, and returns SUCCESS; answered
    401 four times it returns FAILED with the message
    "Auth failed after 3 retries", again after three forced expiries. *)
Theorem retry_bound_401
    (base : World) (token : pyval) (expires_in : Z)
    (a b c ok last fetched : Response) (result created : pyval)
    (facility : pyval) (s : State) :
  (forall k, (Q2Qc 0 <= clock base k)%Qc) ->
  count is_create (events s) = 0%nat ->
  status_code a = 401 -> status_code b = 401 -> status_code c = 401 ->
  status_code ok = 200 -> json ok = inr result ->
  created_osid result = inr created ->
  (status_code fetched <> 200 \/ exists items, json fetched = inr (VDict items)) ->
  status_code last = 401 ->
  (let W := scripted base (token_reply token expires_in)
                     [inr a; inr b; inr c; inr ok] (inr fetched) in
   exists s' new wf_id,
     upload_facility W facility 0 s =
       (Val {| status := "SUCCESS"; message := "Created";
               osid := created; wfId := wf_id |}, s') /\
     added s s' new /\
     count is_invalidate new = 3%nat /\
     count is_token new = (3 + (if stale W s then 1 else 0))%nat /\
     count is_create new = 4%nat)
  /\
  (let W := scripted base (token_reply token expires_in)
                     [inr a; inr b; inr c; inr last] (inr fetched) in
   exists s' new,
     upload_facility W facility 0 s =
       (Val (failure "Auth failed after 3 retries"), s') /\
     added s s' new /\
     count is_invalidate new = 3%nat /\
     count is_token new = (3 + (if stale W s then 1 else 0))%nat /\
     count is_create new = 4%nat).
Proof.
  intros Hclock Hfresh Ha Hb Hc Hok Hjson Hosid Hfetched Hlast. split.
  - intros W.
    destruct (three_401 base token expires_in a b c ok (inr fetched) facility s
                Hclock Hfresh Ha Hb Hc)
      as (s3 & new & U & L & X & E & C3 & Cc & Ci & Ct & Cf).
    destruct (scripted_200 base token expires_in [inr a; inr b; inr c; inr ok]
                (inr fetched) facility 3 s3 ok result created fetched)
      as (s' & h & wf_id & U' & _ & L' & E'); auto.
    { rewrite C3. reflexivity. }
    pose proof (forced_stale base token expires_in [inr a; inr b; inr c; inr ok]
                  (inr fetched) Hclock s3 X) as S3.
    fold W in U, U', E', S3, Ct, E.
    exists s'. eexists. exists wf_id. split; [rewrite U; exact U'|].
    unfold added. rewrite E'. unfold refreshed. rewrite S3, E.
    rewrite !app_comm_cons, app_assoc. split; [reflexivity|].
    rewrite !count_app, !count_cons, Ci, Ct, Cc. simpl. repeat split; lia.
  - intros W.
    destruct (three_401 base token expires_in a b c last (inr fetched) facility s
                Hclock Hfresh Ha Hb Hc)
      as (s3 & new & U & L & X & E & C3 & Cc & Ci & Ct & Cf).
    destruct (scripted_401_last base token expires_in [inr a; inr b; inr c; inr last]
                (inr fetched) facility 3 s3 last)
      as (s' & h & U' & L' & E'); auto.
    { rewrite C3. reflexivity. }
    { unfold max_retries. lia. }
    pose proof (forced_stale base token expires_in [inr a; inr b; inr c; inr last]
                  (inr fetched) Hclock s3 X) as S3.
    fold W in U, U', E', S3, Ct, E.
    exists s'. eexists. split; [rewrite U; exact U'|].
    unfold added. rewrite E'. unfold refreshed. rewrite S3, E.
    rewrite !app_comm_cons, app_assoc. split; [reflexivity|].
    rewrite !count_app, !count_cons, Ci, Ct, Cc. simpl. repeat split; lia.
Qed.

Lemma retry_bound_401_witness :
  (let W := scripted offline (token_reply (VStr "t0") 300)
              [inr unauthorized; inr unauthorized; inr unauthorized;
               inr (created_response (VStr "1-abc"))] (inr not_found) in
   exists s' new wf_id,
     upload_facility W (VDict []) 0 initial_state =
       (Val {| status := "SUCCESS"; message := "Created";
               osid := VStr "1-abc"; wfId := wf_id |}, s') /\
     added initial_state s' new /\
     count is_invalidate new = 3%nat /\
     count is_token new = (3 + (if stale W initial_state then 1 else 0))%nat /\
     count is_create new = 4%nat)
  /\
  (let W := scripted offline (token_reply (VStr "t0") 300)
              [inr unauthorized; inr unauthorized; inr unauthorized;
               inr unauthorized] (inr not_found) in
   exists s' new,
     upload_facility W (VDict []) 0 initial_state =
       (Val (failure "Auth failed after 3 retries"), s') /\
     added initial_state s' new /\
     count is_invalidate new = 3%nat /\
     count is_token new = (3 + (if stale W initial_state then 1 else 0))%nat /\
     count is_create new = 4%nat).
Proof.
  apply (retry_bound_401 offline (VStr "t0") 300 unauthorized unauthorized unauthorized
           (created_response (VStr "1-abc")) unauthorized not_found
           (VDict [("result", VDict [("WaterFacility", VDict [("osid", VStr "1-abc")])])])
           (VStr "1-abc") (VDict []) initial_state).
  - exact offline_clock_nonneg.
  - reflexivity.
  - reflexivity.
  - reflexivity.
  - reflexivity.
  - reflexivity.
  - reflexivity.
  - reflexivity.
  - left. simpl. lia.
  - reflexivity.
Defined.

(** C2 as the specification words it fails on the message: four 401
    answers give FAILED, but the text is not "auth failed after retries". *)
Lemma retry_bound_401_message_counterexample :
  exists r s',
    upload_facility always_unauthorized (VDict []) 0 initial_state = (Val r, s') /\
    status r = "FAILED" /\
    message r <> "auth failed after retries".
Proof.
  eexists. eexists. split; [vm_compute; reflexivity|].
  split; [reflexivity | discriminate].
Qed.

(** ** Classification of the answers *)

(** C3, as the code has it.  A creation request answered 500 is a
    DUPLICATE when the body parses as JSON and the text of the parsed value
    has "duplicate" or "unique" in it, whatever the case of the letters;
    otherwise, and whenever the body does not parse, it is FAILED with
    "Server error: " and the first 200 characters of the body. *)
Theorem server_error_classification
    (W : World) (facility : pyval) (retry_count : nat)
    (s s1 : State) (headers : string) (response : Response) :
  get_auth_headers W s = (Val headers, s1) ->
  respond W (events s1) (ReqCreate headers facility) = inr response ->
  status_code response = 500 ->
  exists r,
    upload_facility W facility retry_count s =
      (Val r, emit (EvRequest (ReqCreate headers facility)) s1) /\
    (forall error_data,
        json response = inr error_data ->
        PyText.contains "duplicate" (PyText.lower (py_str W error_data))
        || PyText.contains "unique" (PyText.lower (py_str W error_data)) = true ->
        status r = "DUPLICATE") /\
    (forall error_data,
        json response = inr error_data ->
        PyText.contains "duplicate" (PyText.lower (py_str W error_data))
        || PyText.contains "unique" (PyText.lower (py_str W error_data)) = false ->
        r = failure ("Server error: " ++ PyText.take 200 (text response))%string) /\
    (forall e,
        json response = inl e ->
        r = failure ("Server error: " ++ PyText.take 200 (text response))%string).
Proof.
  intros Hh Hr Hst. eexists. split.
  - apply (attempt_500 W facility retry_count s s1 headers response Hh Hr Hst).
  - unfold is_duplicate_error. repeat split.
    + intros j Hj Hc. rewrite Hj, Hc. reflexivity.
    + intros j Hj Hc. rewrite Hj, Hc. reflexivity.
    + intros e He. rewrite He. reflexivity.
Qed.

Lemma server_error_classification_witness :
  exists r,
    upload_facility json_unique_violation (VDict []) 0 initial_state =
      (Val r, emit (EvRequest (ReqCreate "Bearer t0" (VDict [])))
                   (snd (get_auth_headers json_unique_violation initial_state))) /\
    (forall error_data,
        json unique_violation = inr error_data ->
        PyText.contains "duplicate" (PyText.lower (py_str json_unique_violation error_data))
        || PyText.contains "unique" (PyText.lower (py_str json_unique_violation error_data)) = true ->
        status r = "DUPLICATE") /\
    (forall error_data,
        json unique_violation = inr error_data ->
        PyText.contains "duplicate" (PyText.lower (py_str json_unique_violation error_data))
        || PyText.contains "unique" (PyText.lower (py_str json_unique_violation error_data)) = false ->
        r = failure ("Server error: " ++ PyText.take 200 (text unique_violation))%string) /\
    (forall e,
        json unique_violation = inl e ->
        r = failure ("Server error: " ++ PyText.take 200 (text unique_violation))%string).
Proof.
  apply (server_error_classification json_unique_violation (VDict []) 0 initial_state
           (snd (get_auth_headers json_unique_violation initial_state))
           "Bearer t0" unique_violation).
  - vm_compute. reflexivity.
  - vm_compute. reflexivity.
  - reflexivity.
Defined.

(** C3 as the specification words it fails twice: a 503 is not looked at
    for duplicates, and a 500 whose body is not JSON is FAILED even with
    "unique constraint" in its text. *)
Lemma server_error_classification_counterexample :
  (exists r s',
      upload_facility unavailable_duplicate (VDict []) 0 initial_state = (Val r, s') /\
      status r = "FAILED") /\
  (exists r s',
      upload_facility plain_unique_violation (VDict []) 0 initial_state = (Val r, s') /\
      status r = "FAILED" /\
      message r = "Server error: unique constraint violation").
Proof.
  split.
  - eexists. eexists. split; [vm_compute; reflexivity | reflexivity].
  - eexists. eexists. split; [vm_compute; reflexivity | split; reflexivity].
Qed.

(** C4, as the code has it.  A creation request answered 200 with a JSON
    body that names the created resource is followed by one fetch of that
    resource; when the fetch is answered with another status than 200 the
    outcome is SUCCESS with no secondary id, and when it is answered 200
    with a JSON object the outcome is SUCCESS with the [wfId] of that
    object, if it has one. *)
Theorem success_whatever_the_fetch_status
    (W : World) (facility : pyval) (retry_count : nat)
    (s s1 : State) (headers : string) (response fetched : Response)
    (result created : pyval) :
  get_auth_headers W s = (Val headers, s1) ->
  respond W (events s1) (ReqCreate headers facility) = inr response ->
  status_code response = 200 ->
  json response = inr result ->
  created_osid result = inr created ->
  respond W (EvRequest (ReqCreate headers facility) :: events s1)
          (ReqFetch headers (py_str W created)) = inr fetched ->
  let s3 := emit (EvRequest (ReqFetch headers (py_str W created)))
                 (emit (EvRequest (ReqCreate headers facility)) s1) in
  (status_code fetched <> 200 ->
   upload_facility W facility retry_count s =
     (Val {| status := "SUCCESS"; message := "Created";
             osid := created; wfId := VNone |}, s3)) /\
  (forall items,
      status_code fetched = 200 -> json fetched = inr (VDict items) ->
      upload_facility W facility retry_count s =
        (Val {| status := "SUCCESS"; message := "Created"; osid := created;
                wfId := default VNone (dict_get items "wfId") |}, s3)).
Proof.
  intros Hh Hr Hst Hj Ho Hf s3. split.
  - intros Hne.
    apply (attempt_200_fetch_refused W facility retry_count s s1 headers response
             fetched result created Hh Hr Hst Hj Ho Hf Hne).
  - intros items H200 Hitems.
    apply (attempt_200_fetch_ok W facility retry_count s s1 headers response
             fetched result created Hh Hr Hst Hj Ho Hf items H200 Hitems).
Qed.

Lemma success_whatever_the_fetch_status_witness :
  let W := created_fetch_refused in
  let s1 := snd (get_auth_headers W initial_state) in
  let s3 := emit (EvRequest (ReqFetch "Bearer t0" (py_str W (VStr "1-abc"))))
                 (emit (EvRequest (ReqCreate "Bearer t0" (VDict []))) s1) in
  (status_code not_found <> 200 ->
   upload_facility W (VDict []) 0 initial_state =
     (Val {| status := "SUCCESS"; message := "Created";
             osid := VStr "1-abc"; wfId := VNone |}, s3)) /\
  (forall items,
      status_code not_found = 200 -> json not_found = inr (VDict items) ->
      upload_facility W (VDict []) 0 initial_state =
        (Val {| status := "SUCCESS"; message := "Created"; osid := VStr "1-abc";
                wfId := default VNone (dict_get items "wfId") |}, s3)).
Proof.
  intros W s1.
  apply (success_whatever_the_fetch_status W (VDict []) 0 initial_state s1
           "Bearer t0" (created_response (VStr "1-abc")) not_found
           (VDict [("result", VDict [("WaterFacility", VDict [("osid", VStr "1-abc")])])])
           (VStr "1-abc")).
  - vm_compute. reflexivity.
  - vm_compute. reflexivity.
  - reflexivity.
  - reflexivity.
  - reflexivity.
  - vm_compute. reflexivity.
Defined.

(** C4 as the specification words it fails on the 2xx answers other than
    200: a creation answered 201 is FAILED, and no fetch follows. *)
Lemma success_on_2xx_counterexample :
  exists r s',
    upload_facility created_201 (VDict []) 0 initial_state = (Val r, s') /\
    status r = "FAILED" /\
    message r = "HTTP 201: Created" /\
    count is_fetch (events s') = 0%nat.
Proof.
  eexists. eexists. split; [vm_compute; reflexivity|].
  repeat split; reflexivity.
Qed.

(** ** The retry budget *)

Lemma count_retry_split evs :
  count is_retry evs = (count is_sleep evs + count is_invalidate evs)%nat.
Proof.
  induction evs as [|ev evs IH]; [reflexivity|].
  rewrite !count_cons, IH. destruct ev as [r|z|]; simpl; lia.
Qed.

Lemma upload_facility_runs W facility retry_count s :
  exists r s', upload_facility W facility retry_count s = (Val r, s') /\
               upload_post facility retry_count s r s'.
Proof.
  pose proof (upload_facility_spec W facility _ retry_count s (le_n _)) as H.
  unfold wp in H.
  destruct (upload_facility W facility retry_count s) as [[r|e] s'];
    [eauto | contradiction].
Qed.

(** C5, as the code has it.  The two failure classes draw on one retry
    counter: whatever the remote side does, a submission retries at most
    three times in all, back-off sleeps and forced expiries counted
    together, and so sends at most four creation requests. *)
Theorem shared_retry_budget (W : World) (facility : pyval) (s : State) :
  exists r s' new,
    upload_facility W facility 0 s = (Val r, s') /\
    added s s' new /\
    (count is_sleep new + count is_invalidate new <= 3)%nat /\
    (count is_create new <= 4)%nat.
Proof.
  destruct (upload_facility_runs W facility 0 s)
    as (r & s' & Hrun & _ & new & [_ Hadd] & _ & Hc & Hr).
  exists r, s', new. rewrite <- count_retry_split.
  unfold max_retries in *. simpl in *. auto.
Qed.

(** C5 as the specification words it fails: after three timeouts a single
    401 ends the submission with the auth failure, no forced expiry having
    been spent. *)
Lemma independent_budgets_counterexample : ~ independent_budgets.
Proof.
  intros H.
  destruct (upload_facility timeouts_then_unauthorized (VDict []) 0 initial_state)
    as [o s'] eqn:Hrun.
  assert (Ho : o = Val (failure "Auth failed after 3 retries"))
    by (apply (f_equal fst) in Hrun; vm_compute in Hrun; symmetry; exact Hrun).
  assert (He : exists new, events s' = new ++ events initial_state
                           /\ count is_invalidate new = 0%nat).
  { exists (events s'). split; [symmetry; apply app_nil_r|].
    replace s' with (snd (upload_facility timeouts_then_unauthorized (VDict []) 0
                                          initial_state))
      by (rewrite Hrun; reflexivity).
    vm_compute. reflexivity. }
  destruct He as (new & He & Hc). subst o.
  destruct (H _ _ _ _ _ new Hrun He) as [Hauth _].
  specialize (Hauth eq_refl). congruence.
Qed.

(** ** Totality of the submission *)

Lemma take_length n s : (String.length (PyText.take n s) <= n)%nat.
Proof.
  revert s. induction n as [|n IH]; intros [|ch s]; simpl; try lia.
  specialize (IH s). lia.
Qed.

(** C9.  Whatever the payload, the state and the remote side, a call of
    [upload_facility] raises nothing: it returns a result, made by one of
    the return statements of the function, whose status is SUCCESS,
    DUPLICATE or FAILED; the message made from a caught fault is the first
    200 characters of the text of the fault. *)
Theorem upload_facility_total
    (W : World) (facility : pyval) (retry_count : nat) (s : State) :
  exists r s',
    upload_facility W facility retry_count s = (Val r, s') /\
    is_outcome (status r) /\
    returned r /\
    (forall e, r = failure (PyText.take 200 (str_exn e)) ->
               (String.length (message r) <= 200)%nat).
Proof.
  destruct (upload_facility_runs W facility retry_count s)
    as (r & s' & Hrun & Hret & _).
  exists r, s'. split; [exact Hrun|]. split; [apply returned_outcome; exact Hret|].
  split; [exact Hret|].
  intros e ->. exact (take_length 200 (str_exn e)).
Qed.

(** ** The driver: one line for each row *)

Lemma wp_log_result W geo_code st msg o w s
    (P : unit -> State -> Prop) (Q : Exn -> State -> Prop) :
  (forall s' timestamp,
      log_file s' = log_file s ++ [log_entry W geo_code st msg o w timestamp] ->
      events s' = events s ->
      P tt s') ->
  wp (log_result W geo_code st msg o w) s P Q.
Proof.
  intros HP. unfold log_result. wp_step. wp_step. wp_step.
  eapply HP; [rewrite Hlog0, Hlog; reflexivity | congruence].
Qed.

Lemma Qc_of_nat_nonzero n : n <> 0%nat -> Qc_of_nat n <> Q2Qc 0.
Proof.
  intros Hn H. unfold Qc_of_nat in H. apply Q2Qc_eq_iff in H.
  unfold Qeq in H. simpl in H. lia.
Qed.

Lemma upload_row_spec W total batch_size start_time idx row c s :
  has_geo_code row -> batch_size <> 0%nat -> total <> 0%nat ->
  wp (upload_row W total batch_size start_time idx row c) s
     (fun _ s' => exists step,
          row_step W row step /\
          log_file s' = log_file s ++ [fst step] /\
          events s' = snd step ++ events s)
     (fun _ _ => False).
Proof.
  intros [geo_code Hgeo] Hbatch Htotal. unfold upload_row.
  wp_step. rewrite Hgeo. apply wp_ret.
  destruct (row_to_facility W row) as [e|facility] eqn:Hrow.
  - wp_step. apply wp_log_result. intros s1 timestamp L1 E1. wp_step.
    exists (log_entry W geo_code "FAILED" ("Transform error: " ++ str_exn e)%string
                      VNone VNone timestamp, []).
    split; [|split; [exact L1 | exact E1]].
    exists geo_code, timestamp. rewrite Hrow. auto.
  - wp_step.
    eapply wp_mono; [apply (upload_facility_spec W facility _ 0 s (le_n _)) | | auto].
    intros r s1 (Hret & new & [L1 E1] & Hall & _). unfold added in E1.
    wp_step. apply wp_log_result. intros s2 timestamp L2 E2.
    assert (Hdone : exists step,
               row_step W row step /\
               log_file s2 = log_file s ++ [fst step] /\
               events s2 = snd step ++ events s).
    { exists (log_entry W geo_code (status r) (message r) (osid r) (wfId r) timestamp, new).
      split; [|split; simpl; congruence].
      exists geo_code, timestamp. rewrite Hrow. split; [exact Hgeo|].
      exists r. auto. }
    wp_step. unfold progress_due. destruct batch_size as [|n]; [contradiction|].
    apply wp_ret. wp_step.
    + destruct (((idx mod S n =? 0)%nat || (idx =? total)%nat)).
      * wp_step. wp_step. wp_step.
        destruct (progress_update_defined idx total (clock W (clock_reads s2) - start_time)%Qc)
          as (p & Hp).
        rewrite Hp. apply wp_ret. wp_step.
        rewrite (py_div_ok _ _ (Qc_of_nat_nonzero total Htotal)). apply wp_ret.
        wp_step. wp_step.
        destruct Hdone as (step & Hs & HL & HE). exists step.
        split; [exact Hs|]. split; congruence.
      * wp_step. wp_step. exact Hdone.
Qed.

Lemma rows_done_nil W s : rows_done W [] s s.
Proof.
  exists []. split; [constructor|]. simpl. rewrite app_nil_r. auto.
Qed.

Lemma rows_done_cons W row rows s s1 s' step :
  row_step W row step ->
  log_file s1 = log_file s ++ [fst step] ->
  events s1 = snd step ++ events s ->
  rows_done W rows s1 s' ->
  rows_done W (row :: rows) s s'.
Proof.
  intros Hstep L1 E1 (steps & Hall & L & E).
  exists (step :: steps). split; [constructor; assumption|]. split.
  - rewrite L, L1. simpl. rewrite <- app_assoc. reflexivity.
  - rewrite E, E1. simpl. rewrite concat_app. simpl.
    rewrite app_nil_r, <- app_assoc. reflexivity.
Qed.

Lemma upload_rows_spec W total batch_size start_time rows :
  Forall has_geo_code rows -> batch_size <> 0%nat -> total <> 0%nat ->
  forall idx c s,
    wp (upload_rows W total batch_size start_time idx rows c) s
       (fun _ s' => rows_done W rows s s') (fun _ _ => False).
Proof.
  intros Hkeys Hbatch Htotal.
  induction Hkeys as [|row rows Hrow Hrows IH]; intros idx c s; simpl.
  - apply wp_ret. apply rows_done_nil.
  - wp_step.
    eapply wp_mono;
      [apply (upload_row_spec W total batch_size start_time idx row c s Hrow Hbatch Htotal)
      | | auto].
    intros c' s1 (step & Hstep & L1 & E1).
    eapply wp_mono; [apply IH | | auto].
    intros c'' s' Hdone. eapply rows_done_cons; eauto.
Qed.

(** The run of [bulk_upload]: whether it ends with its summary or with
    the division by a zero duration after the loop, every row has had its
    step. *)
Lemma bulk_upload_spec W df batch_size s :
  Forall has_geo_code df -> batch_size <> 0%nat ->
  wp (bulk_upload W df batch_size) s
     (fun _ s' => rows_done W df s s') (fun _ s' => rows_done W df s s').
Proof.
  intros Hkeys Hbatch. unfold bulk_upload.
  wp_step. wp_step. wp_step.
  assert (Hloop : wp (upload_rows W (length df) batch_size (clock W (clock_reads s)) 1 df
                        {| success_count := 0; duplicate_count := 0; failed_count := 0 |})
                     s0 (fun _ s' => rows_done W df s0 s') (fun _ _ => False)).
  { destruct df as [|row df].
    - apply wp_ret. apply rows_done_nil.
    - apply upload_rows_spec; [assumption | assumption | simpl; lia]. }
  eapply wp_mono; [exact Hloop | | intros ? ? []].
  intros c s1 (steps & Hall & L & E).
  assert (Hdone : forall s2, log_file s2 = log_file s1 -> events s2 = events s1 ->
                             rows_done W df s s2).
  { intros s2 L2 E2. exists steps. split; [assumption|]. split; congruence. }
  wp_step. wp_step. wp_step.
  destruct (py_div _ _); [apply wp_raise; apply Hdone; assumption | apply wp_ret].
  wp_step. destruct (py_div _ _); [apply wp_raise; apply Hdone; assumption | apply wp_ret].
  wp_step. apply Hdone; assumption.
Qed.

(** ** The resume filter *)

Lemma uploaded_fold lines : forall (acc : gset string) k,
  k ∈ fold_left
        (fun uploaded line =>
           if is_success_line line
           then uploaded ∪ {[ default EmptyString (parts_of line !! 0%nat) ]}
           else uploaded)
        lines acc
  <-> k ∈ acc \/ exists line, In line lines /\ success_line_of k line.
Proof.
  induction lines as [|line lines IH]; intros acc k; simpl.
  - split; [auto | intros [H|(l & [] & _)]; exact H].
  - rewrite IH. unfold success_line_of.
    destruct (is_success_line line) eqn:Hs.
    + unfold is_success_line in Hs. apply andb_true_iff in Hs as [Hlen Hst].
      apply Nat.leb_le in Hlen. apply bool_decide_eq_true in Hst.
      rewrite elem_of_union, elem_of_singleton. split.
      * intros [[H|H]|(l & Hl & Hk)]; [auto | | right; eauto].
        right. exists line. split; [auto|]. repeat split; [exact Hlen | | exact Hst].
        destruct (parts_of line !! 0%nat) eqn:H0; simpl in H; [congruence|].
        apply lookup_ge_None in H0. lia.
      * intros [H|(l & [Hl|Hl] & Hlen' & H0 & H1)]; [auto | | right; eauto].
        subst l. left. right. rewrite H0. reflexivity.
    + split.
      * intros [H|(l & Hl & Hk)]; [auto | right; eauto].
      * intros [H|(l & [Hl|Hl] & Hlen' & H0 & H1)]; [auto | | right; eauto].
        subst l. unfold is_success_line in Hs. apply andb_false_iff in Hs as [Hs|Hs].
        -- apply Nat.leb_gt in Hs. lia.
        -- apply bool_decide_eq_false in Hs. contradiction.
Qed.

(** The keys [load_uploaded_records] returns are those with a SUCCESS
    entry. *)
Lemma uploaded_of_spec content k :
  k ∈ uploaded_of content <-> has_success_entry content k.
Proof.
  unfold uploaded_of, has_success_entry. rewrite uploaded_fold.
  split; [intros [H|H]; [set_solver | exact H] | auto].
Qed.

(** The payload of a row carries the text of its key. *)

Lemma and_then_inr {A B} (x : Exn + A) (k : A -> Exn + B) b :
  and_then x k = inr b -> exists a, x = inr a /\ k a = inr b.
Proof. destruct x as [e|a]; simpl; [discriminate | eauto]. Qed.

Lemma headed_app kv items extra : headed kv items -> headed kv (items ++ extra).
Proof. intros [rest ->]. exists (rest ++ extra). reflexivity. Qed.

Lemma headed_copy_if_present kv row column key items items' :
  headed kv items -> copy_if_present row column key items = inr items' ->
  headed kv items'.
Proof.
  unfold copy_if_present. intros Hh H.
  destruct (notna (row_get row column)); [|congruence].
  apply and_then_inr in H as (v & _ & H). inversion H. apply headed_app, Hh.
Qed.

Lemma headed_copy_if_set kv row column key items items' :
  headed kv items -> copy_if_set row column key items = inr items' ->
  headed kv items'.
Proof.
  unfold copy_if_set. intros Hh H.
  destruct (notna (row_get row column)); [|congruence].
  apply and_then_inr in H as (v & _ & H).
  destruct (truthy v); inversion H; [apply headed_app, Hh | subst; exact Hh].
Qed.

Lemma headed_float_if_present W kv row column key items items' :
  headed kv items -> float_if_present W row column key items = inr items' ->
  headed kv items'.
Proof.
  unfold float_if_present. intros Hh H.
  destruct (notna (row_get row column)); [|congruence].
  apply and_then_inr in H as (v & _ & H).
  apply and_then_inr in H as (f & _ & H). inversion H. apply headed_app, Hh.
Qed.

Lemma headed_yes_if_present W kv row column key items items' :
  headed kv items -> yes_if_present W row column key items = inr items' ->
  headed kv items'.
Proof.
  unfold yes_if_present. intros Hh H.
  destruct (notna (row_get row column)); [|congruence].
  apply and_then_inr in H as (v & _ & H). inversion H. apply headed_app, Hh.
Qed.

Lemma row_to_facility_geoCode W row facility :
  row_to_facility W row = inr facility ->
  exists geo_code,
    row_item row "geo_code" = inr geo_code /\
    subscript facility "geoCode" = inr (VStr (py_str W geo_code)).
Proof.
  unfold row_to_facility. intros H.
  apply and_then_inr in H as (geo_code & Hgeo & H).
  exists geo_code. split; [exact Hgeo|].
  do 7 (apply and_then_inr in H as (? & _ & H)).
  match type of H with
  | and_then (copy_if_present _ _ _ ?l) _ = _ =>
      assert (Hh : headed ("geoCode", VStr (py_str W geo_code)) l) by (eexists; reflexivity)
  end.
  repeat match type of H with
         | and_then _ _ = inr _ =>
             let l := fresh "l" in
             let Hl := fresh "Hl" in
             apply and_then_inr in H as (l & Hl & H);
             first [ apply (headed_copy_if_present _ _ _ _ _ _ Hh) in Hl
                   | apply (headed_copy_if_set _ _ _ _ _ _ Hh) in Hl
                   | apply (headed_float_if_present _ _ _ _ _ _ _ Hh) in Hl
                   | apply (headed_yes_if_present _ _ _ _ _ _ _ Hh) in Hl ];
             clear Hh; rename Hl into Hh
         end.
  inversion H. destruct Hh as [rest ->]. reflexivity.
Qed.

Lemma geo_codes_ok df ks : geo_codes df = inr ks -> Forall has_geo_code df.
Proof.
  revert ks. induction df as [|row df IH]; intros ks H; [constructor|].
  simpl in H. apply and_then_inr in H as (k & Hk & H).
  apply and_then_inr in H as (ks' & Hks & _).
  constructor; [exists k; exact Hk | eapply IH; exact Hks].
Qed.

Lemma not_uploaded_keys df uploaded :
  Forall has_geo_code df -> Forall has_geo_code (not_uploaded df uploaded).
Proof.
  intros H. unfold not_uploaded. apply List.Forall_forall. intros row Hin.
  apply List.filter_In in Hin as [Hin _].
  rewrite List.Forall_forall in H. auto.
Qed.

Lemma main_spec W df answer s :
  wp (main W df answer) s
     (fun _ s' => main_done W df s s') (fun _ s' => main_done W df s s').
Proof.
  unfold main. wp_step.
  eapply wp_mono with (P := fun _ s1 => engine_step s s1 [EvRequest ReqToken])
                      (Q := fun _ s1 => engine_step s s1 [EvRequest ReqToken]);
    [apply get_token_step | |].
  2: { intros e s1 [L E]. exists s1. unfold added in E. simpl in E. auto. }
  intros ok s1 [L1 E1]. unfold added in E1. simpl in E1.
  assert (Hstop : forall s2, log_file s2 = log_file s1 -> events s2 = events s1 ->
                             main_done W df s s2).
  { intros s2 L2 E2. exists s1. auto. }
  destruct ok; simpl; [|apply wp_ret; apply Hstop; reflexivity].
  wp_step.
  assert (Hshown : wp (fun s0 => match expires_at s0 with
                                 | Some _ => ret tt s0
                                 | None => raise (ValueError "cannot convert float NaN to integer") s0
                                 end) s1
                      (fun _ s2 => s2 = s1) (fun _ s2 => s2 = s1)).
  { unfold wp. destruct (expires_at s1); reflexivity. }
  eapply wp_mono; [exact Hshown | | intros e s2 ->; apply Hstop; reflexivity].
  intros _ s2 ->.
  wp_step. unfold get_upload_stats at 1. unfold wp at 1.
  wp_step. unfold load_uploaded_records at 1. unfold wp at 1.
  wp_step. destruct (geo_codes df) as [e|ks] eqn:Hks;
    [apply wp_raise; apply Hstop; reflexivity | apply wp_ret].
  destruct (length _ =? 0)%nat; [apply wp_ret; apply Hstop; reflexivity|].
  destruct (negb _); [apply wp_ret; apply Hstop; reflexivity|].
  wp_step.
  assert (Hbulk : forall s', rows_done W (not_uploaded df (uploaded_of (file_text (log_file s1))))
                                       s1 s' -> main_done W df s s').
  { intros s' Hdone. exists s1. rewrite <- L1. auto. }
  eapply wp_mono;
    [apply bulk_upload_spec;
     [apply not_uploaded_keys; eapply geo_codes_ok; exact Hks | discriminate]
    | | ].
  - intros results s' Hdone. apply wp_ret. apply Hbulk, Hdone.
  - intros e s' Hdone. apply Hbulk, Hdone.
Qed.

Lemma row_get_item row column v :
  row_item row column = inr v -> row_get row column = v.
Proof.
  unfold row_item, row_get. destruct (dict_get row column); simpl; congruence.
Qed.

Lemma In_concat_rev {A} (x : A) (ls : list (list A)) :
  In x (concat (rev ls)) -> exists l, In l ls /\ In x l.
Proof.
  intros H. apply List.in_concat in H as (l & Hl & Hx).
  exists l. split; [apply List.in_rev; exact Hl | exact Hx].
Qed.

Lemma Forall2_In_r {A B} (P : A -> B -> Prop) l l' y :
  Forall2 P l l' -> In y l' -> exists x, In x l /\ P x y.
Proof.
  induction 1 as [|x y' l l' Hxy _ IH]; intros Hin; [destruct Hin|].
  destruct Hin as [->|Hin]; [exists x; simpl; auto|].
  destruct (IH Hin) as (x' & Hx' & HP). exists x'. simpl. auto.
Qed.

(** No creation request of the steps of text-keyed rows is for a key that
    [uploaded] holds, when the rows were taken outside [uploaded]. *)
Lemma steps_skip_uploaded W df uploaded steps k ev :
  Forall text_keyed df ->
  Forall2 (row_step W) (not_uploaded df uploaded) steps ->
  In ev (concat (rev (map snd steps))) ->
  submits k ev ->
  k ∉ uploaded.
Proof.
  intros Htext Hsteps Hin (h & f & -> & Hkey).
  apply In_concat_rev in Hin as (evs & Hevs & Hev).
  apply List.in_map_iff in Hevs as (step & <- & Hstep).
  destruct (Forall2_In_r _ _ _ _ Hsteps Hstep) as (row & Hrow & geo & ts & Hgeo & Hrs).
  apply List.filter_In in Hrow as [Hrow Hout].
  rewrite List.Forall_forall in Htext. destruct (Htext row Hrow) as [k' Hk'].
  rewrite (row_get_item _ _ _ Hk') in Hout. simpl in Hout.
  apply negb_true_iff, bool_decide_eq_false in Hout.
  destruct (row_to_facility W row) as [e|facility] eqn:Hf.
  - destruct Hrs as [_ Hnil]. rewrite Hnil in Hev. destruct Hev.
  - destruct Hrs as (r & _ & _ & Hall).
    rewrite List.Forall_forall in Hall. specialize (Hall _ Hev). simpl in Hall.
    subst f.
    destruct (row_to_facility_geoCode W row facility Hf) as (geo' & Hgeo' & Hsub).
    rewrite Hk' in Hgeo'. inversion Hgeo'; subst geo'. simpl in Hsub.
    rewrite Hkey in Hsub. inversion Hsub; subst k'. exact Hout.
Qed.

(** X22.  Rows keyed by text.  For a data frame whose [geo_code] cells are
    all texts, an invocation of [main] sends no creation request for a key
    that [load_uploaded_records] reads from a SUCCESS line of the log it
    starts from (a line that, stripped and split, has three fields at
    least, the key as field 0 and SUCCESS as field 1): the rows of such
    keys are filtered out before transform and upload.  A row whose key
    has only DUPLICATE or FAILED lines stays in [df_to_upload], the rows
    handed to [bulk_upload]. *)
Theorem resume_skips_logged_success
    (W : World) (df : list Row) (answer : string) (s : State) :
  Forall text_keyed df ->
  exists o s' new,
    main W df answer s = (o, s') /\
    added s s' new /\
    (forall k ev,
        has_success_entry (file_text (log_file s)) k ->
        In ev new -> ~ submits k ev) /\
    (forall row k,
        In row df ->
        row_item row "geo_code" = inr (VStr k) ->
        only_duplicate_or_failed (file_text (log_file s)) k ->
        In row (not_uploaded df (uploaded_of (file_text (log_file s))))).
Proof.
  intros Htext.
  pose proof (main_spec W df answer s) as Hmain. unfold wp in Hmain.
  destruct (main W df answer s) as [o s'] eqn:Hrun.
  assert (Hdone : main_done W df s s') by (destruct o; exact Hmain).
  clear Hmain. destruct Hdone as (s1 & L1 & E1 & Hrest).
  assert (Hnew : exists new,
             added s s' new /\
             forall k ev, k ∈ uploaded_of (file_text (log_file s)) ->
                          In ev new -> ~ submits k ev).
  { destruct Hrest as [[L E]|(steps & Hsteps & L & E)].
    - exists [EvRequest ReqToken]. split; [unfold added; simpl; congruence|].
      intros k ev _ [<-|[]] (h & f & Hev & _). discriminate.
    - exists (concat (rev (map snd steps)) ++ [EvRequest ReqToken]). split.
      + unfold added. rewrite E, E1, <- app_assoc. reflexivity.
      + intros k ev Hk Hin Hsub. apply List.in_app_iff in Hin as [Hin|[<-|[]]].
        * exact (steps_skip_uploaded W df _ steps k ev Htext Hsteps Hin Hsub Hk).
        * destruct Hsub as (h & f & Hev & _). discriminate. }
  destruct Hnew as (new & Hadd & Hskip).
  exists o, s', new. split; [reflexivity|]. split; [exact Hadd|]. split.
  - intros k ev Hk. apply Hskip. apply uploaded_of_spec, Hk.
  - intros row k Hrow Hkey Honly. apply List.filter_In. split; [exact Hrow|].
    rewrite (row_get_item _ _ _ Hkey). simpl.
    apply negb_true_iff, bool_decide_eq_false. intros Hin.
    apply uploaded_of_spec in Hin as (line & Hline & _ & H0 & H1).
    destruct (Honly line Hline H0) as [H|H]; rewrite H in H1; discriminate.
Qed.

(** ** One log entry for each record *)

(** C6.  A run of [bulk_upload] over rows that have their key appends
    exactly one entry for each row, in order, and goes on to the last row
    whatever the transform and the remote side do: a row whose transform
    raises gets a FAILED entry with "Transform error: " and the text of
    the fault, and adds no event, so no network call is made for it; any
    other row gets the entry of the result of its submission. *)
Theorem one_entry_per_record
    (W : World) (df : list Row) (batch_size : nat) (s : State) :
  Forall has_geo_code df ->
  batch_size <> 0%nat ->
  exists o s' steps,
    bulk_upload W df batch_size s = (o, s') /\
    Forall2 (row_step W) df steps /\
    log_file s' = log_file s ++ map fst steps /\
    events s' = concat (rev (map snd steps)) ++ events s /\
    length (log_file s') = (length (log_file s) + length df)%nat.
Proof.
  intros Hkeys Hbatch.
  pose proof (bulk_upload_spec W df batch_size s Hkeys Hbatch) as H.
  unfold wp in H. destruct (bulk_upload W df batch_size s) as [o s'].
  assert (Hdone : rows_done W df s s') by (destruct o; exact H).
  destruct Hdone as (steps & Hsteps & L & E).
  exists o, s', steps. repeat split; try assumption.
  rewrite L, length_app, length_map. f_equal. symmetry.
  eapply Forall2_length; exact Hsteps.
Qed.

Lemma one_entry_per_record_witness :
  exists o s' steps,
    bulk_upload registry [record_A; record_B; record_C] 50 initial_state = (o, s') /\
    Forall2 (row_step registry) [record_A; record_B; record_C] steps /\
    log_file s' = log_file initial_state ++ map fst steps /\
    events s' = concat (rev (map snd steps)) ++ events initial_state /\
    length (log_file s') =
      (length (log_file initial_state) + length [record_A; record_B; record_C])%nat.
Proof.
  apply (one_entry_per_record registry [record_A; record_B; record_C] 50 initial_state).
  - repeat constructor; eexists; reflexivity.
  - discriminate.
Defined.

(** The scenario of the specification: A is created and its business id
    fetched, B runs into a unique constraint, the transform of C raises;
    three entries, and no request at all for C. *)
Example scenario_log :
  first_log =
    ["A1|SUCCESS|Created|1-abc|X1|2025-01-01 00:00:00" ++ PyText.LF;
     "B2|DUPLICATE|Duplicate wfId|||2025-01-01 00:00:00" ++ PyText.LF;
     "C3|FAILED|Transform error: could not convert string to float: 'n/a'|||2025-01-01 00:00:00"
       ++ PyText.LF]%string.
Proof. vm_compute. reflexivity. Qed.

Example scenario_requests :
  count is_create
    (events (snd (main registry [record_A; record_B; record_C] "y" initial_state)))
  = 2%nat.
Proof. vm_compute. reflexivity. Qed.

Lemma resume_skips_logged_success_witness :
  exists o s' new,
    main registry [record_A; record_B; record_C] "y" (restart first_log) = (o, s') /\
    added (restart first_log) s' new /\
    (forall k ev,
        has_success_entry (file_text (log_file (restart first_log))) k ->
        In ev new -> ~ submits k ev) /\
    (forall row k,
        In row [record_A; record_B; record_C] ->
        row_item row "geo_code" = inr (VStr k) ->
        only_duplicate_or_failed (file_text (log_file (restart first_log))) k ->
        In row (not_uploaded [record_A; record_B; record_C]
                             (uploaded_of (file_text (log_file (restart first_log)))))).
Proof.
  apply (resume_skips_logged_success registry [record_A; record_B; record_C] "y"
           (restart first_log)).
  repeat constructor; eexists; reflexivity.
Defined.

(** The second run of the scenario: A is skipped, B and C are tried
    again. *)
Example scenario_resume :
  not_uploaded [record_A; record_B; record_C] (uploaded_of (file_text first_log))
  = [record_B; record_C].
Proof. vm_compute. reflexivity. Qed.

(** ** Reading back what [log_result] wrote *)

Lemma is_entry_body chunk :
  is_entry chunk = true ->
  exists body, chunk = (body ++ PyText.LF)%string /\ one_line body = true.
Proof.
  induction chunk as [|c rest IH]; [discriminate|].
  destruct rest as [|d rest'].
  - simpl. intros H. apply Ascii.eqb_eq in H. subst c.
    exists EmptyString. split; reflexivity.
  - intros H. change (negb (is_line_end c) && is_entry (String d rest') = true) in H.
    apply andb_true_iff in H as [Hc Hrest].
    destruct (IH Hrest) as (body & Hbody & Hone).
    exists (String c body). split.
    + rewrite Hbody. reflexivity.
    + unfold one_line in *. simpl. rewrite Hc. exact Hone.
Qed.

Lemma readlines_line body rest :
  one_line body = true ->
  PyText.readlines ((body ++ PyText.LF) ++ rest)%string
  = (body ++ PyText.LF)%string :: PyText.readlines rest.
Proof.
  induction body as [|c body IH]; intros H.
  - reflexivity.
  - unfold one_line in H. simpl in H. apply andb_true_iff in H as [Hc Hb].
    unfold is_line_end in Hc. apply negb_true_iff, orb_false_iff in Hc as [Hlf Hcr].
    change (PyText.readlines (String c ((body ++ PyText.LF) ++ rest))
            = String c (body ++ PyText.LF) :: PyText.readlines rest).
    cbn [PyText.readlines]. rewrite Hlf, Hcr. rewrite (IH Hb). reflexivity.
Qed.

(** A log made of entries reads back as these entries, line by line. *)
Lemma readlines_entries chunks :
  Forall (fun chunk => is_entry chunk = true) chunks ->
  PyText.readlines (file_text chunks) = chunks.
Proof.
  induction 1 as [|chunk chunks Hc _ IH]; [reflexivity|].
  destruct (is_entry_body chunk Hc) as (body & -> & Hone).
  simpl. rewrite (readlines_line body _ Hone), IH. reflexivity.
Qed.

Lemma lstrip_clean s : starts_with_space s = false -> PyText.lstrip s = s.
Proof. destruct s as [|c s]; simpl; [reflexivity | intros ->; reflexivity]. Qed.

Lemma rstrip_pipe a rest :
  PyText.rstrip (a ++ String "|" rest)%string
  = (a ++ String "|" (PyText.rstrip rest))%string.
Proof.
  induction a as [|c a IH].
  - simpl. destruct (PyText.rstrip rest); reflexivity.
  - change (PyText.rstrip (String c (a ++ String "|" rest))
            = String c (a ++ String "|" (PyText.rstrip rest))).
    cbn [PyText.rstrip]. rewrite IH.
    destruct a; reflexivity.
Qed.

Lemma split_field a rest :
  no_pipe a = true ->
  PyText.split "|" (a ++ String "|" rest)%string = a :: PyText.split "|" rest.
Proof.
  induction a as [|c a IH]; intros H.
  - reflexivity.
  - unfold no_pipe in H. simpl in H. apply andb_true_iff in H as [Hc Ha].
    unfold is_pipe in Hc. apply negb_true_iff in Hc.
    change (PyText.split "|" (String c (a ++ String "|" rest))
            = String c a :: PyText.split "|" rest).
    cbn [PyText.split]. rewrite Hc, (IH Ha). reflexivity.
Qed.

Lemma split_length sep s : (1 <= length (PyText.split sep s))%nat.
Proof.
  induction s as [|c s IH]; simpl; [lia|].
  destruct (Ascii.eqb c sep); simpl; [lia|].
  destruct (PyText.split sep s); simpl in *; lia.
Qed.

Lemma starts_with_space_app k rest :
  starts_with_space k = false ->
  starts_with_space (k ++ String "|" rest)%string = false.
Proof. destruct k; simpl; auto. Qed.

(** The fields of a line that begins with a clean key and a status. *)
Lemma parts_of_entry k st tail :
  clean_key k = true -> no_pipe st = true ->
  exists more,
    parts_of (k ++ "|" ++ st ++ "|" ++ tail)%string = k :: st :: more /\
    (1 <= length more)%nat.
Proof.
  unfold clean_key. intros Hk Hst.
  apply andb_true_iff in Hk as [Hk Hsp]. apply andb_true_iff in Hk as [Hpipe _].
  apply negb_true_iff in Hsp.
  unfold parts_of, PyText.strip.
  change (k ++ "|" ++ st ++ "|" ++ tail)%string
    with (k ++ String "|" (st ++ String "|" tail))%string.
  rewrite (lstrip_clean _ (starts_with_space_app k _ Hsp)).
  rewrite !rstrip_pipe, (split_field k _ Hpipe), (split_field st _ Hst).
  eexists. split; [reflexivity | apply split_length].
Qed.

Lemma outcome_no_pipe st : is_outcome st -> no_pipe st = true.
Proof. intros [->|[->| ->]]; reflexivity. Qed.

(** ** The statistics count the lines of the whole log *)

Lemma count_line_fold lines : forall st,
  fold_left count_line lines st =
  {| success := success st + length (List.filter (counted "SUCCESS") lines);
     failed := failed st + length (List.filter (counted "FAILED") lines);
     duplicate := duplicate st + length (List.filter (counted "DUPLICATE") lines) |}.
Proof.
  induction lines as [|line lines IH]; intros st.
  - simpl. destruct st. simpl. f_equal; lia.
  - simpl. rewrite IH. unfold count_line, counted.
    destruct (2 <=? length (parts_of line))%nat; simpl; [|reflexivity].
    destruct (parts_of line !! 1%nat) as [f|]; [|reflexivity].
    repeat case_bool_decide; try congruence; simpl; f_equal; lia.
Qed.

Lemma stats_of_tally content :
  stats_of content =
  {| success := tally "SUCCESS" content;
     failed := tally "FAILED" content;
     duplicate := tally "DUPLICATE" content |}.
Proof. unfold stats_of, tally. rewrite count_line_fold. reflexivity. Qed.

(** ** The log of a history of invocations *)

Lemma wf_entry_parts e :
  wf_entry e ->
  exists more,
    parts_of (render e) = entry_key e :: entry_status e :: more /\
    (1 <= length more)%nat.
Proof.
  destruct e as [[k st] tail]. intros (Hk & Hst & _).
  apply (parts_of_entry k st tail Hk (outcome_no_pipe st Hst)).
Qed.

Lemma wf_entry_counted e st :
  wf_entry e -> counted st (render e) = String.eqb (entry_status e) st.
Proof.
  intros Hwf. destruct (wf_entry_parts e Hwf) as (more & Hp & Hlen).
  unfold counted. rewrite Hp. simpl.
  destruct (String.eqb_spec (entry_status e) st) as [->|Hne].
  - apply bool_decide_eq_true. reflexivity.
  - apply bool_decide_eq_false. congruence.
Qed.

Lemma wf_entry_success_line e k :
  wf_entry e ->
  success_line_of k (render e) <-> succeeded e = true /\ entry_key e = k.
Proof.
  intros Hwf. destruct (wf_entry_parts e Hwf) as (more & Hp & Hlen).
  unfold success_line_of, succeeded. rewrite Hp. simpl. split.
  - intros (_ & Hk & Hst). inversion Hk. inversion Hst.
    split; [apply String.eqb_refl | reflexivity].
  - intros [Hst <-]. apply String.eqb_eq in Hst. rewrite Hst.
    repeat split; lia.
Qed.

Lemma wf_entries_read entries :
  Forall wf_entry entries ->
  PyText.readlines (file_text (map render entries)) = map render entries.
Proof.
  intros Hwf. apply readlines_entries.
  apply List.Forall_forall. intros chunk Hin.
  apply List.in_map_iff in Hin as (e & <- & He).
  rewrite List.Forall_forall in Hwf. apply (Hwf e He).
Qed.

Lemma wf_entries_success_keys entries :
  Forall wf_entry entries ->
  success_keys (file_text (map render entries))
  = map entry_key (List.filter succeeded entries).
Proof.
  intros Hwf. unfold success_keys. rewrite (wf_entries_read entries Hwf).
  induction Hwf as [|e entries He _ IH]; [reflexivity|].
  simpl. rewrite (wf_entry_counted e "SUCCESS" He). fold (succeeded e).
  destruct (succeeded e); simpl; rewrite IH; [|reflexivity].
  destruct (wf_entry_parts e He) as (more & -> & _). reflexivity.
Qed.

Lemma wf_entries_uploaded entries k :
  Forall wf_entry entries ->
  k ∈ uploaded_of (file_text (map render entries))
  <-> In k (map entry_key (List.filter succeeded entries)).
Proof.
  intros Hwf. rewrite uploaded_of_spec. unfold has_success_entry.
  rewrite (wf_entries_read entries Hwf).
  rewrite List.Forall_forall in Hwf. split.
  - intros (line & Hin & Hline).
    apply List.in_map_iff in Hin as (e & <- & He).
    apply (wf_entry_success_line e k (Hwf e He)) in Hline as [Hs Hk].
    apply List.in_map_iff. exists e. split; [exact Hk|].
    apply List.filter_In. auto.
  - intros Hin. apply List.in_map_iff in Hin as (e & Hk & He).
    apply List.filter_In in He as [He Hs].
    exists (render e). split; [apply List.in_map; exact He|].
    apply (wf_entry_success_line e k (Hwf e He)). auto.
Qed.

Lemma text_key_of row k :
  row_item row "geo_code" = inr (VStr k) -> key_of row = k.
Proof. intros H. unfold key_of. rewrite (row_get_item _ _ _ H). reflexivity. Qed.

(** The lines of the steps of clean rows are well-formed entries, one for
    each row and with its key, once they are known to be single lines. *)
Lemma steps_entries W rows steps :
  Forall text_keyed rows ->
  Forall (fun row => clean_key (key_of row) = true) rows ->
  Forall2 (row_step W) rows steps ->
  Forall (fun chunk => is_entry chunk = true) (map fst steps) ->
  exists entries,
    map fst steps = map render entries /\
    Forall wf_entry entries /\
    Forall2 (fun row e => entry_key e = key_of row) rows entries.
Proof.
  intros Htext Hclean Hsteps. revert Htext Hclean.
  induction Hsteps as [|row step rows steps Hstep _ IH]; intros Htext Hclean Hone.
  - exists []. repeat split; constructor.
  - inversion Htext as [|? ? [k Hk] Htext']; subst.
    inversion Hclean as [|? ? Hck Hclean']; subst.
    simpl in Hone. inversion Hone as [|? ? Hline Hone']; subst.
    destruct (IH Htext' Hclean' Hone') as (entries & Hmap & Hwf & Hkeys).
    destruct Hstep as (geo & ts & Hgeo & Hrow).
    rewrite Hk in Hgeo. inversion Hgeo; subst geo.
    rewrite (text_key_of row k Hk) in Hck.
    assert (He : exists st tail, fst step = render (k, st, tail) /\ is_outcome st).
    { destruct (row_to_facility W row) as [e|facility].
      - destruct Hrow as [-> _]. eexists. eexists. split; [reflexivity|].
        right. right. reflexivity.
      - destruct Hrow as (r & Hret & -> & _). eexists. eexists.
        split; [reflexivity | apply returned_outcome, Hret]. }
    destruct He as (st & tail & Hfst & Hst).
    exists ((k, st, tail) :: entries). split.
    { change (fst step :: map fst steps = render (k, st, tail) :: map render entries).
      rewrite Hfst, Hmap. reflexivity. }
    split.
    + constructor; [|exact Hwf]. repeat split; [exact Hck | exact Hst |].
      rewrite <- Hfst. exact Hline.
    + constructor; [|exact Hkeys]. rewrite (text_key_of row k Hk). reflexivity.
Qed.

Lemma keyed_success_keys rows entries :
  Forall2 (fun (row : Row) e => entry_key e = key_of row) rows entries ->
  NoDup (map key_of rows) ->
  NoDup (map entry_key (List.filter succeeded entries)) /\
  forall k, In k (map entry_key (List.filter succeeded entries)) ->
            In k (map key_of rows).
Proof.
  induction 1 as [|row e rows entries Hk _ IH]; intros Hnd.
  - split; [constructor | intros k []].
  - simpl in Hnd. apply NoDup_cons in Hnd as [Hnotin Hnd].
    destruct (IH Hnd) as [IHnd IHin]. simpl.
    destruct (succeeded e); simpl.
    + split.
      * apply NoDup_cons. split; [|exact IHnd].
        rewrite Hk. intros Hin. apply Hnotin.
        apply list_elem_of_In. apply IHin. apply list_elem_of_In. exact Hin.
      * intros k [<-|Hin]; [left; symmetry; exact Hk | right; apply IHin, Hin].
    + split; [exact IHnd | intros k Hin; right; apply IHin, Hin].
Qed.

Lemma not_uploaded_keys_nodup df uploaded :
  NoDup (map key_of df) -> NoDup (map key_of (not_uploaded df uploaded)).
Proof.
  unfold not_uploaded. induction df as [|row df IH]; intros Hnd; [constructor|].
  simpl in *. apply NoDup_cons in Hnd as [Hnotin Hnd].
  destruct (negb _); simpl; [|apply IH, Hnd].
  apply NoDup_cons. split; [|apply IH, Hnd].
  intros Hin. apply Hnotin. apply list_elem_of_In in Hin. apply list_elem_of_In.
  apply List.in_map_iff in Hin as (row' & Hk & Hin).
  apply List.filter_In in Hin as [Hin _].
  apply List.in_map_iff. eauto.
Qed.

Lemma not_uploaded_outside df uploaded k :
  Forall text_keyed df ->
  In k (map key_of (not_uploaded df uploaded)) -> k ∉ uploaded.
Proof.
  intros Htext Hin. apply List.in_map_iff in Hin as (row & <- & Hin).
  apply List.filter_In in Hin as [Hin Hout].
  rewrite List.Forall_forall in Htext. destruct (Htext row Hin) as [k Hk].
  rewrite (text_key_of row k Hk). rewrite (row_get_item _ _ _ Hk) in Hout.
  simpl in Hout. apply negb_true_iff, bool_decide_eq_false in Hout. exact Hout.
Qed.

Lemma main_appends W df answer s :
  exists extra, log_file (snd (main W df answer s)) = log_file s ++ extra.
Proof.
  pose proof (main_spec W df answer s) as H. unfold wp in H.
  destruct (main W df answer s) as [o s'].
  assert (Hdone : main_done W df s s') by (destruct o; exact H).
  destruct Hdone as (s1 & L1 & _ & [[L _]|(steps & _ & L & _)]); simpl.
  - exists []. rewrite app_nil_r. congruence.
  - exists (map fst steps). congruence.
Qed.

(** The log only grows. *)
Lemma invoke_appends appended i : exists extra, invoke appended i = appended ++ extra.
Proof. apply (main_appends (world i) (frame i) (answer i) (restart appended)). Qed.

Lemma fold_invoke_appends history : forall appended,
  exists extra, fold_left invoke history appended = appended ++ extra.
Proof.
  induction history as [|i history IH]; intros appended; simpl.
  - exists []. rewrite app_nil_r. reflexivity.
  - destruct (invoke_appends appended i) as (e1 & H1).
    destruct (IH (invoke appended i)) as (e2 & H2).
    exists (e1 ++ e2). rewrite H2, H1, app_assoc. reflexivity.
Qed.

(** One invocation on a clean input keeps the invariant of the log, when
    what it appends reads back line by line. *)
Lemma invariant_step appended i :
  log_invariant appended ->
  clean_input (frame i) ->
  Forall (fun chunk => is_entry chunk = true) (invoke appended i) ->
  log_invariant (invoke appended i).
Proof.
  intros (entries & Hold & Hwf & Hnd) (Htext & Hkeys & Hclean) Hone.
  unfold invoke in *.
  pose proof (main_spec (world i) (frame i) (answer i) (restart appended)) as H.
  unfold wp in H.
  destruct (main (world i) (frame i) (answer i) (restart appended)) as [o s'].
  assert (Hdone : main_done (world i) (frame i) (restart appended) s')
    by (destruct o; exact H).
  clear H. simpl in *.
  destruct Hdone as (s1 & L1 & _ & [[L _]|(steps & Hsteps & L & _)]).
  - exists entries. rewrite L, L1. auto.
  - rewrite L, L1 in *. simpl in *.
    apply Forall_app in Hone as [_ Hnew].
    set (rows := not_uploaded (frame i) (uploaded_of (file_text appended))) in *.
    assert (Htext' : Forall text_keyed rows).
    { apply List.Forall_forall. intros row Hin. apply List.filter_In in Hin as [Hin _].
      rewrite List.Forall_forall in Htext. auto. }
    assert (Hclean' : Forall (fun row => clean_key (key_of row) = true) rows).
    { apply List.Forall_forall. intros row Hin. apply List.filter_In in Hin as [Hin _].
      rewrite List.Forall_forall in Hclean. auto. }
    destruct (steps_entries (world i) rows steps Htext' Hclean' Hsteps Hnew)
      as (added_entries & Hmap & Hwf' & Hrows).
    destruct (keyed_success_keys rows added_entries Hrows
                (not_uploaded_keys_nodup _ _ Hkeys)) as [Hnd' Hin'].
    exists (entries ++ added_entries). split; [|split].
    + rewrite map_app, Hold, Hmap. reflexivity.
    + apply Forall_app. auto.
    + rewrite List.filter_app, map_app. apply NoDup_app. split; [exact Hnd|].
      split; [|exact Hnd'].
      intros k Hk Hk'. apply list_elem_of_In in Hk, Hk'.
      apply (not_uploaded_outside (frame i) _ k Htext (Hin' k Hk')).
      rewrite Hold. apply (wf_entries_uploaded entries k Hwf). exact Hk.
Qed.

Lemma invariant_history history : forall appended,
  log_invariant appended ->
  Forall (fun i => clean_input (frame i)) history ->
  Forall (fun chunk => is_entry chunk = true) (fold_left invoke history appended) ->
  log_invariant (fold_left invoke history appended).
Proof.
  induction history as [|i history IH]; intros appended Hinv Hclean Hone; simpl in *.
  - exact Hinv.
  - inversion Hclean as [|? ? Hi Hrest]; subst.
    apply IH; [|exact Hrest | exact Hone].
    apply invariant_step; [exact Hinv | exact Hi |].
    destruct (fold_invoke_appends history (invoke appended i)) as (extra & He).
    rewrite He in Hone. apply Forall_app in Hone as [Hone _]. exact Hone.
Qed.

Lemma log_invariant_nil : log_invariant [].
Proof. exists []. repeat split; constructor. Qed.

(** C7, as the code has it.  [get_upload_stats] returns, for every
    content of the log, the numbers of its lines counted as SUCCESS, FAILED
    and DUPLICATE, over the whole log.  After a history of invocations
    whose inputs are clean (text keys without pipe, line end or leading
    white space, no key twice in one input) and whose entries read back
    line by line, no key has two SUCCESS lines: the success count is the
    number of uploaded keys. *)
Theorem cumulative_stats (history : list Invocation) :
  Forall (fun i => clean_input (frame i)) history ->
  Forall (fun chunk => is_entry chunk = true) (replay history) ->
  (forall content,
      stats_of content =
      {| success := tally "SUCCESS" content;
         failed := tally "FAILED" content;
         duplicate := tally "DUPLICATE" content |}) /\
  NoDup (success_keys (file_text (replay history))) /\
  success (stats_of (file_text (replay history)))
  = size (uploaded_of (file_text (replay history))).
Proof.
  intros Hclean Hone. split; [exact stats_of_tally|].
  destruct (invariant_history history [] log_invariant_nil Hclean Hone)
    as (entries & Hlog & Hwf & Hnd).
  unfold replay in *. rewrite Hlog.
  rewrite (wf_entries_success_keys entries Hwf). split; [exact Hnd|].
  rewrite stats_of_tally. simpl.
  assert (Hset : uploaded_of (file_text (map render entries))
                 = list_to_set (map entry_key (List.filter succeeded entries))).
  { apply set_eq. intros k. rewrite elem_of_list_to_set.
    rewrite (wf_entries_uploaded entries k Hwf). symmetry. apply list_elem_of_In. }
  rewrite Hset, (size_list_to_set _ Hnd).
  rewrite <- (wf_entries_success_keys entries Hwf).
  unfold tally, success_keys. rewrite length_map. reflexivity.
Qed.

Lemma cumulative_stats_witness :
  (forall content,
      stats_of content =
      {| success := tally "SUCCESS" content;
         failed := tally "FAILED" content;
         duplicate := tally "DUPLICATE" content |}) /\
  NoDup (success_keys (file_text (replay [scenario_run; scenario_run]))) /\
  success (stats_of (file_text (replay [scenario_run; scenario_run])))
  = size (uploaded_of (file_text (replay [scenario_run; scenario_run]))).
Proof.
  apply (cumulative_stats [scenario_run; scenario_run]).
  - assert (Hclean : clean_input [record_A; record_B; record_C]).
    { split; [repeat constructor; eexists; reflexivity|]. split.
      - apply (bool_decide_unpack _). vm_compute. exact I.
      - repeat constructor. }
    constructor; [exact Hclean | constructor; [exact Hclean | constructor]].
  - vm_compute. repeat constructor.
Defined.

(** C7 as the specification words it fails when one input lists a key
    twice and the registry accepts both: in a single invocation, so with
    nothing resubmitted later, the key A1 is counted twice. *)
Lemma cumulative_stats_counterexample :
  Forall (fun chunk => is_entry chunk = true) (replay [twice_A]) /\
  success_keys (file_text (replay [twice_A])) = ["A1"; "A1"] /\
  success (stats_of (file_text (replay [twice_A]))) = 2%nat /\
  size (uploaded_of (file_text (replay [twice_A]))) = 1%nat.
Proof.
  split; [vm_compute; repeat constructor|].
  split; [vm_compute; reflexivity|].
  split; vm_compute; reflexivity.
Qed.

(** ** The round trip of one entry *)

Lemma log_entry_render W k st msg o w ts :
  log_entry W (VStr k) st msg o w ts
  = render (k, st, (msg ++ "|" ++ py_str W (or_empty o) ++ "|"
                        ++ py_str W (or_empty w) ++ "|" ++ ts ++ PyText.LF)%string).
Proof. reflexivity. Qed.

(** X23.  For a key that is a text with no pipe, no line end and no
    white space in front, and an outcome among SUCCESS, DUPLICATE and
    FAILED, whatever the message, the ids and the time stamp: the line
    [log_result] writes splits into the key as field 0 and the outcome as
    field 1, with a third field at least; ids that are absent are written
    as the empty text; and when the line has no line end inside, a log
    made of it is read by [load_uploaded_records] as holding the key
    exactly when the outcome is SUCCESS, and counted once under its
    outcome by [get_upload_stats]. *)
Theorem log_line_roundtrip
    (W : World) (k st msg : string) (o w : pyval) (ts : string) :
  clean_key k = true ->
  is_outcome st ->
  let line := log_entry W (VStr k) st msg o w ts in
  (exists more, parts_of line = k :: st :: more /\ (1 <= length more)%nat) /\
  log_entry W (VStr k) st msg VNone VNone ts
  = (k ++ "|" ++ st ++ "|" ++ msg ++ "|||" ++ ts ++ PyText.LF)%string /\
  (is_entry line = true ->
   (k ∈ uploaded_of (file_text [line]) <-> st = "SUCCESS") /\
   tally st (file_text [line]) = 1%nat).
Proof.
  intros Hk Hst line. split; [|split].
  - apply (parts_of_entry k st _ Hk (outcome_no_pipe st Hst)).
  - reflexivity.
  - intros Hline. unfold line in *. rewrite log_entry_render in *.
    set (e := (k, st, _)) in *.
    assert (Hwf : wf_entry e) by (repeat split; assumption).
    assert (Hall : Forall wf_entry [e]) by (constructor; [exact Hwf | constructor]).
    change [render e] with (map render [e]). split.
    + rewrite (wf_entries_uploaded [e] k Hall).
      cbn [List.filter]. unfold succeeded. subst e. cbn [entry_status fst snd].
      destruct (String.eqb_spec st "SUCCESS") as [Heq|Hne].
      * split; [intros _; exact Heq | intros _; left; reflexivity].
      * split; [intros [] | intros H; contradiction].
    + unfold tally. rewrite (wf_entries_read [e] Hall).
      cbn [map List.filter]. rewrite (wf_entry_counted e st Hwf).
      subst e. cbn [entry_status fst snd]. rewrite String.eqb_refl. reflexivity.
Qed.

Lemma log_line_roundtrip_witness :
  let line := log_entry offline (VStr "A1") "SUCCESS" "Created" (VStr "1-abc") VNone
                        "2025-01-01 00:00:00" in
  (exists more, parts_of line = "A1" :: "SUCCESS" :: more /\ (1 <= length more)%nat) /\
  log_entry offline (VStr "A1") "SUCCESS" "Created" VNone VNone "2025-01-01 00:00:00"
  = ("A1" ++ "|" ++ "SUCCESS" ++ "|" ++ "Created" ++ "|||" ++ "2025-01-01 00:00:00"
          ++ PyText.LF)%string /\
  (is_entry line = true ->
   ("A1" ∈ uploaded_of (file_text [line]) <-> "SUCCESS" = "SUCCESS") /\
   tally "SUCCESS" (file_text [line]) = 1%nat).
Proof.
  apply (log_line_roundtrip offline "A1" "SUCCESS" "Created" (VStr "1-abc") VNone
           "2025-01-01 00:00:00").
  - reflexivity.
  - left. reflexivity.
Defined.


(** ** Further behaviours of the engine *)

(** A 200 whose body lacks the id of the created resource is a FAILED
    with the text of the [KeyError]. *)
Example created_without_id_fails :
  fst (upload_facility created_without_id (VDict []) 0 initial_state)
  = Val (failure "'result'").
Proof. vm_compute. reflexivity. Qed.

(** A token exchange that fails is a FAILED of the record at hand. *)
Example token_failure_fails :
  fst (upload_facility token_endpoint_down (VDict []) 0 initial_state)
  = Val (failure "Failed to obtain access token").
Proof. vm_compute. reflexivity. Qed.

(** A fetch that times out sends the whole submission round again: the
    record is created four times and reported FAILED. *)
Example fetch_timeout_resubmits :
  fst (upload_facility fetch_times_out (VDict []) 0 initial_state)
  = Val (failure "Timeout after retries") /\
  count is_create (events (snd (upload_facility fetch_times_out (VDict []) 0 initial_state)))
  = 4%nat.
Proof. split; vm_compute; reflexivity. Qed.

(** A key that is a number is written to the log as its text, and is not
    matched by the filter, which compares the cell with the texts of the
    log. *)
Example numeric_key_not_filtered :
  log_entry offline (VInt 1001) "SUCCESS" "Created" VNone VNone "2025-01-01 00:00:00"
  = ("1001|SUCCESS|Created|||2025-01-01 00:00:00" ++ PyText.LF)%string /\
  not_uploaded [record_1001]
    (uploaded_of ("1001|SUCCESS|Created|||2025-01-01 00:00:00" ++ PyText.LF)%string)
  = [record_1001].
Proof. split; vm_compute; reflexivity. Qed.

(** ** Keys the resume filter misses *)

(** C1.  At the failing input: a file of one record whose key is the
    number 1001, run twice against a registry that accepts.  The first run
    logs a SUCCESS for 1001, and the readers do find that entry under the
    text 1001; yet the filter keeps the row, whose cell is the number, and
    the second run sends the creation request for 1001 again and logs a
    second SUCCESS. *)
Theorem resume_resubmits_numeric_key :
  let log := replay [numeric_run] in
  let second := main accepting [record_1001] "y" (restart log) in
  log = [log_entry accepting (VInt 1001) "SUCCESS" "Created" (VStr "1-abc") (VStr "X1")
                   "2025-01-01 00:00:00"] /\
  file_text log = ("1001|SUCCESS|Created|1-abc|X1|2025-01-01 00:00:00" ++ PyText.LF)%string /\
  has_success_entry (file_text log) "1001" /\
  elements (uploaded_of (file_text log)) = ["1001"] /\
  not_uploaded [record_1001] (uploaded_of (file_text log)) = [record_1001] /\
  Exists (submits "1001") (events (snd second)) /\
  count is_create (events (snd second)) = 1%nat /\
  log_file (snd second) = log ++ log /\
  replay [numeric_run; numeric_run] = log ++ log /\
  success (stats_of (file_text (replay [numeric_run; numeric_run]))) = 2%nat.
Proof.
  cbv zeta.
  split; [vm_compute; reflexivity|].
  split; [vm_compute; reflexivity|].
  split.
  { exists ("1001|SUCCESS|Created|1-abc|X1|2025-01-01 00:00:00" ++ PyText.LF)%string.
    split; [vm_compute; left; reflexivity|].
    split; [vm_compute; lia|]. split; vm_compute; reflexivity. }
  split; [vm_compute; reflexivity|].
  split; [vm_compute; reflexivity|].
  split.
  { apply Exists_cons_tl, Exists_cons_hd.
    eexists _, _. split; vm_compute; reflexivity. }
  split; [vm_compute; reflexivity|].
  split; [vm_compute; reflexivity|].
  split; vm_compute; reflexivity.
Qed.

(** C10.  At the failing input: the key " A1", a text with no pipe and no
    line end, whose outcome and message have no line end either.  The line
    [log_result] writes for it reads back, stripped and split on the pipe,
    with field 0 "A1": [load_uploaded_records] returns the key "A1", not
    the key that was written, so the filter keeps the record and a second
    run of the script creates it again and logs a second SUCCESS. *)
Theorem leading_space_key_read_back :
  let line := log_entry offline (VStr " A1") "SUCCESS" "Created" (VStr "1-abc") VNone
                        "2025-01-01 00:00:00" in
  no_pipe " A1" = true /\ one_line " A1" = true /\
  one_line "SUCCESS" = true /\ one_line "Created" = true /\
  line = (" A1|SUCCESS|Created|1-abc||2025-01-01 00:00:00" ++ PyText.LF)%string /\
  parts_of line !! 0%nat = Some "A1" /\
  parts_of line !! 0%nat <> Some " A1" /\
  elements (uploaded_of (file_text [line])) = ["A1"] /\
  success (stats_of (file_text [line])) = 1%nat /\
  not_uploaded [record " A1" VNaN] (uploaded_of (file_text [line]))
  = [record " A1" VNaN] /\
  replay [spaced_run; spaced_run] = replay [spaced_run] ++ replay [spaced_run] /\
  length (replay [spaced_run]) = 1%nat /\
  count is_create
    (events (snd (main accepting [record " A1" VNaN] "y" (restart (replay [spaced_run])))))
  = 1%nat.
Proof.
  cbv zeta. repeat split; try (vm_compute; reflexivity).
  vm_compute. discriminate.
Qed.

(** * Further properties of the code *)

(** ** The credential provider *)

Lemma get_token_on_refusal W s resp :
  respond W (events s) ReqToken = inr resp ->
  status_code resp <> 200 ->
  get_token W s = (Val false, emit (EvRequest ReqToken) s).
Proof.
  intros Hr Hst. unfold get_token, bind, send. rewrite Hr.
  apply Z.eqb_neq in Hst. rewrite Hst. reflexivity.
Qed.

(** X1.  A token exchange answered with another status than 200 returns
    [False] and leaves both entries of [TOKEN_DATA] as they were; it has
    sent one request and has not touched the log. *)
Theorem get_token_refused (W : World) (s : State) (resp : Response) :
  respond W (events s) ReqToken = inr resp ->
  status_code resp <> 200 ->
  exists s',
    get_token W s = (Val false, s') /\
    access_token s' = access_token s /\
    expires_at s' = expires_at s /\
    log_file s' = log_file s /\
    events s' = EvRequest ReqToken :: events s.
Proof.
  intros Hr Hst. rewrite (get_token_on_refusal W s resp Hr Hst).
  eexists. split; [reflexivity|]. simpl. auto.
Qed.

Lemma get_token_refused_witness :
  exists s',
    get_token token_endpoint_down initial_state = (Val false, s') /\
    access_token s' = access_token initial_state /\
    expires_at s' = expires_at initial_state /\
    log_file s' = log_file initial_state /\
    events s' = EvRequest ReqToken :: events initial_state.
Proof.
  apply (get_token_refused token_endpoint_down initial_state service_unavailable).
  - reflexivity.
  - simpl. lia.
Defined.

(** X2.  A token exchange answered 200 with a body that has an
    [access_token] but no [expires_in] raises the [KeyError] of
    [expires_in] after the token has been stored: the cached token is the
    new one, the cached expiry the old one. *)
Theorem get_token_without_expiry
    (W : World) (s : State) (resp : Response)
    (items : list (string * pyval)) (token : pyval) :
  respond W (events s) ReqToken = inr resp ->
  status_code resp = 200 ->
  json resp = inr (VDict items) ->
  dict_get items "access_token" = Some token ->
  dict_get items "expires_in" = None ->
  exists s',
    get_token W s = (Exc (KeyError "expires_in"), s') /\
    access_token s' = token /\
    expires_at s' = expires_at s.
Proof.
  intros Hr Hst Hj Ha He. unfold get_token, bind, send. rewrite Hr, Hst. simpl.
  rewrite Hj. simpl. rewrite Ha. simpl. rewrite He. simpl.
  eexists. split; [reflexivity|]. simpl. auto.
Qed.

Lemma get_token_without_expiry_witness :
  exists s',
    get_token token_without_expiry initial_state = (Exc (KeyError "expires_in"), s') /\
    access_token s' = VStr "t1" /\
    expires_at s' = expires_at initial_state.
Proof.
  apply (get_token_without_expiry token_without_expiry initial_state
           {| status_code := 200; text := EmptyString;
              json := inr (VDict [("access_token", VStr "t1")]) |}
           [("access_token", VStr "t1")] (VStr "t1")); reflexivity.
Defined.

Lemma stale_false_token W s :
  stale W s = false ->
  access_token s <> VNone /\ expired (clock W (clock_reads s)) (expires_at s) = false.
Proof.
  unfold stale. destruct (access_token s); intros H; try discriminate;
    (split; [discriminate | exact H]).
Qed.

(** X3.  While the cached token is not [None] and the clock reads less
    than the cached expiry, [get_auth_headers] sends no request and
    changes nothing but the count of clock readings: it hands out the
    cached token. *)
Theorem valid_token_is_reused (W : World) (s : State) :
  stale W s = false ->
  exists s',
    get_auth_headers W s =
      (Val ("Bearer " ++ py_str W (access_token s))%string, s') /\
    access_token s' = access_token s /\
    expires_at s' = expires_at s /\
    log_file s' = log_file s /\
    events s' = events s.
Proof.
  intros Hs. destruct (stale_false_token W s Hs) as [Hne Hx].
  unfold get_auth_headers. unfold bind at 1.
  destruct (access_token s) eqn:Ha; [congruence| | | | | | |].
  all: unfold bind at 1; unfold now; simpl; rewrite Hx.
  all: unfold bind, ret; simpl; rewrite Ha; eexists; split; [reflexivity|];
    simpl; auto.
Qed.

Lemma valid_token_is_reused_witness :
  exists s',
    get_auth_headers offline authorised =
      (Val ("Bearer " ++ py_str offline (access_token authorised))%string, s') /\
    access_token s' = access_token authorised /\
    expires_at s' = expires_at authorised /\
    log_file s' = log_file authorised /\
    events s' = events authorised.
Proof.
  apply (valid_token_is_reused offline authorised). vm_compute. reflexivity.
Defined.

(** X5.  When a token has to be fetched and the exchange is answered with
    another status than 200, [get_auth_headers] raises, and
    [upload_facility] reports the record FAILED with
    "Failed to obtain access token": no creation request is sent, the
    cached token and expiry stay as they were, and nothing is retried. *)
Theorem no_token_no_creation
    (W : World) (facility : pyval) (retry_count : nat) (s : State)
    (resp : Response) :
  stale W s = true ->
  respond W (events s) ReqToken = inr resp ->
  status_code resp <> 200 ->
  exists s1,
    upload_facility W facility retry_count s
      = (Val (failure "Failed to obtain access token"), s1) /\
    events s1 = EvRequest ReqToken :: events s /\
    access_token s1 = access_token s /\
    expires_at s1 = expires_at s /\
    log_file s1 = log_file s.
Proof.
  intros Hstale Hr Hst.
  assert (Hfetch : forall s0 : State,
             events s0 = events s -> access_token s0 = access_token s ->
             expires_at s0 = expires_at s -> log_file s0 = log_file s ->
             exists s1,
               bind (bind (get_token W)
                          (fun ok : bool => if ok then ret tt
                             else raise (OtherException "Failed to obtain access token")))
                    (fun _ s2 => ret ("Bearer " ++ py_str W (access_token s2))%string s2) s0
               = (Exc (OtherException "Failed to obtain access token"), s1) /\
               events s1 = EvRequest ReqToken :: events s /\
               access_token s1 = access_token s /\
               expires_at s1 = expires_at s /\
               log_file s1 = log_file s).
  { intros s0 E0 A0 X0 L0.
    assert (Hg : get_token W s0 = (Val false, emit (EvRequest ReqToken) s0))
      by (apply (get_token_on_refusal W s0 resp); [rewrite E0; exact Hr | exact Hst]).
    eexists. unfold bind at 1 2. rewrite Hg. unfold raise.
    split; [reflexivity|]. simpl. repeat split; congruence. }
  assert (Hh : exists s1,
             get_auth_headers W s
               = (Exc (OtherException "Failed to obtain access token"), s1) /\
             events s1 = EvRequest ReqToken :: events s /\
             access_token s1 = access_token s /\
             expires_at s1 = expires_at s /\
             log_file s1 = log_file s).
  { unfold get_auth_headers, stale in *. unfold bind at 1.
    destruct (access_token s) eqn:Ha.
    1: { simpl. apply Hfetch; auto. }
    all: unfold bind at 1; unfold now; simpl; rewrite Hstale;
      apply Hfetch; simpl; auto. }
  destruct Hh as (s1 & Hh & Hrest). exists s1. split; [|exact Hrest].
  rewrite upload_facility_equation_1. unfold try_except, bind.
  rewrite Hh. reflexivity.
Qed.

Lemma no_token_no_creation_witness :
  exists s1,
    upload_facility token_endpoint_down (VDict []) 0 initial_state
      = (Val (failure "Failed to obtain access token"), s1) /\
    events s1 = EvRequest ReqToken :: events initial_state /\
    access_token s1 = access_token initial_state /\
    expires_at s1 = expires_at initial_state /\
    log_file s1 = log_file initial_state.
Proof.
  apply (no_token_no_creation token_endpoint_down (VDict []) 0 initial_state
           service_unavailable).
  - reflexivity.
  - reflexivity.
  - simpl. lia.
Defined.

(** ** The engine: timeouts, other answers, discipline of the events *)

Section AttemptTimeout.

Context (W : World) (facility : pyval) (retry_count : nat).
Context (s s1 : State) (headers : string) (msg : string).
Hypothesis Hheaders : get_auth_headers W s = (Val headers, s1).
Hypothesis Htimeout :
  respond W (events s1) (ReqCreate headers facility) = inl (Timeout msg).

Lemma attempt_timeout_retry :
  (retry_count < max_retries)%nat ->
  upload_facility W facility retry_count s =
  upload_facility W facility (S retry_count)
    (emit (EvSleep 2) (emit (EvRequest (ReqCreate headers facility)) s1)).
Proof.
  intros Hlt. rewrite upload_facility_equation_1.
  unfold try_except, bind, send. rewrite Hheaders, Htimeout.
  destruct (lt_dec retry_count max_retries) as [_|Hge]; [|contradiction].
  unfold sleep. reflexivity.
Qed.

Lemma attempt_timeout_exhausted :
  ~ (retry_count < max_retries)%nat ->
  upload_facility W facility retry_count s =
  (Val (failure "Timeout after retries"),
   emit (EvRequest (ReqCreate headers facility)) s1).
Proof.
  intros Hge. rewrite upload_facility_equation_1.
  unfold try_except, bind, send. rewrite Hheaders, Htimeout.
  destruct (lt_dec retry_count max_retries) as [Hlt|_]; [contradiction|].
  reflexivity.
Qed.

End AttemptTimeout.

Section ScriptedTimeouts.

Context (base : World) (token : pyval) (expires_in : Z).
Context (creates : list (Exn + Response)) (fetch : Exn + Response).

Let W : World := scripted base (token_reply token expires_in) creates fetch.

Lemma scripted_timeout facility retry_count s msg :
  nth (count is_create (events s)) creates
      (inl (OtherException "Connection refused")) = inl (Timeout msg) ->
  (retry_count < max_retries)%nat ->
  exists s' h,
    upload_facility W facility retry_count s =
      upload_facility W facility (S retry_count) s' /\
    log_file s' = log_file s /\
    events s' = EvSleep 2 :: EvRequest (ReqCreate h facility)
                  :: refreshed W s ++ events s.
Proof.
  intros Hnth Hlt.
  destruct (scripted_headers base token expires_in creates fetch s)
    as (s1 & h & Hh & L & E).
  fold W in Hh, E.
  assert (Hresp : respond W (events s1) (ReqCreate h facility) = inl (Timeout msg)).
  { simpl. rewrite E, (count_refreshed base token expires_in creates fetch).
    exact Hnth. }
  eexists. exists h.
  split; [apply (attempt_timeout_retry W facility retry_count s s1 h msg Hh Hresp Hlt)|].
  simpl. rewrite E. auto.
Qed.

Lemma scripted_timeout_last facility retry_count s msg :
  nth (count is_create (events s)) creates
      (inl (OtherException "Connection refused")) = inl (Timeout msg) ->
  ~ (retry_count < max_retries)%nat ->
  exists s' h,
    upload_facility W facility retry_count s =
      (Val (failure "Timeout after retries"), s') /\
    log_file s' = log_file s /\
    events s' = EvRequest (ReqCreate h facility) :: refreshed W s ++ events s.
Proof.
  intros Hnth Hge.
  destruct (scripted_headers base token expires_in creates fetch s)
    as (s1 & h & Hh & L & E).
  fold W in Hh, E.
  assert (Hresp : respond W (events s1) (ReqCreate h facility) = inl (Timeout msg)).
  { simpl. rewrite E, (count_refreshed base token expires_in creates fetch).
    exact Hnth. }
  eexists. exists h.
  split; [apply (attempt_timeout_exhausted W facility retry_count s s1 h msg Hh Hresp Hge)|].
  simpl. rewrite E. auto.
Qed.

End ScriptedTimeouts.

Lemma count_after_timeout W s h facility :
  count is_create (EvSleep 2 :: EvRequest (ReqCreate h facility)
                     :: refreshed W s ++ events s)
  = S (count is_create (events s)).
Proof.
  rewrite !count_cons, count_app. unfold refreshed.
  destruct (stale W s); reflexivity.
Qed.

(** X6.  The bound on timeout retries.  With a token exchange that
    succeeds and the creation request timing out four times in a row, the
    submission sleeps 2 seconds after each of the first three timeouts,
    sends the creation request four times, forces no expiry of the token,
    fetches nothing, and returns FAILED with "Timeout after retries". *)
Theorem retry_bound_timeout
    (base : World) (token : pyval) (expires_in : Z)
    (m1 m2 m3 m4 : string) (fetch : Exn + Response)
    (facility : pyval) (s : State) :
  count is_create (events s) = 0%nat ->
  let W := scripted base (token_reply token expires_in)
                    [inl (Timeout m1); inl (Timeout m2);
                     inl (Timeout m3); inl (Timeout m4)] fetch in
  exists s' new,
    upload_facility W facility 0 s = (Val (failure "Timeout after retries"), s') /\
    added s s' new /\
    log_file s' = log_file s /\
    List.filter is_sleep new = [EvSleep 2; EvSleep 2; EvSleep 2] /\
    count is_create new = 4%nat /\
    count is_invalidate new = 0%nat /\
    count is_fetch new = 0%nat.
Proof.
  intros Hfresh W.
  set (script := [inl (Timeout m1); inl (Timeout m2); inl (Timeout m3);
                  inl (Timeout m4)] : list (Exn + Response)).
  destruct (scripted_timeout base token expires_in script fetch facility 0 s m1)
    as (s1 & h1 & U1 & L1 & E1);
    [rewrite Hfresh; reflexivity | unfold max_retries; lia |].
  assert (C1 : count is_create (events s1) = 1%nat)
    by (rewrite E1, count_after_timeout, Hfresh; reflexivity).
  destruct (scripted_timeout base token expires_in script fetch facility 1 s1 m2)
    as (s2 & h2 & U2 & L2 & E2);
    [rewrite C1; reflexivity | unfold max_retries; lia |].
  assert (C2 : count is_create (events s2) = 2%nat)
    by (rewrite E2, count_after_timeout, C1; reflexivity).
  destruct (scripted_timeout base token expires_in script fetch facility 2 s2 m3)
    as (s3 & h3 & U3 & L3 & E3);
    [rewrite C2; reflexivity | unfold max_retries; lia |].
  assert (C3 : count is_create (events s3) = 3%nat)
    by (rewrite E3, count_after_timeout, C2; reflexivity).
  destruct (scripted_timeout_last base token expires_in script fetch facility 3 s3 m4)
    as (s4 & h4 & U4 & L4 & E4);
    [rewrite C3; reflexivity | unfold max_retries; lia |].
  subst script. fold W in U1, U2, U3, U4, E1, E2, E3, E4.
  exists s4.
  exists (EvRequest (ReqCreate h4 facility) :: refreshed W s3
            ++ EvSleep 2 :: EvRequest (ReqCreate h3 facility) :: refreshed W s2
            ++ EvSleep 2 :: EvRequest (ReqCreate h2 facility) :: refreshed W s1
            ++ EvSleep 2 :: EvRequest (ReqCreate h1 facility) :: refreshed W s).
  split; [rewrite U1, U2, U3; exact U4|]. split.
  { unfold added. rewrite E4, E3, E2, E1.
    repeat (rewrite <- ?app_assoc, <- ?app_comm_cons). reflexivity. }
  split; [rewrite L4, L3, L2, L1; reflexivity|].
  unfold refreshed.
  destruct (stale W s), (stale W s1), (stale W s2), (stale W s3);
    repeat split; reflexivity.
Qed.

Lemma retry_bound_timeout_witness :
  let W := scripted offline (token_reply (VStr "t0") 300)
                    [inl (Timeout "Read timed out."); inl (Timeout "Read timed out.");
                     inl (Timeout "Read timed out."); inl (Timeout "Read timed out.")]
                    (inr not_found) in
  exists s' new,
    upload_facility W (VDict []) 0 initial_state
      = (Val (failure "Timeout after retries"), s') /\
    added initial_state s' new /\
    log_file s' = log_file initial_state /\
    List.filter is_sleep new = [EvSleep 2; EvSleep 2; EvSleep 2] /\
    count is_create new = 4%nat /\
    count is_invalidate new = 0%nat /\
    count is_fetch new = 0%nat.
Proof.
  apply (retry_bound_timeout offline (VStr "t0") 300 "Read timed out." "Read timed out."
           "Read timed out." "Read timed out." (inr not_found) (VDict [])
           initial_state).
  reflexivity.
Defined.

Lemma so_far_headers facility s s1 :
  engine_step s s1 [] \/ engine_step s s1 [EvRequest ReqToken] ->
  so_far facility s s1.
Proof.
  intros [H|H]; eexists; (split; [exact H|]); repeat constructor.
Qed.

Lemma so_far_next facility s s1 s2 ev :
  so_far facility s s1 ->
  log_file s2 = log_file s1 ->
  events s2 = ev :: events s1 ->
  disciplined facility ev ->
  so_far facility s s2.
Proof.
  intros (new & [L E] & Hall) L2 E2 Hev. unfold added in E.
  exists (ev :: new). split; [split|].
  - congruence.
  - unfold added. rewrite E2, E. reflexivity.
  - constructor; assumption.
Qed.

Lemma so_far_emit facility s s1 ev :
  so_far facility s s1 -> disciplined facility ev ->
  so_far facility s (emit ev s1).
Proof. intros H Hev. apply (so_far_next facility s s1 _ ev H); auto. Qed.

Lemma so_far_trans facility s s1 s2 :
  so_far facility s s1 -> so_far facility s1 s2 -> so_far facility s s2.
Proof.
  intros (new1 & [L1 E1] & H1) (new2 & [L2 E2] & H2). unfold added in *.
  exists (new2 ++ new1). split; [split|].
  - congruence.
  - unfold added. rewrite E2, E1. apply app_assoc.
  - apply Forall_app. auto.
Qed.

Lemma upload_facility_disciplined W facility :
  forall n retry_count s,
    (max_retries - retry_count <= n)%nat ->
    wp (upload_facility W facility retry_count) s
       (fun _ s' => so_far facility s s') (fun _ _ => False).
Proof.
  induction n as [n IH] using lt_wf_ind; intros rc s Hn.
  assert (Hrec : forall s1 s2 ev,
             (rc < max_retries)%nat ->
             so_far facility s s1 ->
             log_file s2 = log_file s1 ->
             events s2 = ev :: events s1 ->
             disciplined facility ev ->
             wp (fun H => upload_facility W facility (S rc) H) s2
                (fun _ s' => so_far facility s s') (fun _ _ => False)).
  { intros s1 s2 ev Hlt Hsf L2 E2 Hev.
    eapply wp_mono with (Q := fun _ _ => False);
      [apply (IH (max_retries - S rc)%nat); lia | | intros ? ? []].
    intros r s' Hpost. eapply so_far_trans; [|exact Hpost].
    eapply so_far_next; eauto. }
  rewrite upload_facility_equation_1. wp_step.
  eapply wp_mono with (Q := fun _ s1 => so_far facility s s1)
                      (P := fun _ s' => so_far facility s s').
  - wp_step.
    eapply wp_mono;
      [apply get_auth_headers_step | intros h s1 H1
       | intros e s1 H1; apply so_far_headers; exact H1].
    assert (Hsf : so_far facility s (emit (EvRequest (ReqCreate h facility)) s1))
      by (apply so_far_emit; [apply so_far_headers; exact H1 | reflexivity]).
    wp_step. wp_step; [|exact Hsf].
    repeat wp_step.
    all: try exact Hsf.
    all: try (apply so_far_emit; [exact Hsf | exact I]).
    apply wp_invalidate. intros s2 L2 E2 _ _ _.
    eapply wp_mono with (Q := fun _ _ => False);
      [eapply (Hrec _ s2 EvInvalidate); eauto; exact I | auto | intros ? ? []].
  - auto.
  - intros e s1 Hsf. destruct e.
    2-7: wp_step; exact Hsf.
    destruct (lt_dec rc max_retries) as [Hlt|Hge].
    + wp_step. wp_step.
      eapply (Hrec s1 _ (EvSleep 2)); eauto; reflexivity.
    + wp_step. exact Hsf.
Qed.

(** X7.  Whatever the remote side does, a submission leaves the log
    untouched, every creation request it sends carries the payload it was
    given (a retry never changes it), and every sleep it takes lasts 2
    seconds. *)
Theorem submission_discipline
    (W : World) (facility : pyval) (retry_count : nat) (s : State) :
  exists r s' new,
    upload_facility W facility retry_count s = (Val r, s') /\
    added s s' new /\
    log_file s' = log_file s /\
    (forall authorization payload,
        In (EvRequest (ReqCreate authorization payload)) new -> payload = facility) /\
    (forall seconds, In (EvSleep seconds) new -> seconds = 2).
Proof.
  pose proof (upload_facility_disciplined W facility _ retry_count s (le_n _)) as H.
  unfold wp in H.
  destruct (upload_facility W facility retry_count s) as [[r|e] s']; [|contradiction].
  destruct H as (new & [L E] & Hall).
  exists r, s', new. rewrite List.Forall_forall in Hall.
  repeat split; try assumption.
  - intros a p Hin. exact (Hall _ Hin).
  - intros z Hin. exact (Hall _ Hin).
Qed.

(** X8.  A creation request answered with a status that is none of 200,
    401 and 500 ends the submission at once: FAILED with "HTTP ", the
    status, ": " and the first 200 characters of the body; nothing is
    fetched and nothing is retried. *)
Theorem other_status_fails
    (W : World) (facility : pyval) (retry_count : nat)
    (s s1 : State) (headers : string) (response : Response) :
  get_auth_headers W s = (Val headers, s1) ->
  respond W (events s1) (ReqCreate headers facility) = inr response ->
  status_code response <> 200 ->
  status_code response <> 401 ->
  status_code response <> 500 ->
  exists s',
    upload_facility W facility retry_count s =
      (Val (failure ("HTTP " ++ PyText.str_int (status_code response) ++ ": "
                     ++ PyText.take 200 (text response))%string), s') /\
    events s' = EvRequest (ReqCreate headers facility) :: events s1 /\
    log_file s' = log_file s1.
Proof.
  intros Hh Hr H200 H401 H500. eexists. split.
  - apply (attempt_other W facility retry_count s s1 headers response
             Hh Hr H200 H401 H500).
  - split; reflexivity.
Qed.

Lemma other_status_fails_witness :
  exists s',
    upload_facility closed_registry (VDict []) 0 initial_state =
      (Val (failure ("HTTP " ++ PyText.str_int (status_code forbidden) ++ ": "
                     ++ PyText.take 200 (text forbidden))%string), s') /\
    events s' = EvRequest (ReqCreate "Bearer t0" (VDict []))
                  :: events (snd (get_auth_headers closed_registry initial_state)) /\
    log_file s' = log_file (snd (get_auth_headers closed_registry initial_state)).
Proof.
  apply (other_status_fails closed_registry (VDict []) 0 initial_state
           (snd (get_auth_headers closed_registry initial_state)) "Bearer t0" forbidden).
  - vm_compute. reflexivity.
  - vm_compute. reflexivity.
  - simpl. lia.
  - simpl. lia.
  - simpl. lia.
Defined.

(** X9.  A fetch that times out undoes the success of the creation.  When
    the creation request is answered 200 with the id of the created
    resource and the fetch that follows raises a timeout, the submission,
    if it has retries left, sleeps 2 seconds and starts over with the next
    retry count, creation request included; with no retry left it returns
    FAILED with "Timeout after retries". *)
Theorem fetch_timeout_starts_over
    (W : World) (facility : pyval) (retry_count : nat)
    (s s1 : State) (headers : string) (response : Response)
    (result created : pyval) (msg : string) :
  get_auth_headers W s = (Val headers, s1) ->
  respond W (events s1) (ReqCreate headers facility) = inr response ->
  status_code response = 200 ->
  json response = inr result ->
  created_osid result = inr created ->
  respond W (EvRequest (ReqCreate headers facility) :: events s1)
          (ReqFetch headers (py_str W created)) = inl (Timeout msg) ->
  let s3 := emit (EvRequest (ReqFetch headers (py_str W created)))
                 (emit (EvRequest (ReqCreate headers facility)) s1) in
  ((retry_count < max_retries)%nat ->
   upload_facility W facility retry_count s =
   upload_facility W facility (S retry_count) (emit (EvSleep 2) s3)) /\
  (~ (retry_count < max_retries)%nat ->
   upload_facility W facility retry_count s =
   (Val (failure "Timeout after retries"), s3)).
Proof.
  intros Hh Hr Hst Hj Ho Hf s3.
  assert (Hbody : upload_facility W facility retry_count s
                  = match lt_dec retry_count max_retries with
                    | left _ => upload_facility W facility (S retry_count)
                                                (emit (EvSleep 2) s3)
                    | right _ => (Val (failure "Timeout after retries"), s3)
                    end).
  { rewrite upload_facility_equation_1.
    unfold try_except, bind, send.
    rewrite Hh, Hr, Hst. simpl. rewrite Hj. simpl.
    unfold created_osid, and_then in Ho.
    destruct (subscript result "result") as [|r1]; [discriminate|]. simpl.
    destruct (subscript r1 "WaterFacility") as [|r2]; [discriminate|]. simpl.
    rewrite Ho. simpl. rewrite Hf.
    destruct (lt_dec retry_count max_retries); reflexivity. }
  split; intros H; rewrite Hbody;
    destruct (lt_dec retry_count max_retries); try contradiction; reflexivity.
Qed.

Lemma fetch_timeout_starts_over_witness :
  let W := fetch_times_out in
  let s1 := snd (get_auth_headers W initial_state) in
  let s3 := emit (EvRequest (ReqFetch "Bearer t0" (py_str W (VStr "1-abc"))))
                 (emit (EvRequest (ReqCreate "Bearer t0" (VDict []))) s1) in
  ((0 < max_retries)%nat ->
   upload_facility W (VDict []) 0 initial_state =
   upload_facility W (VDict []) 1 (emit (EvSleep 2) s3)) /\
  (~ (0 < max_retries)%nat ->
   upload_facility W (VDict []) 0 initial_state =
   (Val (failure "Timeout after retries"), s3)).
Proof.
  intros W s1.
  apply (fetch_timeout_starts_over W (VDict []) 0 initial_state s1 "Bearer t0"
           (created_response (VStr "1-abc"))
           (VDict [("result", VDict [("WaterFacility", VDict [("osid", VStr "1-abc")])])])
           (VStr "1-abc") "Read timed out.").
  - vm_compute. reflexivity.
  - vm_compute. reflexivity.
  - reflexivity.
  - reflexivity.
  - reflexivity.
  - vm_compute. reflexivity.
Defined.

(** X10.  Whatever the remote side does, the result of a submission
    carries ids only when it is a SUCCESS: a result with another status
    has neither [osid] nor [wfId], so its line in the log has both fields
    empty; and a SUCCESS always has the message "Created". *)
Theorem ids_only_on_success
    (W : World) (facility : pyval) (retry_count : nat) (s : State) :
  exists r s',
    upload_facility W facility retry_count s = (Val r, s') /\
    (status r = "SUCCESS" -> message r = "Created") /\
    (status r <> "SUCCESS" ->
     osid r = VNone /\ wfId r = VNone /\
     forall geo_code timestamp,
       log_entry W geo_code (status r) (message r) (osid r) (wfId r) timestamp
       = (py_str W geo_code ++ "|" ++ status r ++ "|" ++ message r ++ "|||"
                 ++ timestamp ++ PyText.LF)%string).
Proof.
  destruct (upload_facility_runs W facility retry_count s)
    as (r & s' & Hrun & Hret & _).
  exists r, s'. split; [exact Hrun|].
  destruct Hret; simpl;
    (split; [intros H; first [reflexivity | discriminate H]|]);
    intros Hne; try congruence; repeat split; reflexivity.
Qed.

(** ** The transform of a row *)

Lemma and_then_inl {A B} (x : Exn + A) (k : A -> Exn + B) e :
  and_then x k = inl e -> x = inl e \/ exists a, x = inr a /\ k a = inl e.
Proof.
  destruct x as [e'|a]; simpl; [intros H; left; inversion H; reflexivity | eauto].
Qed.

Lemma row_item_inl row c e :
  row_item row c = inl e -> dict_get row c = None /\ e = KeyError c.
Proof.
  unfold row_item. destruct (dict_get row c); intros H; [discriminate|].
  inversion H. auto.
Qed.

Lemma notna_get_item row c :
  notna (row_get row c) = true -> exists v, row_item row c = inr v.
Proof.
  unfold row_get, row_item. destruct (dict_get row c); simpl; [eauto | discriminate].
Qed.

Lemma fault_row_item W row c e :
  In c required_columns -> row_item row c = inl e -> transform_fault W row e.
Proof.
  intros Hc H. left. exists c. apply row_item_inl in H as [H ->]. auto.
Qed.

Lemma fault_coordinate W row c e :
  In c required_columns -> In c float_columns ->
  coordinate W row c = inl e -> transform_fault W row e.
Proof.
  intros Hr Hf H. unfold coordinate in H.
  apply and_then_inl in H as [H|(v & Hv & H)].
  - apply (fault_row_item W row c e Hr H).
  - destruct (notna v) eqn:Hn; [|discriminate].
    right. exists c, v. auto.
Qed.

Lemma fault_float_if_present W row c key items e :
  In c float_columns ->
  float_if_present W row c key items = inl e -> transform_fault W row e.
Proof.
  intros Hf H. unfold float_if_present in H.
  destruct (notna (row_get row c)) eqn:Hn; [|discriminate].
  destruct (notna_get_item row c Hn) as (v & Hv).
  rewrite Hv in H. simpl in H.
  assert (Hnv : notna v = true) by (rewrite <- (row_get_item _ _ _ Hv); exact Hn).
  apply and_then_inl in H as [H|(f & _ & H)]; [|discriminate].
  right. exists c, v. auto.
Qed.

Lemma copy_if_present_safe row c key items e :
  copy_if_present row c key items = inl e -> False.
Proof.
  unfold copy_if_present. destruct (notna (row_get row c)) eqn:Hn; [|discriminate].
  destruct (notna_get_item row c Hn) as (v & ->). discriminate.
Qed.

Lemma copy_if_set_safe row c key items e :
  copy_if_set row c key items = inl e -> False.
Proof.
  unfold copy_if_set. destruct (notna (row_get row c)) eqn:Hn; [|discriminate].
  destruct (notna_get_item row c Hn) as (v & ->). simpl.
  destruct (truthy v); discriminate.
Qed.

Lemma yes_if_present_safe W row c key items e :
  yes_if_present W row c key items = inl e -> False.
Proof.
  unfold yes_if_present. destruct (notna (row_get row c)) eqn:Hn; [|discriminate].
  destruct (notna_get_item row c Hn) as (v & ->). discriminate.
Qed.

Ltac in_list := simpl; repeat first [left; reflexivity | right].

(** X11.  The transform of a row raises in two ways only: the [KeyError]
    of one of the eight columns it always reads, when the row lacks it, or
    the fault of [float(...)] on a cell of lat, lon, elevation, num_taps or
    depth_metres that is there and does not convert.  A missing optional
    column never makes it raise. *)
Theorem transform_raises_only_on (W : World) (row : Row) (e : Exn) :
  row_to_facility W row = inl e -> transform_fault W row e.
Proof.
  unfold row_to_facility. intros H.
  do 5 (apply and_then_inl in H as [H|(? & _ & H)];
        [refine (fault_row_item W row _ e _ H); in_list|]).
  do 3 (apply and_then_inl in H as [H|(? & _ & H)];
        [refine (fault_coordinate W row _ e _ _ H); in_list|]).
  repeat (apply and_then_inl in H as [H|(? & _ & H)];
          [first [ exfalso; exact (copy_if_present_safe _ _ _ _ _ H)
                 | exfalso; exact (copy_if_set_safe _ _ _ _ _ H)
                 | exfalso; exact (yes_if_present_safe _ _ _ _ _ _ H)
                 | refine (fault_float_if_present W row _ _ _ e _ H); in_list ]|]).
  discriminate.
Qed.

Lemma transform_raises_only_on_witness :
  transform_fault offline record_C
                  (ValueError "could not convert string to float: 'n/a'").
Proof.
  apply (transform_raises_only_on offline record_C). vm_compute. reflexivity.
Defined.

Lemma coordinate_na W row c v :
  row_item row c = inr v -> notna v = false -> coordinate W row c = inr VNone.
Proof. intros Hv Hn. unfold coordinate. rewrite Hv. simpl. rewrite Hn. reflexivity. Qed.

(** X12.  Fields that are not there are not sent.  For a row that has the
    five descriptive columns, whose lat, lon and elevation cells are there
    but empty, and whose optional columns are all missing or empty, the
    payload has exactly the keys geoCode, waterPointType and location, and
    the location has no coordinates. *)
Theorem transform_required_only
    (W : World) (row : Row)
    (geo_code water_point_type county district community : pyval) :
  row_item row "geo_code" = inr geo_code ->
  row_item row "water_point_type" = inr water_point_type ->
  row_item row "county" = inr county ->
  row_item row "district" = inr district ->
  row_item row "community" = inr community ->
  (forall c, In c ["lat"; "lon"; "elevation"] ->
             exists v, row_item row c = inr v /\ notna v = false) ->
  (forall c, In c optional_columns -> notna (row_get row c) = false) ->
  row_to_facility W row =
  inr (VDict [("geoCode", VStr (py_str W geo_code));
              ("waterPointType", water_point_type);
              ("location", VDict [("county", county); ("district", district);
                                  ("community", community)])]).
Proof.
  intros Hg Hw Hc Hd Hm Hcoord Hopt. unfold row_to_facility.
  rewrite Hg, Hw, Hc, Hd, Hm. cbn [and_then].
  destruct (Hcoord "lat") as (v1 & Hv1 & Hn1); [in_list|].
  destruct (Hcoord "lon") as (v2 & Hv2 & Hn2); [in_list|].
  destruct (Hcoord "elevation") as (v3 & Hv3 & Hn3); [in_list|].
  rewrite (coordinate_na W row _ v1 Hv1 Hn1), (coordinate_na W row _ v2 Hv2 Hn2),
    (coordinate_na W row _ v3 Hv3 Hn3).
  cbn [and_then List.filter snd app].
  unfold copy_if_present, copy_if_set, float_if_present, yes_if_present.
  repeat (rewrite Hopt by in_list; cbn [and_then]).
  reflexivity.
Qed.

Lemma transform_required_only_witness :
  row_to_facility offline record_A =
  inr (VDict [("geoCode", VStr (py_str offline (VStr "A1")));
              ("waterPointType", VStr "Hand pump");
              ("location", VDict [("county", VStr "Bong");
                                  ("district", VStr "Jorquelleh");
                                  ("community", VStr "Gbarnga")])]).
Proof.
  apply (transform_required_only offline record_A (VStr "A1") (VStr "Hand pump")
           (VStr "Bong") (VStr "Jorquelleh") (VStr "Gbarnga")); try reflexivity.
  - intros c [<-|[<-|[<-|[]]]]; exists VNaN; split; reflexivity.
  - intros c Hc. simpl in Hc.
    repeat (destruct Hc as [<-|Hc]; [reflexivity|]). destruct Hc.
Defined.

Lemma extends_copy_if_present row column key items items' :
  copy_if_present row column key items = inr items' ->
  exists extra, items' = items ++ extra.
Proof.
  unfold copy_if_present. intros H.
  destruct (notna (row_get row column)).
  - apply and_then_inr in H as (v & _ & H). inversion H. eauto.
  - inversion H. exists []. symmetry. apply app_nil_r.
Qed.

Lemma extends_copy_if_set row column key items items' :
  copy_if_set row column key items = inr items' ->
  exists extra, items' = items ++ extra.
Proof.
  unfold copy_if_set. intros H.
  destruct (notna (row_get row column)).
  - apply and_then_inr in H as (v & _ & H).
    destruct (truthy v); inversion H; [eauto|]. exists []. symmetry. apply app_nil_r.
  - inversion H. exists []. symmetry. apply app_nil_r.
Qed.

Lemma extends_float_if_present W row column key items items' :
  float_if_present W row column key items = inr items' ->
  exists extra, items' = items ++ extra.
Proof.
  unfold float_if_present. intros H.
  destruct (notna (row_get row column)).
  - apply and_then_inr in H as (v & _ & H).
    apply and_then_inr in H as (f & _ & H). inversion H. eauto.
  - inversion H. exists []. symmetry. apply app_nil_r.
Qed.

Lemma extends_yes_if_present W row column key items items' :
  yes_if_present W row column key items = inr items' ->
  exists extra, items' = items ++ extra.
Proof.
  unfold yes_if_present. intros H.
  destruct (notna (row_get row column)).
  - apply and_then_inr in H as (v & _ & H). inversion H. eauto.
  - inversion H. exists []. symmetry. apply app_nil_r.
Qed.

Lemma extends_trans {A} (l0 l1 l2 : list A) :
  (exists extra, l1 = l0 ++ extra) -> (exists extra, l2 = l1 ++ extra) ->
  exists extra, l2 = l0 ++ extra.
Proof.
  intros (e1 & ->) (e2 & ->). exists (e1 ++ e2). symmetry. apply app_assoc.
Qed.

(** X13.  The shape of every payload.  When the transform of a row
    returns, the payload begins with geoCode, the text of the key of the
    row, then waterPointType, then location; the location holds county,
    district and community and, after them, either nothing or the
    coordinates, which then are not empty and hold no [None]. *)
Theorem transform_shape (W : World) (row : Row) (facility : pyval) :
  row_to_facility W row = inr facility ->
  exists geo_code water_point_type county district community coordinates extra,
    row_item row "geo_code" = inr geo_code /\
    row_item row "water_point_type" = inr water_point_type /\
    row_item row "county" = inr county /\
    row_item row "district" = inr district /\
    row_item row "community" = inr community /\
    facility =
      VDict ([("geoCode", VStr (py_str W geo_code));
              ("waterPointType", water_point_type);
              ("location", VDict ([("county", county); ("district", district);
                                   ("community", community)] ++ coordinates))]
             ++ extra) /\
    (coordinates = [] \/
     exists cells, coordinates = [("coordinates", VDict cells)] /\
                   cells <> [] /\
                   Forall (fun kv : string * pyval => snd kv <> VNone) cells).
Proof.
  unfold row_to_facility. intros H.
  apply and_then_inr in H as (geo_code & Hg & H).
  apply and_then_inr in H as (wpt & Hw & H).
  apply and_then_inr in H as (county & Hc & H).
  apply and_then_inr in H as (district & Hd & H).
  apply and_then_inr in H as (community & Hm & H).
  apply and_then_inr in H as (lat & _ & H).
  apply and_then_inr in H as (lon & _ & H).
  apply and_then_inr in H as (elevation & _ & H).
  set (cells := List.filter
                  (fun kv : string * pyval =>
                     match snd kv with VNone => false | _ => true end)
                  [("lat", lat); ("lon", lon); ("elevation", elevation)]) in *.
  set (coordinates := match cells with
                      | [] => []
                      | _ => [("coordinates", VDict cells)]
                      end) in *.
  match type of H with
  | and_then (copy_if_present _ _ _ ?l) _ = _ =>
      assert (Hex : exists extra, l = l ++ extra)
        by (exists []; symmetry; apply app_nil_r);
      set (base := l) in Hex at 2 |- *
  end.
  repeat match type of H with
         | and_then _ _ = inr _ =>
             let l := fresh "l" in
             let Hl := fresh "Hl" in
             apply and_then_inr in H as (l & Hl & H);
             first [ apply extends_copy_if_present in Hl
                   | apply extends_copy_if_set in Hl
                   | apply extends_float_if_present in Hl
                   | apply extends_yes_if_present in Hl ];
             pose proof (extends_trans _ _ _ Hex Hl) as Hex';
             clear Hex Hl; rename Hex' into Hex
         end.
  inversion H; subst facility. destruct Hex as (extra & ->).
  exists geo_code, wpt, county, district, community, coordinates, extra.
  repeat split; try assumption.
  subst coordinates. destruct cells as [|cell cells'] eqn:Hcells; [left; reflexivity|].
  right. exists (cell :: cells'). split; [reflexivity|]. split; [discriminate|].
  rewrite <- Hcells. subst cells. apply List.Forall_forall. intros kv Hin.
  apply List.filter_In in Hin as [_ Hkv]. destruct (snd kv); congruence.
Qed.

Lemma transform_shape_witness :
  exists geo_code water_point_type county district community coordinates extra,
    row_item record_A "geo_code" = inr geo_code /\
    row_item record_A "water_point_type" = inr water_point_type /\
    row_item record_A "county" = inr county /\
    row_item record_A "district" = inr district /\
    row_item record_A "community" = inr community /\
    VDict [("geoCode", VStr "A1"); ("waterPointType", VStr "Hand pump");
           ("location", VDict [("county", VStr "Bong"); ("district", VStr "Jorquelleh");
                               ("community", VStr "Gbarnga")])] =
      VDict ([("geoCode", VStr (py_str offline geo_code));
              ("waterPointType", water_point_type);
              ("location", VDict ([("county", county); ("district", district);
                                   ("community", community)] ++ coordinates))]
             ++ extra) /\
    (coordinates = [] \/
     exists cells, coordinates = [("coordinates", VDict cells)] /\
                   cells <> [] /\
                   Forall (fun kv : string * pyval => snd kv <> VNone) cells).
Proof.
  apply (transform_shape offline record_A). vm_compute. reflexivity.
Defined.

(** ** The summary of a run *)

Lemma tallied_count_result c r : tallied (count_result c r) = S (tallied c).
Proof.
  unfold count_result, tallied.
  destruct (String.eqb (status r) "SUCCESS"); [simpl; lia|].
  destruct (String.eqb (status r) "DUPLICATE"); simpl; lia.
Qed.

Lemma tallied_count_failed c : tallied (count_failed c) = S (tallied c).
Proof. unfold count_failed, tallied. simpl. lia. Qed.

Lemma upload_row_counts W total batch_size start_time idx row c s :
  has_geo_code row -> batch_size <> 0%nat -> total <> 0%nat ->
  wp (upload_row W total batch_size start_time idx row c) s
     (fun c' _ => tallied c' = S (tallied c)) (fun _ _ => False).
Proof.
  intros [geo_code Hgeo] Hbatch Htotal. unfold upload_row.
  wp_step. rewrite Hgeo. apply wp_ret.
  destruct (row_to_facility W row) as [e|facility].
  - wp_step. apply wp_log_result. intros s1 timestamp _ _. wp_step.
    apply tallied_count_failed.
  - wp_step.
    eapply wp_mono; [apply (upload_facility_spec W facility _ 0 s (le_n _)) | | auto].
    intros r s1 _.
    wp_step. apply wp_log_result. intros s2 timestamp _ _.
    wp_step. unfold progress_due. destruct batch_size as [|n]; [contradiction|].
    apply wp_ret. wp_step.
    + destruct (((idx mod S n =? 0)%nat || (idx =? total)%nat)).
      * wp_step. wp_step. wp_step.
        destruct (progress_update_defined idx total (clock W (clock_reads s2) - start_time)%Qc)
          as (p & Hp).
        rewrite Hp. apply wp_ret. wp_step.
        rewrite (py_div_ok _ _ (Qc_of_nat_nonzero total Htotal)). apply wp_ret.
        wp_step. wp_step. apply tallied_count_result.
      * wp_step. wp_step. apply tallied_count_result.
Qed.

Lemma upload_rows_counts W total batch_size start_time rows :
  Forall has_geo_code rows -> batch_size <> 0%nat -> total <> 0%nat ->
  forall idx c s,
    wp (upload_rows W total batch_size start_time idx rows c) s
       (fun c' _ => tallied c' = (tallied c + length rows)%nat) (fun _ _ => False).
Proof.
  intros Hkeys Hbatch Htotal.
  induction Hkeys as [|row rows Hrow Hrows IH]; intros idx c s; simpl.
  - apply wp_ret. simpl. lia.
  - wp_step.
    eapply wp_mono;
      [apply (upload_row_counts W total batch_size start_time idx row c s Hrow Hbatch Htotal)
      | | auto].
    intros c' s1 Hc'.
    eapply wp_mono; [apply IH | | auto].
    intros c'' s' Hc''. unfold tallied in *. simpl in *. lia.
Qed.

(** X14.  A run of [bulk_upload] over rows that have their key, with a
    batch size that is not 0, can raise one thing only: the division by a
    zero duration in the closing average.  When it returns, the summary
    has the number of rows as total, the three counters add up to it
    (every row is counted once, as success, duplicate or failed), and the
    duration is not 0. *)
Theorem bulk_upload_summary
    (W : World) (df : list Row) (batch_size : nat) (s : State) :
  Forall has_geo_code df ->
  batch_size <> 0%nat ->
  exists o s',
    bulk_upload W df batch_size s = (o, s') /\
    match o with
    | Val summary =>
        total summary = length df /\
        (n_success summary + n_duplicates summary + n_failed summary)%nat = length df /\
        duration_seconds summary <> Q2Qc 0
    | Exc e => e = ZeroDivisionError "float division by zero"
    end.
Proof.
  intros Hkeys Hbatch.
  assert (H : wp (bulk_upload W df batch_size) s
                 (fun summary _ =>
                    total summary = length df /\
                    (n_success summary + n_duplicates summary + n_failed summary)%nat
                    = length df /\
                    duration_seconds summary <> Q2Qc 0)
                 (fun e _ => e = ZeroDivisionError "float division by zero")).
  { unfold bulk_upload. wp_step. wp_step. wp_step.
    assert (Hloop : wp (upload_rows W (length df) batch_size (clock W (clock_reads s)) 1 df
                          {| success_count := 0; duplicate_count := 0; failed_count := 0 |})
                       s0 (fun c _ => tallied c = length df) (fun _ _ => False)).
    { destruct df as [|row df].
      - apply wp_ret. reflexivity.
      - eapply wp_mono;
          [apply upload_rows_counts; [assumption | assumption | simpl; lia] | | auto].
        intros c s1 Hc. exact Hc. }
    eapply wp_mono; [exact Hloop | | intros ? ? []].
    intros c s1 Hc. wp_step. wp_step. wp_step.
    rewrite (py_div_ok _ _ Qc_of_nat_60). apply wp_ret. wp_step.
    unfold py_div.
    destruct (Qc_eq_dec (clock W (clock_reads s1) - clock W (clock_reads s))%Qc (Q2Qc 0))
      as [Hz|Hnz].
    - apply wp_raise. reflexivity.
    - apply wp_ret. wp_step. simpl. unfold tallied in Hc. auto. }
  unfold wp in H. destruct (bulk_upload W df batch_size s) as [o s'].
  exists o, s'. split; [reflexivity|]. destruct o; exact H.
Qed.

Lemma bulk_upload_summary_witness :
  exists o s',
    bulk_upload registry [record_A; record_B; record_C] 50 initial_state = (o, s') /\
    match o with
    | Val summary =>
        total summary = length [record_A; record_B; record_C] /\
        (n_success summary + n_duplicates summary + n_failed summary)%nat
        = length [record_A; record_B; record_C] /\
        duration_seconds summary <> Q2Qc 0
    | Exc e => e = ZeroDivisionError "float division by zero"
    end.
Proof.
  apply (bulk_upload_summary registry [record_A; record_B; record_C] 50 initial_state).
  - repeat constructor; eexists; reflexivity.
  - discriminate.
Defined.

(** X15.  A run over no row at all appends nothing and adds no event; it
    returns a summary of zeros when the two clock readings it takes differ,
    and when they are equal the closing average [total/duration] raises
    the [ZeroDivisionError] of a float division. *)
Theorem bulk_upload_empty (W : World) (batch_size : nat) (s : State) :
  let duration := (clock W (S (clock_reads s)) - clock W (clock_reads s))%Qc in
  log_file (snd (bulk_upload W [] batch_size s)) = log_file s /\
  events (snd (bulk_upload W [] batch_size s)) = events s /\
  (duration <> Q2Qc 0 ->
   fst (bulk_upload W [] batch_size s) =
   Val {| total := 0; n_success := 0; n_duplicates := 0; n_failed := 0;
          duration_seconds := duration |}) /\
  (duration = Q2Qc 0 ->
   fst (bulk_upload W [] batch_size s) = Exc (ZeroDivisionError "float division by zero")).
Proof.
  intros duration.
  unfold bulk_upload, bind, now, ret, lift.
  cbn -[py_div Qcminus Qc_of_nat]. fold duration.
  rewrite (py_div_ok _ _ Qc_of_nat_60).
  unfold py_div. destruct (Qc_eq_dec duration (Q2Qc 0)) as [Hz|Hnz].
  - split; [reflexivity|]. split; [reflexivity|].
    split; intros H; [contradiction | reflexivity].
  - split; [reflexivity|]. split; [reflexivity|].
    split; intros H; [reflexivity | contradiction].
Qed.

(** ** The invocation *)

(** X16.  When the initial token exchange is answered with another status
    than 200, [main] exits with code 1: it has sent that one request,
    nothing is uploaded and nothing is logged, whatever the data frame. *)
Theorem main_exits_without_token
    (W : World) (df : list Row) (answer : string) (s : State) (resp : Response) :
  respond W (events s) ReqToken = inr resp ->
  status_code resp <> 200 ->
  exists s',
    main W df answer s = (Val (Exited 1), s') /\
    log_file s' = log_file s /\
    events s' = EvRequest ReqToken :: events s.
Proof.
  intros Hr Hst. unfold main. unfold bind at 1.
  rewrite (get_token_on_refusal W s resp Hr Hst). simpl.
  eexists. split; [reflexivity|]. split; reflexivity.
Qed.

Lemma main_exits_without_token_witness :
  exists s',
    main token_endpoint_down [record_A; record_B; record_C] "y" initial_state
      = (Val (Exited 1), s') /\
    log_file s' = log_file initial_state /\
    events s' = EvRequest ReqToken :: events initial_state.
Proof.
  apply (main_exits_without_token token_endpoint_down [record_A; record_B; record_C] "y"
           initial_state service_unavailable).
  - reflexivity.
  - simpl. lia.
Defined.

(** X17.  When the operator answers anything but y or Y, or when the log
    lists every row as uploaded, [main] does not reach [bulk_upload]: it
    sends the initial token request and nothing else, appends nothing to
    the log, and its result is not that of an upload. *)
Theorem main_without_upload
    (W : World) (df : list Row) (answer : string) (s : State) :
  String.eqb (PyText.lower answer) "y" = false \/
  not_uploaded df (uploaded_of (file_text (log_file s))) = [] ->
  exists o s',
    main W df answer s = (o, s') /\
    log_file s' = log_file s /\
    events s' = EvRequest ReqToken :: events s /\
    forall results, o <> Val (Uploaded results).
Proof.
  intros Hno.
  set (stop := fun (o : outcome MainResult) (s' : State) =>
                 log_file s' = log_file s /\
                 events s' = EvRequest ReqToken :: events s /\
                 forall results, o <> Val (Uploaded results)).
  assert (H : wp (main W df answer) s (fun r s' => stop (Val r) s')
                 (fun e s' => stop (Exc e) s')).
  { unfold main. wp_step.
    eapply wp_mono with (P := fun _ s1 => engine_step s s1 [EvRequest ReqToken])
                        (Q := fun _ s1 => engine_step s s1 [EvRequest ReqToken]);
      [apply get_token_step | |].
    2: { intros e s1 [L E]. unfold added in E. simpl in E.
         repeat split; try assumption. discriminate. }
    intros ok s1 [L1 E1]. unfold added in E1. simpl in E1.
    destruct ok; simpl;
      [|apply wp_ret; repeat split; try assumption; discriminate].
    wp_step.
    assert (Hshown : wp (fun s0 => match expires_at s0 with
                                   | Some _ => ret tt s0
                                   | None => raise (ValueError "cannot convert float NaN to integer") s0
                                   end) s1
                        (fun _ s2 => s2 = s1) (fun _ s2 => s2 = s1)).
    { unfold wp. destruct (expires_at s1); reflexivity. }
    eapply wp_mono; [exact Hshown | |
                     intros e s2 ->; repeat split; try assumption; discriminate].
    intros _ s2 ->.
    wp_step. unfold get_upload_stats at 1. unfold wp at 1.
    wp_step. unfold load_uploaded_records at 1. unfold wp at 1.
    wp_step. destruct (geo_codes df) as [e|ks];
      [apply wp_raise; repeat split; try assumption; discriminate | apply wp_ret].
    rewrite L1.
    destruct (length _ =? 0)%nat eqn:Hlen;
      [apply wp_ret; repeat split; try assumption; discriminate|].
    destruct Hno as [Hanswer|Hnone].
    - rewrite Hanswer. simpl.
      apply wp_ret; repeat split; try assumption; discriminate.
    - rewrite Hnone in Hlen. discriminate. }
  unfold wp in H. destruct (main W df answer s) as [o s'].
  exists o, s'. split; [reflexivity|]. destruct o; exact H.
Qed.

Lemma main_without_upload_witness :
  exists o s',
    main registry [record_A; record_B; record_C] "n" initial_state = (o, s') /\
    log_file s' = log_file initial_state /\
    events s' = EvRequest ReqToken :: events initial_state /\
    forall results, o <> Val (Uploaded results).
Proof.
  apply (main_without_upload registry [record_A; record_B; record_C] "n" initial_state).
  left. reflexivity.
Defined.

(** X18.  The log only grows.  Whatever the worlds, the data frames and
    the answers, the log after a history of invocations begins with the
    log as it was after any earlier part of that history: no invocation
    removes or rewrites what was logged before. *)
Theorem log_only_grows (earlier later : list Invocation) :
  exists appended, replay (earlier ++ later) = replay earlier ++ appended.
Proof.
  unfold replay. rewrite fold_left_app.
  apply fold_invoke_appends.
Qed.

(** ** The readers of the log *)

(** X19.  Reading a log that grew.  When everything appended to the log
    reads back line by line, the keys [load_uploaded_records] returns for
    the log are those it returns for an earlier part together with those
    of what was appended since, so a key once held as uploaded stays so,
    and each count of [get_upload_stats] is the sum of the counts of the
    two parts. *)
Theorem readers_of_a_grown_log (before appended : list string) :
  Forall (fun chunk => is_entry chunk = true) (before ++ appended) ->
  uploaded_of (file_text (before ++ appended))
  = uploaded_of (file_text before) ∪ uploaded_of (file_text appended) /\
  success (stats_of (file_text (before ++ appended)))
  = (success (stats_of (file_text before)) + success (stats_of (file_text appended)))%nat /\
  failed (stats_of (file_text (before ++ appended)))
  = (failed (stats_of (file_text before)) + failed (stats_of (file_text appended)))%nat /\
  duplicate (stats_of (file_text (before ++ appended)))
  = (duplicate (stats_of (file_text before))
     + duplicate (stats_of (file_text appended)))%nat.
Proof.
  intros Hall. pose proof Hall as Hboth. apply Forall_app in Hboth as [Hb Ha].
  split.
  - apply set_eq. intros k. rewrite elem_of_union, !uploaded_of_spec.
    unfold has_success_entry.
    rewrite (readlines_entries _ Hall), (readlines_entries _ Hb),
      (readlines_entries _ Ha).
    split.
    + intros (line & Hin & Hline). apply List.in_app_iff in Hin as [Hin|Hin]; eauto.
    + intros [(line & Hin & Hline)|(line & Hin & Hline)];
        exists line; (split; [apply List.in_app_iff; auto | exact Hline]).
  - rewrite !stats_of_tally. unfold tally. simpl.
    rewrite (readlines_entries _ Hall), (readlines_entries _ Hb),
      (readlines_entries _ Ha).
    rewrite !List.filter_app, !length_app. auto.
Qed.

Lemma readers_of_a_grown_log_witness :
  uploaded_of (file_text (first_log ++ first_log))
  = uploaded_of (file_text first_log) ∪ uploaded_of (file_text first_log) /\
  success (stats_of (file_text (first_log ++ first_log)))
  = (success (stats_of (file_text first_log))
     + success (stats_of (file_text first_log)))%nat /\
  failed (stats_of (file_text (first_log ++ first_log)))
  = (failed (stats_of (file_text first_log))
     + failed (stats_of (file_text first_log)))%nat /\
  duplicate (stats_of (file_text (first_log ++ first_log)))
  = (duplicate (stats_of (file_text first_log))
     + duplicate (stats_of (file_text first_log)))%nat.
Proof.
  apply (readers_of_a_grown_log first_log first_log).
  vm_compute. repeat constructor.
Defined.

Lemma success_line_counted line :
  is_success_line line = true -> counted "SUCCESS" line = true.
Proof.
  unfold is_success_line, counted. intros H.
  apply andb_true_iff in H as [Hlen Hst]. rewrite Hst, andb_true_r.
  apply Nat.leb_le in Hlen. apply Nat.leb_le. lia.
Qed.

Lemma uploaded_fold_size lines : forall acc : gset string,
  (size (fold_left
           (fun uploaded line =>
              if is_success_line line
              then uploaded ∪ {[ default EmptyString (parts_of line !! 0%nat) ]}
              else uploaded)
           lines acc)
   <= size acc + length (List.filter (counted "SUCCESS") lines))%nat.
Proof.
  induction lines as [|line lines IH]; intros acc; simpl; [lia|].
  destruct (is_success_line line) eqn:Hs.
  - rewrite (success_line_counted line Hs). simpl.
    etransitivity; [apply IH|].
    rewrite size_union_alt.
    assert (Hle : (size (({[default EmptyString (parts_of line !! 0%nat)]} : gset string)
                         ∖ acc) <= 1)%nat).
    { etransitivity;
        [apply (subseteq_size _
                  ({[default EmptyString (parts_of line !! 0%nat)]} : gset string));
         intros x Hx; apply elem_of_difference in Hx as [Hx _]; exact Hx|].
      rewrite size_singleton. reflexivity. }
    lia.
  - etransitivity; [apply IH|].
    destruct (counted "SUCCESS" line); simpl; lia.
Qed.

(** X20.  For every content of the log, the keys that
    [load_uploaded_records] returns are at most as many as the successes
    that [get_upload_stats] counts: a key is only held as uploaded for a
    line that is also counted. *)
Theorem uploaded_at_most_successes (content : string) :
  (size (uploaded_of content) <= success (stats_of content))%nat.
Proof.
  rewrite stats_of_tally. simpl. unfold uploaded_of, tally.
  etransitivity; [apply uploaded_fold_size|].
  rewrite size_empty. reflexivity.
Qed.

Lemma rstrip_line_end s : PyText.rstrip (s ++ PyText.LF)%string = PyText.rstrip s.
Proof.
  induction s as [|c s IH]; [reflexivity|].
  change (PyText.rstrip (String c (s ++ PyText.LF)) = PyText.rstrip (String c s)).
  cbn [PyText.rstrip]. rewrite IH. reflexivity.
Qed.

Lemma no_pipe_rstrip s : no_pipe s = true -> no_pipe (PyText.rstrip s) = true.
Proof.
  unfold no_pipe. induction s as [|c s IH]; [reflexivity|].
  simpl. intros H. apply andb_true_iff in H as [Hc Hs].
  specialize (IH Hs).
  destruct (PyText.rstrip s) eqn:Hr.
  - destruct (PyText.is_space c); [reflexivity|]. simpl. rewrite Hc. reflexivity.
  - simpl in *. rewrite Hc. exact IH.
Qed.

Lemma split_whole s : no_pipe s = true -> PyText.split "|" s = [s].
Proof.
  unfold no_pipe. induction s as [|c s IH]; [reflexivity|].
  simpl. intros H. apply andb_true_iff in H as [Hc Hs].
  unfold is_pipe in Hc. apply negb_true_iff in Hc. rewrite Hc, (IH Hs). reflexivity.
Qed.

(** X21.  The six fields.  For a clean text key, an outcome among the
    three, and a message, ids and time stamp without pipe, the line
    [log_result] writes splits into exactly six fields, in the order key,
    outcome, message, remote id, secondary id, time stamp (without the
    white space at its end). *)
Theorem log_line_six_fields
    (W : World) (k st msg : string) (o w : pyval) (ts : string) :
  clean_key k = true ->
  is_outcome st ->
  no_pipe msg = true ->
  no_pipe (py_str W (or_empty o)) = true ->
  no_pipe (py_str W (or_empty w)) = true ->
  no_pipe ts = true ->
  parts_of (log_entry W (VStr k) st msg o w ts)
  = [k; st; msg; py_str W (or_empty o); py_str W (or_empty w); PyText.rstrip ts].
Proof.
  unfold clean_key. intros Hk Hst Hmsg Ho Hw Hts.
  apply andb_true_iff in Hk as [Hk Hsp]. apply andb_true_iff in Hk as [Hpipe _].
  apply negb_true_iff in Hsp.
  unfold parts_of, PyText.strip, log_entry.
  change (py_str W (VStr k)) with k.
  change (k ++ "|" ++ st ++ "|" ++ msg ++ "|" ++ py_str W (or_empty o) ++ "|"
            ++ py_str W (or_empty w) ++ "|" ++ ts ++ PyText.LF)%string
    with (k ++ String "|" (st ++ String "|" (msg ++ String "|"
            (py_str W (or_empty o) ++ String "|"
               (py_str W (or_empty w) ++ String "|" (ts ++ PyText.LF))))))%string.
  rewrite (lstrip_clean _ (starts_with_space_app k _ Hsp)).
  rewrite !rstrip_pipe, rstrip_line_end.
  rewrite (split_field k _ Hpipe), (split_field st _ (outcome_no_pipe st Hst)),
    (split_field msg _ Hmsg), (split_field _ _ Ho), (split_field _ _ Hw),
    (split_whole _ (no_pipe_rstrip ts Hts)).
  reflexivity.
Qed.

Lemma log_line_six_fields_witness :
  parts_of (log_entry offline (VStr "A1") "SUCCESS" "Created" (VStr "1-abc") VNone
                      "2025-01-01 00:00:00")
  = ["A1"; "SUCCESS"; "Created"; py_str offline (or_empty (VStr "1-abc"));
     py_str offline (or_empty VNone); PyText.rstrip "2025-01-01 00:00:00"].
Proof.
  apply (log_line_six_fields offline "A1" "SUCCESS" "Created" (VStr "1-abc") VNone
           "2025-01-01 00:00:00"); try reflexivity.
  left. reflexivity.
Defined.
